(** * ACME transaction system: ingestion and reporting

    A shallow embedding of [app/csv_importer.py], [app/queue_consumer.py],
    [app/models.py], [app/reporting.py], [app/scheduled_reports.py] and the
    report endpoints of [app/api.py], with the properties of the ingestion
    pipeline and of the aggregation queries proved over it.

    Python values are an inductive type, exceptions are values of a result
    type, the SQLAlchemy session is an explicit state, and the functions of
    the Python runtime the code calls ([float], [datetime.fromisoformat],
    [str], [repr]) are the fields of a record [PyLib] the definitions take as
    an argument; [cpython] is an instance of it.

    The store is its four tables with the primary key, the foreign keys
    and the column types of models.py.  Four behaviours of the engine and
    of its driver are outside the model: the refusal of a text that holds a
    NUL character, the conversion of an aware timestamp written to a column
    without time zone, the order and the overflow error of [SUM] (the sums
    are binary64 additions in row order), and the identity map of the
    session (a lookup always goes to the database). *)

From Stdlib Require Import ZArith List String Ascii Bool Lia.
From Stdlib Require Import Sorting.Sorted Sorting.Permutation.
From Stdlib Require Import Floats.SpecFloat.
Import ListNotations.
Open Scope string_scope.
Open Scope Z_scope.

Set Implicit Arguments.
Set Warnings "-register-all".

(** ** Python values *)

(** A binary64 float, as [SpecFloat] has it. *)
Definition pyfloat := spec_float.

Definition prec : Z := 53.
Definition emax : Z := 1024.

(** The values a CSV reader or [json.loads] hands to the validators.  A
    [dict] keeps its insertion order; its keys are values ([csv.DictReader]
    files surplus columns under the key [None]). *)
Inductive pyval :=
| PNone
| PBool (b : bool)
| PInt (z : Z)
| PFloat (f : pyfloat)
| PStr (s : string)
| PList (l : list pyval)
| PDict (d : list (pyval * pyval)).

(** [type(v).__name__] *)
Definition type_name (v : pyval) : string :=
  match v with
  | PNone => "NoneType"
  | PBool _ => "bool"
  | PInt _ => "int"
  | PFloat _ => "float"
  | PStr _ => "str"
  | PList _ => "list"
  | PDict _ => "dict"
  end.

(** [bool(v)]: what [not v] tests. *)
Definition truthy (v : pyval) : bool :=
  match v with
  | PNone => false
  | PBool b => b
  | PInt z => negb (z =? 0)
  | PFloat (S754_zero _) => false
  | PFloat _ => true
  | PStr s => negb (s =? "")%string
  | PList l => match l with [] => false | _ => true end
  | PDict d => match d with [] => false | _ => true end
  end.

(** ** Exceptions and results *)

Record exn := Exn { exn_class : string; exn_str : string }.

Inductive result (A : Type) :=
| Return (a : A)
| Raise (e : exn).
Arguments Return {A} a.
Arguments Raise {A} e.

Definition bind {A B} (c : result A) (k : A -> result B) : result B :=
  match c with
  | Return a => k a
  | Raise e => Raise e
  end.

Notation "x <- c ;; k" := (bind c (fun x => k))
  (at level 61, c at next level, right associativity).

Definition TypeError (msg : string) : exn := Exn "TypeError" msg.
Definition ValueError (msg : string) : exn := Exn "ValueError" msg.
Definition AttributeError (msg : string) : exn := Exn "AttributeError" msg.
Definition KeyError (msg : string) : exn := Exn "KeyError" msg.

(** ** The datetime type *)

(** A [datetime.datetime]; [tzinfo] is the UTC offset in microseconds of
    an aware value. *)
Record datetime := Datetime {
  year : Z; month : Z; day : Z;
  hour : Z; minute : Z; second : Z; microsecond : Z;
  tzinfo : option Z
}.

Definition is_leap (y : Z) : bool :=
  (y mod 4 =? 0) && (negb (y mod 100 =? 0) || (y mod 400 =? 0)).

Definition days_in_month (y m : Z) : Z :=
  if m =? 2 then (if is_leap y then 29 else 28)
  else if (m =? 4) || (m =? 6) || (m =? 9) || (m =? 11) then 30
  else 31.

(** ** The runtime library *)

(** What the database refuses, see [INSERT] below. *)
Inductive db_error :=
| UniqueViolation (table : string)
| ForeignKeyViolation (column : string)
| NotText (column : string).

(** The built-ins and library functions the code calls. *)
Record PyLib := {
  py_float : pyval -> result pyfloat;          (* float(x) *)
  py_fromisoformat : string -> result datetime; (* datetime.fromisoformat(s) *)
  py_strptime_ym : string -> result datetime;   (* datetime.strptime(s, "%Y-%m") *)
  py_str : pyval -> string;                     (* str(x), and {x} in an f-string *)
  py_repr : pyval -> string;                    (* repr(x) *)
  db_error_str : db_error -> string             (* str(e) of a driver error *)
}.

(** ** Operators on values *)

Fixpoint is_substring (p s : string) : bool :=
  String.prefix p s ||
  match s with
  | EmptyString => false
  | String _ s' => is_substring p s'
  end.

Definition key_is (f : string) (k : pyval) : bool :=
  match k with
  | PStr s => (s =? f)%string
  | _ => false
  end.

Fixpoint dict_get (d : list (pyval * pyval)) (f : string) : option pyval :=
  match d with
  | [] => None
  | (k, v) :: d' => if key_is f k then Some v else dict_get d' f
  end.

(** [f in v] for a string [f] *)
Definition py_in (f : string) (v : pyval) : result bool :=
  match v with
  | PDict d => Return (match dict_get d f with Some _ => true | None => false end)
  | PList l => Return (existsb (key_is f) l)
  | PStr s => Return (is_substring f s)
  | _ => Raise (TypeError ("argument of type '" ++ type_name v ++ "' is not iterable"))
  end.

Section Runtime.
Context (L : PyLib).

(** [v[f]] for a string [f] *)
Definition py_getitem (v : pyval) (f : string) : result pyval :=
  match v with
  | PDict d =>
      match dict_get d f with
      | Some x => Return x
      | None => Raise (KeyError (py_repr L (PStr f)))
      end
  | PList _ => Raise (TypeError "list indices must be integers or slices, not str")
  | PStr _ => Raise (TypeError "string indices must be integers, not 'str'")
  | _ => Raise (TypeError ("'" ++ type_name v ++ "' object is not subscriptable"))
  end.

Fixpoint str_replace_char (c : ascii) (new s : string) : string :=
  match s with
  | EmptyString => EmptyString
  | String a s' =>
      if Ascii.eqb a c then new ++ str_replace_char c new s'
      else String a (str_replace_char c new s')
  end.

(** [v.replace("Z", "+00:00")] *)
Definition py_replace_Z (v : pyval) : result string :=
  match v with
  | PStr s => Return (str_replace_char "Z"%char "+00:00" s)
  | _ => Raise (AttributeError
                  ("'" ++ type_name v ++ "' object has no attribute 'replace'"))
  end.

(** ** models.py *)

Inductive TransactionStatus := pending | completed | failed.

(** [s.value] *)
Definition status_value (s : TransactionStatus) : string :=
  match s with
  | pending => "pending"
  | completed => "completed"
  | failed => "failed"
  end.

(** [[s.value for s in TransactionStatus]] *)
Definition status_values : list string :=
  map status_value [pending; completed; failed].

(** [v in [s.value for s in TransactionStatus]] *)
Definition is_status_value (v : pyval) : bool :=
  match v with
  | PStr s => existsb (String.eqb s) status_values
  | _ => false
  end.

(** [TransactionStatus(v)], the lookup of a member by value *)
Definition TransactionStatus_of (v : pyval) : result TransactionStatus :=
  match find (fun st => key_is (status_value st) v) [pending; completed; failed] with
  | Some st => Return st
  | None => Raise (ValueError (py_repr L v ++ " is not a valid TransactionStatus"))
  end.

(** ** Validation: csv_importer.validate_row, queue_consumer.validate_message *)

(** The pair a validator returns: [(True, None)] or [(False, reason)]. *)
Inductive verdict :=
| Valid
| Invalid (reason : string).

Definition required_fields : list string :=
  ["transaction_id"; "sender_id"; "receiver_id"; "amount"; "currency";
   "timestamp"; "status"].

(** The [try] block the two validators share, lines 45-49 of
    csv_importer.py and 46-50 of queue_consumer.py: [Some v] is the [return]
    inside the block, [None] falls through to the final [return]. *)
Definition check_values (row : pyval) : result (option verdict) :=
  a <- py_getitem row "amount" ;;
  _ <- py_float L a ;;
  t <- py_getitem row "timestamp" ;;
  t' <- py_replace_Z t ;;
  _ <- py_fromisoformat L t' ;;
  s <- py_getitem row "status" ;;
  if negb (is_status_value s) then
    s' <- py_getitem row "status" ;;
    Return (Some (Invalid ("Invalid status: " ++ py_str L s')))
  else Return None.

(** [try: ... except Exception as e: return False, str(e)] *)
Definition checked_values (row : pyval) : verdict :=
  match check_values row with
  | Return (Some v) => v
  | Return None => Valid
  | Raise e => Invalid (exn_str e)
  end.

(** The loop of validate_row: [field not in row or not row[field]]. *)
Fixpoint missing_in_row (row : pyval) (fields : list string)
  : result (option string) :=
  match fields with
  | [] => Return None
  | f :: fs =>
      present <- py_in f row ;;
      if negb present then Return (Some f)
      else
        v <- py_getitem row f ;;
        if negb (truthy v) then Return (Some f)
        else missing_in_row row fs
  end.

Definition validate_row (row : pyval) : result verdict :=
  m <- missing_in_row row required_fields ;;
  match m with
  | Some f => Return (Invalid ("Missing field: " ++ f))
  | None => Return (checked_values row)
  end.

(** The loop of validate_message: [field not in data]. *)
Fixpoint missing_in_message (data : pyval) (fields : list string)
  : result (option string) :=
  match fields with
  | [] => Return None
  | f :: fs =>
      present <- py_in f data ;;
      if negb present then Return (Some f)
      else missing_in_message data fs
  end.

Definition validate_message (data : pyval) : result verdict :=
  m <- missing_in_message data required_fields ;;
  match m with
  | Some f => Return (Invalid ("Missing field: " ++ f))
  | None => Return (checked_values data)
  end.

End Runtime.

(** ** models.py: the tables *)

(** A [Transaction] object as the importers build it.  The four text
    attributes hold whatever value the raw record had. *)
Record Transaction := {
  id : pyval;
  sender_id : pyval;
  receiver_id : pyval;
  amount : pyfloat;
  currency : pyval;
  timestamp : datetime;
  status : TransactionStatus
}.

(** A [RejectedRecord]; its [id] and [received_at] are given by the database
    on insertion and are not part of the model. *)
Record RejectedRecord := {
  reason : string;
  payload : string;
  source : string
}.

(** The database: the keys of the [users] and [currency] tables and the rows
    of [transactions] and [rejected_records], oldest first. *)
Record database := {
  users : list string;
  currencies : list string;
  transactions : list Transaction;
  rejected_records : list RejectedRecord
}.

Definition IntegrityError (msg : string) : exn := Exn "IntegrityError" msg.
Definition StatementError (msg : string) : exn := Exn "StatementError" msg.

Definition has_id (i : string) (tx : Transaction) : bool := key_is i (id tx).

Definition mem_string (s : string) (l : list string) : bool :=
  existsb (String.eqb s) l.

(** A value bound to a [String] column: the model covers text. *)
Definition as_text (v : pyval) : option string :=
  match v with
  | PStr s => Some s
  | _ => None
  end.

Inductive orm_object :=
| OTransaction (tx : Transaction)
| ORejectedRecord (rec : RejectedRecord).

(** A [Session]: the committed database, the database as the open
    transaction sees it, and the objects added and not yet flushed. *)
Record session := {
  s_durable : database;
  s_db : database;
  s_new : list orm_object
}.

Definition SUSPICIOUS_AMOUNT : Z := 10000.

(** [float(z)] for an integer that a binary64 holds exactly *)
Definition float_of_Z (z : Z) : pyfloat := binary_normalize prec emax z 0 false.

(** [f > z] *)
Definition float_gt (f : pyfloat) (z : Z) : bool := SFltb (float_of_Z z) f.

Inductive log_event :=
| LogInvalidRow (error : string) (row : pyval)        (* ERROR *)
| LogDuplicate (transaction_id : pyval)              (* WARNING *)
| LogSuspicious (transaction_id amount : pyval)      (* WARNING *)
| LogImportComplete                                  (* INFO *)
| LogInserted (transaction_id : pyval)               (* INFO *)
| LogSavedRejected (reason : string)                 (* INFO *)
| LogInvalidMessage (error : string)                 (* ERROR *)
| LogMalformedMessage (error : string).              (* ERROR *)

(** What became of one record: the branch the importer took. *)
Inductive outcome :=
| Accepted
| Quarantined (reason : string)
| Duplicate.

(** ** Stateful code: a state, a log and a result *)

Definition M (S A : Type) : Type := S -> S * list log_event * result A.

Definition ret {S A} (a : A) : M S A := fun s => (s, [], Return a).

Definition bindM {S A B} (m : M S A) (k : A -> M S B) : M S B :=
  fun s =>
    let '(s1, l1, r) := m s in
    match r with
    | Return a => let '(s2, l2, r2) := k a s1 in (s2, (l1 ++ l2)%list, r2)
    | Raise e => (s1, l1, Raise e)
    end.

Definition lift {S A} (r : result A) : M S A := fun s => (s, [], r).

(** [logging.error], [logging.warning], [logging.info] *)
Definition logging {S} (ev : log_event) : M S unit :=
  fun s => (s, [ev], Return tt).

(** [try: m  except Exception as e: h e] *)
Definition try_except {S A} (m : M S A) (h : exn -> M S A) : M S A :=
  fun s =>
    let '(s1, l1, r) := m s in
    match r with
    | Return a => (s1, l1, Return a)
    | Raise e => let '(s2, l2, r2) := h e s1 in (s2, (l1 ++ l2)%list, r2)
    end.

Notation "x <~ c ;; k" := (bindM c (fun x => k))
  (at level 61, c at next level, right associativity).
Notation "c ;;; k" := (bindM c (fun _ => k))
  (at level 61, right associativity).

Definition run_db {A} (r : database * list log_event * result A) : database :=
  fst (fst r).
Definition run_log {S A} (r : S * list log_event * result A) : list log_event :=
  snd (fst r).
Definition run_result {S A} (r : S * list log_event * result A) : result A :=
  snd r.

Section Store.
Context (L : PyLib).

Definition db_raise {A} (cls : string -> exn) (e : db_error) : result A :=
  Raise (cls (db_error_str L e)).

(** INSERT INTO transactions: the primary key, the three foreign keys and
    the column types of models.py. *)
Definition insert_transaction_row (db : database) (tx : Transaction)
  : result database :=
  match as_text (id tx), as_text (sender_id tx),
        as_text (receiver_id tx), as_text (currency tx) with
  | None, _, _, _ => db_raise StatementError (NotText "id")
  | _, None, _, _ => db_raise StatementError (NotText "sender_id")
  | _, _, None, _ => db_raise StatementError (NotText "receiver_id")
  | _, _, _, None => db_raise StatementError (NotText "currency")
  | Some i, Some s, Some r, Some c =>
      if existsb (has_id i) (transactions db) then
        db_raise IntegrityError (UniqueViolation "transactions")
      else if negb (mem_string s (users db)) then
        db_raise IntegrityError (ForeignKeyViolation "sender_id")
      else if negb (mem_string r (users db)) then
        db_raise IntegrityError (ForeignKeyViolation "receiver_id")
      else if negb (mem_string c (currencies db)) then
        db_raise IntegrityError (ForeignKeyViolation "currency")
      else
        Return {| users := users db; currencies := currencies db;
                  transactions := transactions db ++ [tx];
                  rejected_records := rejected_records db |}
  end.

(** INSERT INTO rejected_records *)
Definition insert_rejected_row (db : database) (rec : RejectedRecord)
  : database :=
  {| users := users db; currencies := currencies db;
     transactions := transactions db;
     rejected_records := rejected_records db ++ [rec] |}.

Definition insert_object (db : database) (o : orm_object) : result database :=
  match o with
  | OTransaction tx => insert_transaction_row db tx
  | ORejectedRecord rec => Return (insert_rejected_row db rec)
  end.

Fixpoint insert_objects (db : database) (os : list orm_object)
  : result database :=
  match os with
  | [] => Return db
  | o :: os' => db' <- insert_object db o ;; insert_objects db' os'
  end.

(** [Session(engine)] *)
Definition Session (db : database) : session :=
  {| s_durable := db; s_db := db; s_new := [] |}.

(** [session.add(o)] *)
Definition session_add (o : orm_object) : M session unit :=
  fun s =>
    ({| s_durable := s_durable s; s_db := s_db s; s_new := s_new s ++ [o] |},
     [], Return tt).

(** [session.flush()]: the pending objects are inserted in the order they
    were added. *)
Definition session_flush : M session unit :=
  fun s =>
    match insert_objects (s_db s) (s_new s) with
    | Return db' =>
        ({| s_durable := s_durable s; s_db := db'; s_new := [] |}, [], Return tt)
    | Raise e => (s, [], Raise e)
    end.

(** SELECT ... FROM transactions WHERE id = key *)
Definition select_transaction (key : pyval) : M session (option Transaction) :=
  fun s =>
    match as_text key with
    | None => (s, [], db_raise StatementError (NotText "id"))
    | Some i => (s, [], Return (find (has_id i) (transactions (s_db s))))
    end.

(** [session.get(Transaction, key)]: the session flushes, then selects by
    primary key. *)
Definition session_get (key : pyval) : M session (option Transaction) :=
  session_flush ;;; select_transaction key.

(** [session.commit()] *)
Definition session_commit : M session unit :=
  session_flush ;;;
  fun s => ({| s_durable := s_db s; s_db := s_db s; s_new := s_new s |},
            [], Return tt).

(** [with Session(engine) as session: body]: what was not committed when
    the block is left, normally or by an exception, is rolled back. *)
Definition with_Session {A} (body : M session A) : M database A :=
  fun db => let '(s, l, r) := body (Session db) in (s_durable s, l, r).

(** The [Transaction(...)] expression of import_csv (lines 74-82) and of
    insert_transaction (lines 66-74); the keyword arguments are evaluated
    in order. *)
Definition new_Transaction (row : pyval) : result Transaction :=
  i <- py_getitem L row "transaction_id" ;;
  s <- py_getitem L row "sender_id" ;;
  r <- py_getitem L row "receiver_id" ;;
  a <- py_getitem L row "amount" ;;
  a' <- py_float L a ;;
  c <- py_getitem L row "currency" ;;
  t <- py_getitem L row "timestamp" ;;
  t' <- py_replace_Z t ;;
  t'' <- py_fromisoformat L t' ;;
  st <- py_getitem L row "status" ;;
  st' <- TransactionStatus_of L st ;;
  Return {| id := i; sender_id := s; receiver_id := r; amount := a';
            currency := c; timestamp := t''; status := st' |}.

(** ** csv_importer.import_csv *)

(** The body of the [for row in reader] loop, lines 64-85. *)
Definition import_row (row : pyval) : M session outcome :=
  v <~ lift (validate_row L row) ;;
  match v with
  | Invalid error =>
      logging (LogInvalidRow error row) ;;;
      session_add (ORejectedRecord
        {| reason := error; payload := py_str L row; source := "csv" |}) ;;;
      ret (Quarantined error)
  | Valid =>
      k <~ lift (py_getitem L row "transaction_id") ;;
      found <~ session_get k ;;
      match found with
      | Some _ =>
          k' <~ lift (py_getitem L row "transaction_id") ;;
          logging (LogDuplicate k') ;;;
          ret Duplicate
      | None =>
          a <~ lift (py_getitem L row "amount") ;;
          f <~ lift (py_float L a) ;;
          let suspicious := float_gt f SUSPICIOUS_AMOUNT in
          tx <~ lift (new_Transaction row) ;;
          session_add (OTransaction tx) ;;;
          (if suspicious then
             i <~ lift (py_getitem L row "transaction_id") ;;
             a' <~ lift (py_getitem L row "amount") ;;
             logging (LogSuspicious i a')
           else ret tt) ;;;
          ret Accepted
      end
  end.

Fixpoint import_rows (rows : list pyval) : M session (list outcome) :=
  match rows with
  | [] => ret []
  | row :: rows' =>
      o <~ import_row row ;;
      os <~ import_rows rows' ;;
      ret (o :: os)
  end.

(** [import_csv], on the rows [csv.DictReader] yields for the file. *)
Definition import_csv (rows : list pyval) : M database (list outcome) :=
  with_Session (
    os <~ import_rows rows ;;
    session_commit ;;;
    logging LogImportComplete ;;;
    ret os).

(** ** queue_consumer *)

Definition insert_transaction (data : pyval) : M database outcome :=
  with_Session (
    k <~ lift (py_getitem L data "transaction_id") ;;
    found <~ session_get k ;;
    match found with
    | Some _ =>
        k' <~ lift (py_getitem L data "transaction_id") ;;
        logging (LogDuplicate k') ;;;
        ret Duplicate
    | None =>
        tx <~ lift (new_Transaction data) ;;
        session_add (OTransaction tx) ;;;
        session_commit ;;;
        logging (LogInserted (id tx)) ;;;
        ret Accepted
    end).

Definition save_rejected_record (reason payload source : string)
  : M database unit :=
  with_Session (
    session_add (ORejectedRecord
      {| reason := reason; payload := payload; source := source |}) ;;;
    session_commit ;;;
    logging (LogSavedRejected reason)).

(** A message body as [callback] uses it: through [json.loads(body)] and
    through [body.decode()] (the body pika delivers is a [bytes]). *)
Record delivery := {
  body_loads : result pyval;
  body_decode : result string
}.

Definition callback (body : delivery) : M database outcome :=
  try_except
    (data <~ lift (body_loads body) ;;
     v <~ lift (validate_message L data) ;;
     match v with
     | Invalid error =>
         logging (LogInvalidMessage error) ;;;
         text <~ lift (body_decode body) ;;
         save_rejected_record error text "queue" ;;;
         ret (Quarantined error)
     | Valid => insert_transaction data
     end)
    (fun e =>
       logging (LogMalformedMessage (exn_str e)) ;;;
       text <~ lift (body_decode body) ;;
       save_rejected_record (exn_str e) text "queue" ;;;
       ret (Quarantined (exn_str e))).

End Store.

(** ** csv.DictReader *)

(** [d[k] = v] on an insertion-ordered dict *)
Fixpoint dict_set (d : list (pyval * pyval)) (k : string) (v : pyval)
  : list (pyval * pyval) :=
  match d with
  | [] => [(PStr k, v)]
  | (k', v') :: d' =>
      if key_is k k' then (k', v) :: d' else (k', v') :: dict_set d' k v
  end.

(** The dict [csv.DictReader] builds from the header and the fields of one
    record: [dict(zip(fieldnames, row))], surplus fields under the key
    [None], missing fields as [None]. *)
Definition DictReader_row (fieldnames row : list string) : pyval :=
  let d := fold_left (fun d kv => dict_set d (fst kv) (PStr (snd kv)))
                     (combine fieldnames row) [] in
  let lf := List.length fieldnames in
  let lr := List.length row in
  if (lf <? lr)%nat then
    PDict (d ++ [(PNone, PList (map PStr (skipn lf row)))])%list
  else
    PDict (fold_left (fun d k => dict_set d k PNone) (skipn lr fieldnames) d).

(** The text of a record whose fields need no quoting. *)
Definition csv_line (fields : list string) : string := String.concat "," fields.

(** ** reporting.py *)

(** A [datetime.date] *)
Record date := Date { d_year : Z; d_month : Z; d_day : Z }.

Fixpoint lex_leb (a b : list Z) : bool :=
  match a, b with
  | [], _ => true
  | _ :: _, [] => false
  | x :: a', y :: b' => (x <? y) || ((x =? y) && lex_leb a' b')
  end.

(** The fields a DateTime column orders by. *)
Definition datetime_fields (t : datetime) : list Z :=
  [year t; month t; day t; hour t; minute t; second t; microsecond t].

Definition date_fields (d : date) : list Z := [d_year d; d_month d; d_day d].

(** A date compared with a timestamp stands for its midnight. *)
Definition midnight (d : date) : list Z := (date_fields d ++ [0; 0; 0; 0])%list.

Definition timestamp_leb (a b : datetime) : bool :=
  lex_leb (datetime_fields a) (datetime_fields b).

Definition date_leb (a b : date) : bool := lex_leb (date_fields a) (date_fields b).

(** [Transaction.timestamp >= d] *)
Definition timestamp_ge (t : datetime) (d : date) : bool :=
  lex_leb (midnight d) (datetime_fields t).

(** [Transaction.timestamp <= d] *)
Definition timestamp_le (t : datetime) (d : date) : bool :=
  lex_leb (datetime_fields t) (midnight d).

(** [Transaction.timestamp < d] *)
Definition timestamp_lt (t : datetime) (d : date) : bool :=
  negb (timestamp_ge t d).

(** [func.date(Transaction.timestamp)] *)
Definition date_of (t : datetime) : date :=
  {| d_year := year t; d_month := month t; d_day := day t |}.

Definition date_eqb (a b : date) : bool :=
  (d_year a =? d_year b) && (d_month a =? d_month b) && (d_day a =? d_day b).

(** Sorting, for [order_by] and [sorted]. *)
Fixpoint insert_by {A} (leb : A -> A -> bool) (x : A) (l : list A) : list A :=
  match l with
  | [] => [x]
  | y :: l' => if leb x y then x :: l else y :: insert_by leb x l'
  end.

Fixpoint sort_by {A} (leb : A -> A -> bool) (l : list A) : list A :=
  match l with
  | [] => []
  | x :: l' => insert_by leb x (sort_by leb l')
  end.

(** [query.order_by(Transaction.timestamp).all()] *)
Definition order_by_timestamp (rows : list Transaction) : list Transaction :=
  sort_by (fun a b => timestamp_leb (timestamp a) (timestamp b)) rows.

(** ["%0<width>d" % n] *)
Fixpoint zfill (width : nat) (n : Z) (acc : string) : string :=
  match width with
  | O => acc
  | S w => zfill w (n / 10) (String (ascii_of_nat (48 + Z.to_nat (n mod 10))) acc)
  end.

(** [date.isoformat()] *)
Definition date_isoformat (d : date) : string :=
  zfill 4 (d_year d) "" ++ "-" ++ zfill 2 (d_month d) "" ++ "-"
  ++ zfill 2 (d_day d) "".

(** The UTC offset as [datetime.isoformat()] writes it. *)
Definition format_offset (off : option Z) : string :=
  match off with
  | None => ""
  | Some o =>
      let a := Z.abs o in
      let ss := (a / 1000000) mod 60 in
      let us := a mod 1000000 in
      (if o <? 0 then "-" else "+")
      ++ zfill 2 (a / 3600000000) "" ++ ":"
      ++ zfill 2 ((a / 60000000) mod 60) ""
      ++ (if (ss =? 0) && (us =? 0) then ""
          else ":" ++ zfill 2 ss "" ++ (if us =? 0 then "" else "." ++ zfill 6 us ""))
  end.

(** [datetime.isoformat()] *)
Definition isoformat (t : datetime) : string :=
  date_isoformat (date_of t) ++ "T"
  ++ zfill 2 (hour t) "" ++ ":" ++ zfill 2 (minute t) "" ++ ":"
  ++ zfill 2 (second t) ""
  ++ (if microsecond t =? 0 then "" else "." ++ zfill 6 (microsecond t) "")
  ++ format_offset (tzinfo t).

(** [Transaction.sender_id == user_id], [Transaction.receiver_id == user_id] *)
Definition is_sender (user_id : string) (tx : Transaction) : bool :=
  key_is user_id (sender_id tx).
Definition is_receiver (user_id : string) (tx : Transaction) : bool :=
  key_is user_id (receiver_id tx).

(** The dict built for each transaction, lines 38-46 and 59-67. *)
Definition payment_dict (tx : Transaction) : pyval :=
  PDict [(PStr "id", id tx);
         (PStr "sender_id", sender_id tx);
         (PStr "receiver_id", receiver_id tx);
         (PStr "amount", PFloat (amount tx));
         (PStr "currency", currency tx);
         (PStr "timestamp", PStr (isoformat (timestamp tx)));
         (PStr "status", PStr (status_value (status tx)))].

(** [if bound: query = query.filter(test)]; a [date] is always true. *)
Definition filter_if {A} (bound : option date) (test : date -> A -> bool)
  (query : list A) : list A :=
  match bound with
  | Some d => filter (test d) query
  | None => query
  end.

(** [sqlalchemy.exc.UnboundExecutionError]: a query is run on a session
    that has no engine. *)
Definition UnboundExecutionError : exn :=
  Exn "UnboundExecutionError"
      "Could not locate a bind configured on mapper Mapper[Transaction(transactions)], SQL expression or this Session.".

(** [get_payments_by_user]: [db] is the session argument.  [bind] is the
    database a [Session()] of the module reaches: reporting.py imports
    sqlalchemy's [Session] and calls it without an engine, so in the module
    as it is there is none ([None]) and the query raises at [.all()];
    tests/test_reporting.py replaces the name [Session] of the module by a
    factory of sessions on its own database ([Some]). *)
Definition get_payments_by_user (user_id : string)
  (start_date end_date : option date) (db : option database)
  (bind : option database) : result (list pyval) :=
  match db with
  | None =>
      match bind with
      | None => Raise UnboundExecutionError
      | Some session =>
          let query := filter (fun tx => is_sender user_id tx || is_receiver user_id tx)
                              (transactions session) in
          let query := filter_if start_date
                         (fun d tx => timestamp_ge (timestamp tx) d) query in
          let query := filter_if end_date
                         (fun d tx => timestamp_lt (timestamp tx) d) query in
          Return (map payment_dict (order_by_timestamp query))
      end
  | Some db =>
      let query := filter (fun tx => is_sender user_id tx || is_receiver user_id tx)
                          (transactions db) in
      let query := filter_if start_date
                     (fun d tx => timestamp_ge (timestamp tx) d) query in
      let query := filter_if end_date
                     (fun d tx => timestamp_le (timestamp tx) d) query in
      Return (map payment_dict (order_by_timestamp query))
  end.

(** [func.sum(Transaction.amount) ... group_by(func.date(Transaction.timestamp))]:
    one group per day, in the order the days are first met; a group's sum
    starts from its first amount. *)
Fixpoint group_add (d : date) (x : pyfloat) (groups : list (date * pyfloat))
  : list (date * pyfloat) :=
  match groups with
  | [] => [(d, x)]
  | (d', acc) :: groups' =>
      if date_eqb d' d then (d', SFadd prec emax acc x) :: groups'
      else (d', acc) :: group_add d x groups'
  end.

Definition sum_by_day (rows : list Transaction) : list (date * pyfloat) :=
  fold_left (fun groups tx => group_add (date_of (timestamp tx)) (amount tx) groups)
            rows [].

(** [float(total or 0)] *)
Definition float_or_0 (total : pyfloat) : pyfloat :=
  if truthy (PFloat total) then total else S754_zero false.

(** The inner dict of [totals]: the keys "total_sent" and "total_received",
    each present or not. *)
Record day_totals := {
  sent_entry : option pyfloat;
  received_entry : option pyfloat
}.

(** [totals.setdefault(day, {})["total_sent"] = x] *)
Fixpoint set_total_sent (d : date) (x : pyfloat) (totals : list (date * day_totals))
  : list (date * day_totals) :=
  match totals with
  | [] => [(d, {| sent_entry := Some x; received_entry := None |})]
  | (d', e) :: totals' =>
      if date_eqb d' d then
        (d', {| sent_entry := Some x; received_entry := received_entry e |}) :: totals'
      else (d', e) :: set_total_sent d x totals'
  end.

(** [totals.setdefault(day, {})["total_received"] = x] *)
Fixpoint set_total_received (d : date) (x : pyfloat)
  (totals : list (date * day_totals)) : list (date * day_totals) :=
  match totals with
  | [] => [(d, {| sent_entry := None; received_entry := Some x |})]
  | (d', e) :: totals' =>
      if date_eqb d' d then
        (d', {| sent_entry := sent_entry e; received_entry := Some x |}) :: totals'
      else (d', e) :: set_total_received d x totals'
  end.

(** [totals[day]] *)
Fixpoint totals_get (totals : list (date * day_totals)) (d : date)
  : option day_totals :=
  match totals with
  | [] => None
  | (d', e) :: totals' => if date_eqb d' d then Some e else totals_get totals' d
  end.

(** One entry of the output of [get_daily_totals], before [day] is
    rendered. *)
Record daily_total := {
  dt_day : date;
  total_sent : pyfloat;
  total_received : pyfloat
}.

(** [.get(key, 0.0)] *)
Definition get_or_0 (entry : option pyfloat) : pyfloat :=
  match entry with
  | Some x => x
  | None => S754_zero false
  end.

(** Lines 85-118 and 122-155, which are the same text: both use [<] for the
    end date. *)
Definition daily_totals_of (user_id : string) (start_date end_date : option date)
  (rows : list Transaction) : list daily_total :=
  let in_filters tx :=
    match start_date with
    | Some d => timestamp_ge (timestamp tx) d
    | None => true
    end &&
    match end_date with
    | Some d => timestamp_lt (timestamp tx) d
    | None => true
    end in
  let sent :=
    sum_by_day (filter (fun tx => is_sender user_id tx && in_filters tx) rows) in
  let received :=
    sum_by_day (filter (fun tx => is_receiver user_id tx && in_filters tx) rows) in
  let totals :=
    fold_left (fun t row => set_total_sent (fst row) (float_or_0 (snd row)) t)
              sent [] in
  let totals :=
    fold_left (fun t row => set_total_received (fst row) (float_or_0 (snd row)) t)
              received totals in
  map (fun d =>
         {| dt_day := d;
            total_sent :=
              get_or_0 (match totals_get totals d with
                        | Some e => sent_entry e | None => None end);
            total_received :=
              get_or_0 (match totals_get totals d with
                        | Some e => received_entry e | None => None end) |})
      (sort_by date_leb (map fst totals)).

Definition daily_total_dict (e : daily_total) : pyval :=
  PDict [(PStr "day", PStr (date_isoformat (dt_day e)));
         (PStr "total_sent", PFloat (total_sent e));
         (PStr "total_received", PFloat (total_received e))].

(** [get_daily_totals]; [db] and [bind] as in [get_payments_by_user]. *)
Definition get_daily_totals (user_id : string)
  (start_date end_date : option date) (db : option database)
  (bind : option database) : result (list pyval) :=
  match db with
  | None =>
      match bind with
      | None => Raise UnboundExecutionError
      | Some session =>
          Return (map daily_total_dict
                      (daily_totals_of user_id start_date end_date
                                       (transactions session)))
      end
  | Some db =>
      Return (map daily_total_dict
                  (daily_totals_of user_id start_date end_date (transactions db)))
  end.

(** [for x in xs: ...] with a body that may raise, collecting the results. *)
Fixpoint for_each {A B} (f : A -> result B) (xs : list A) : result (list B) :=
  match xs with
  | [] => Return []
  | x :: xs' => y <- f x ;; ys <- for_each f xs' ;; Return (y :: ys)
  end.

(** ** scheduled_reports.py *)

Section Callers.
Context (L : PyLib).

(** [date(year, month, day)], with the checks of the constructor. *)
Definition new_date (y m d : Z) : result date :=
  if (y <? 1) || (9999 <? y) then
    Raise (ValueError ("year " ++ py_repr L (PInt y) ++ " is out of range"))
  else if (m <? 1) || (12 <? m) then Raise (ValueError "month must be in 1..12")
  else if (d <? 1) || (days_in_month y m <? d) then
    Raise (ValueError "day is out of range for month")
  else Return {| d_year := y; d_month := m; d_day := d |}.

(** [d.replace(year=..., month=..., day=...)] *)
Definition date_replace (d : date) (y m day : option Z) : result date :=
  new_date (match y with Some y => y | None => d_year d end)
           (match m with Some m => m | None => d_month d end)
           (match day with Some x => x | None => d_day d end).

(** [get_month_range]; [today] is [date.today()]. *)
Definition get_month_range (today : date) (target_month : option string)
  : result (date * date) :=
  first_day <-
    (match target_month with
     | Some s =>
         if truthy (PStr s) then
           dt <- py_strptime_ym L s ;;
           date_replace (date_of dt) None None (Some 1)
         else date_replace today None None (Some 1)
     | None => date_replace today None None (Some 1)
     end) ;;
  next_month <-
    (if d_month first_day =? 12 then
       date_replace first_day (Some (d_year first_day + 1)) (Some 1) (Some 1)
     else date_replace first_day None (Some (d_month first_day + 1)) (Some 1)) ;;
  Return (first_day, next_month).

(** What [generate_monthly_reports] computes for each user before it is
    written to the files: the payments and the daily totals of the month,
    both queried with the session of the job.  An exception ends the job
    with a message. *)
Definition generate_monthly_reports (today : date) (target_month : option string)
  (db : database) : result (list (string * list pyval * list pyval)) :=
  range <- get_month_range today target_month ;;
  let '(start_date, end_date) := range in
  for_each (fun user_id =>
              payments <- get_payments_by_user user_id (Some start_date)
                                               (Some end_date) (Some db) None ;;
              daily <- get_daily_totals user_id (Some start_date) (Some end_date)
                                        (Some db) None ;;
              Return (user_id, payments, daily))
           (users db).

(** ** api.py *)

(** An [HTTPException] with its status code and detail. *)
Inductive http_result (A : Type) :=
| Respond (a : A)
| HTTPException (status_code : Z) (detail : string)
| Uncaught (e : exn).
Arguments Respond {A} a.
Arguments HTTPException {A} status_code detail.
Arguments Uncaught {A} e.

(** [except ValueError]: the class of the exception is [ValueError]. *)
Definition is_ValueError (e : exn) : bool := (exn_class e =? "ValueError")%string.

(** [parse_date] *)
Definition parse_date (date_str : option string) : http_result (option date) :=
  match date_str with
  | Some s =>
      if truthy (PStr s) then
        match py_fromisoformat L s with
        | Return dt => Respond (Some (date_of dt))
        | Raise e =>
            if is_ValueError e then
              HTTPException 422 ("Invalid date format: " ++ s)
            else Uncaught e
        end
      else Respond None
  | None => Respond None
  end.

(** [parse_date(x) if x else None] *)
Definition parse_date_if (date_str : option string) : http_result (option date) :=
  match date_str with
  | Some s => if truthy (PStr s) then parse_date date_str else Respond None
  | None => Respond None
  end.

(** The data of the endpoint [/reports/payments/{user_id}], before it is
    rendered as JSON or CSV. *)
Definition payments_by_user (user_id : string) (start_date end_date : option string)
  (db : database) : http_result (list pyval) :=
  match parse_date_if start_date with
  | Respond s_date =>
      match parse_date_if end_date with
      | Respond e_date =>
          match get_payments_by_user user_id s_date e_date (Some db) None with
          | Return data => Respond data
          | Raise e => Uncaught e
          end
      | HTTPException c d => HTTPException c d
      | Uncaught e => Uncaught e
      end
  | HTTPException c d => HTTPException c d
  | Uncaught e => Uncaught e
  end.

(** The data of the endpoint [/reports/daily_totals/{user_id}]. *)
Definition daily_totals (user_id : string) (start_date end_date : option string)
  (db : database) : http_result (list pyval) :=
  match parse_date_if start_date with
  | Respond s_date =>
      match parse_date_if end_date with
      | Respond e_date =>
          match get_daily_totals user_id s_date e_date (Some db) None with
          | Return data => Respond data
          | Raise e => Uncaught e
          end
      | HTTPException c d => HTTPException c d
      | Uncaught e => Uncaught e
      end
  | HTTPException c d => HTTPException c d
  | Uncaught e => Uncaught e
  end.

(** ** The entry points of the importers *)

(** What [parser.parse_args()] makes of the command line: the filename, or
    the exit of argparse itself (status 2 with the usage when the arguments
    are refused, status 0 after the help). *)
Inductive parsed_args :=
| Parsed (filename : string)
| ArgparseExit (status : Z).

(** What reading a file gives: the rows [csv.DictReader] yields and, when
    the reader fails on a later line, its error. *)
Definition reading : Type := list pyval * option exn.

(** [import_csv(filename)] from the file system: [file] is the error of
    [open], or what is read.  An error of the reader leaves the [with]
    block like any other. *)
Definition import_csv_file (file : result reading) : M database (list outcome) :=
  match file with
  | Raise e => lift (Raise e)
  | Return (rows, None) => import_csv L rows
  | Return (rows, Some e) => with_Session (import_rows L rows ;;; lift (Raise e))
  end.

(** [csv_importer.main]: [args] is what argparse makes of the command line
    and [open_file] what the file system holds; the result is the exit
    status of the command. *)
Definition csv_importer_main (args : parsed_args)
  (open_file : string -> result reading) : M database Z :=
  fun db =>
    match args with
    | ArgparseExit status => (db, [], Return status)
    | Parsed filename =>
        let '(db', log, r) := import_csv_file (open_file filename) db in
        match r with
        | Return _ => (db', log, Return 0)
        | Raise _ => (db', log, Return 1)
        end
    end.

(** [queue_consumer.main] on the messages delivered so far: each is handed
    to [callback]; an exception of [callback] ends the consumer. *)
Fixpoint consume (bodies : list delivery) : M database (list outcome) :=
  match bodies with
  | [] => ret []
  | body :: bodies' =>
      o <~ callback L body ;;
      os <~ consume bodies' ;;
      ret (o :: os)
  end.

End Callers.

Arguments Respond {A} a.
Arguments HTTPException {A} status_code detail.
Arguments Uncaught {A} e.

(** ** An instance of the runtime: CPython 3.11 on ASCII text *)

Module CPython.

Definition code (c : ascii) : Z := Z.of_nat (nat_of_ascii c).

Definition is_digit (c : ascii) : bool := (48 <=? code c) && (code c <=? 57).

(** The characters [float] strips: space, \t, \n, \v, \f, \r. *)
Definition is_space (c : ascii) : bool :=
  (code c =? 32) || ((9 <=? code c) && (code c <=? 13)).

Fixpoint lstrip (l : list ascii) : list ascii :=
  match l with
  | c :: l' => if is_space c then lstrip l' else l
  | [] => []
  end.

Definition strip (l : list ascii) : list ascii := rev (lstrip (rev (lstrip l))).

Definition lower (c : ascii) : ascii :=
  if (65 <=? code c) && (code c <=? 90) then ascii_of_nat (nat_of_ascii c + 32)
  else c.

Definition hex_digit (n : Z) : ascii :=
  ascii_of_nat (Z.to_nat (if n <? 10 then 48 + n else 87 + n)).

Definition squote : ascii := ascii_of_nat 39.
Definition dquote : ascii := ascii_of_nat 34.
Definition backslash : ascii := ascii_of_nat 92.

(** [repr] of a [str]: the quote is the single quote unless the text has a
    single quote and no double quote; bytes above 127 are left as they are
    (printable text). *)
Definition repr_char (quote : ascii) (c : ascii) : string :=
  if Ascii.eqb c backslash then String backslash (String backslash "")
  else if Ascii.eqb c quote then String backslash (String quote "")
  else if code c =? 9 then String backslash "t"
  else if code c =? 10 then String backslash "n"
  else if code c =? 13 then String backslash "r"
  else if (code c <? 32) || (code c =? 127) then
    String backslash "x" ++ String (hex_digit (code c / 16)) (String (hex_digit (code c mod 16)) "")
  else String c "".

Definition has_char (c : ascii) (s : string) : bool :=
  existsb (Ascii.eqb c) (list_ascii_of_string s).

Definition repr_str (s : string) : string :=
  let quote := if has_char squote s && negb (has_char dquote s)
               then dquote else squote in
  String quote (String.concat "" (map (repr_char quote) (list_ascii_of_string s)))
  ++ String quote "".

(** Decimal digits of a natural number. *)
Fixpoint digits_fuel (fuel : nat) (n : Z) (acc : string) : string :=
  match fuel with
  | O => acc
  | S fuel' =>
      let acc' := String (ascii_of_nat (48 + Z.to_nat (n mod 10))) acc in
      if n <? 10 then acc' else digits_fuel fuel' (n / 10) acc'
  end.

(** [repr] of an [int] *)
Definition repr_int (z : Z) : string :=
  let a := Z.abs z in
  (if z <? 0 then "-" else "") ++ digits_fuel (S (Z.to_nat (Z.log2 a))) a "".

(** The integer a finite float is, when it is one. *)
Definition integral_value (m : positive) (e : Z) : option Z :=
  if 0 <=? e then Some (Z.pos m * 2 ^ e)
  else if (Z.pos m) mod 2 ^ (- e) =? 0 then Some (Z.pos m / 2 ^ (- e))
  else None.

(** [repr] of a [float]: exact on the special values, on zero and on
    integral values below 10^16; other values are written [<float>]. *)
Definition repr_float (f : pyfloat) : string :=
  match f with
  | S754_nan => "nan"
  | S754_infinity s => if s then "-inf" else "inf"
  | S754_zero s => if s then "-0.0" else "0.0"
  | S754_finite s m e =>
      match integral_value m e with
      | Some n =>
          if n <? 10 ^ 16 then (if s then "-" else "") ++ repr_int n ++ ".0"
          else "<float>"
      | None => "<float>"
      end
  end.

Fixpoint repr (v : pyval) : string :=
  match v with
  | PNone => "None"
  | PBool b => if b then "True" else "False"
  | PInt z => repr_int z
  | PFloat f => repr_float f
  | PStr s => repr_str s
  | PList l => "[" ++ String.concat ", " (map repr l) ++ "]"
  | PDict d =>
      "{" ++ String.concat ", "
               (map (fun kv => repr (fst kv) ++ ": " ++ repr (snd kv)) d) ++ "}"
  end.

Definition str (v : pyval) : string :=
  match v with
  | PStr s => s
  | _ => repr v
  end.

(** *** [float] *)

Fixpoint span_digits (l : list ascii) : list ascii * list ascii :=
  match l with
  | c :: l' =>
      if is_digit c then let '(ds, r) := span_digits l' in (c :: ds, r)
      else ([], l)
  | [] => ([], [])
  end.

Definition digits_value (ds : list ascii) : Z :=
  fold_left (fun acc c => 10 * acc + (code c - 48)) ds 0.

(** Underscores stand between two digits only; they are removed. *)
Fixpoint drop_underscores (prev : option ascii) (l : list ascii)
  : option (list ascii) :=
  match l with
  | [] =>
      match prev with
      | Some p => if Ascii.eqb p "_" then None else Some []
      | None => Some []
      end
  | c :: l' =>
      let prev_digit := match prev with Some p => is_digit p | None => false end in
      let prev_under :=
        match prev with Some p => Ascii.eqb p "_" | None => false end in
      if Ascii.eqb c "_" then
        if prev_digit then drop_underscores (Some c) l' else None
      else if prev_under && negb (is_digit c) then None
      else option_map (cons c) (drop_underscores (Some c) l')
  end.

Definition take_sign (l : list ascii) : bool * list ascii :=
  match l with
  | "-"%char :: l' => (true, l')
  | "+"%char :: l' => (false, l')
  | _ => (false, l)
  end.

(** [digits [. digits] [e [sign] digits]]: the mantissa and the power of
    ten. *)
Definition parse_decimal (l : list ascii) : option (Z * Z) :=
  let '(ip, r1) := span_digits l in
  let '(fp, r2) :=
    match r1 with
    | "."%char :: r => span_digits r
    | _ => ([], r1)
    end in
  match ip, fp with
  | [], [] => None
  | _, _ =>
      let m := digits_value (ip ++ fp) in
      let e := - Z.of_nat (List.length fp) in
      match r2 with
      | [] => Some (m, e)
      | c :: r3 =>
          if Ascii.eqb (lower c) "e" then
            let '(neg, r4) := take_sign r3 in
            let '(ed, r5) := span_digits r4 in
            match ed, r5 with
            | _ :: _, [] =>
                Some (m, e + (if neg then - digits_value ed else digits_value ed))
            | _, _ => None
            end
          else None
      end
  end.

(** The binary64 nearest to [m * 10^e], ties to even. *)
Definition round_decimal (neg : bool) (m e : Z) : pyfloat :=
  if m =? 0 then S754_zero neg
  else if 0 <=? e then
    binary_normalize prec emax (if neg then - (m * 10 ^ e) else m * 10 ^ e) 0 neg
  else
    let '(q, e', l) := SFdiv_core_binary prec emax m 0 (10 ^ (- e)) 0 in
    binary_round_aux prec emax neg q e' l.

Definition parse_float (s : string) : option pyfloat :=
  match drop_underscores None (strip (list_ascii_of_string s)) with
  | None => None
  | Some l =>
      let '(neg, body) := take_sign l in
      let word := string_of_list_ascii (map lower body) in
      if (word =? "inf")%string || (word =? "infinity")%string then
        Some (S754_infinity neg)
      else if (word =? "nan")%string then Some S754_nan
      else
        match parse_decimal body with
        | Some (m, e) => Some (round_decimal neg m e)
        | None => None
        end
  end.

Definition OverflowError (msg : string) : exn := Exn "OverflowError" msg.

Definition float (v : pyval) : result pyfloat :=
  match v with
  | PFloat f => Return f
  | PBool b => Return (if b then float_of_Z 1 else S754_zero false)
  | PInt z =>
      match binary_normalize prec emax z 0 false with
      | S754_infinity _ => Raise (OverflowError "int too large to convert to float")
      | f => Return f
      end
  | PStr s =>
      match parse_float s with
      | Some f => Return f
      | None => Raise (ValueError ("could not convert string to float: " ++ repr_str s))
      end
  | _ => Raise (TypeError ("float() argument must be a string or a real number, not '"
                           ++ type_name v ++ "'"))
  end.

(** *** [datetime.fromisoformat]

    The calendar formats YYYY-MM-DD and YYYYMMDD with an optional time and
    offset, as CPython 3.11 reads them; the ISO week formats (a [W] as the
    fifth or sixth character) are not covered and are reported as invalid. *)

(** [parse_digits]: exactly [n] digits *)
Fixpoint parse_digits (n : nat) (acc : Z) (l : list ascii)
  : option (Z * list ascii) :=
  match n with
  | O => Some (acc, l)
  | S n' =>
      match l with
      | c :: l' =>
          if is_digit c then parse_digits n' (10 * acc + (code c - 48)) l'
          else None
      | [] => None
      end
  end.

Definition nul : ascii := ascii_of_nat 0.

(** The fraction of [parse_hh_mm_ss_ff]: [l] starts at the first digit, [n]
    characters are left before the end of the part. *)
Definition parse_fraction (l : list ascii) (n : Z) : option (Z * bool) :=
  let to_parse := Z.to_nat (Z.min n 6) in
  match parse_digits to_parse 0 l with
  | None => None
  | Some (v, l') =>
      let us := v * 10 ^ (6 - Z.of_nat to_parse) in
      match snd (span_digits l') with
      | [] => Some (us, false)
      | _ :: _ => Some (us, true)
      end
  end.

(** [parse_hh_mm_ss_ff]: [l] is the text from the current position, [n] the
    number of characters before the end of the part; the result is the
    four fields and whether text is left. *)
Fixpoint parse_hh_mm_ss_ff (i : nat) (has_separator : bool) (vals : list Z)
  (l : list ascii) (n : Z) : option (list Z * Z * bool) :=
  match i with
  | O => option_map (fun r => (vals, fst r, snd r)) (parse_fraction l n)
  | S i' =>
      match parse_digits 2 0 l with
      | None => None
      | Some (v, l1) =>
          let vals := (vals ++ [v])%list in
          let c := hd nul l1 in
          let has_separator :=
            match vals with [_] => Ascii.eqb c ":" | _ => has_separator end in
          if n - 3 <=? 0 then
            Some ((vals ++ repeat 0 i')%list, 0, negb (Ascii.eqb c nul))
          else if has_separator && Ascii.eqb c ":" then
            parse_hh_mm_ss_ff i' has_separator vals (tl l1) (n - 3)
          else if Ascii.eqb c "." || Ascii.eqb c "," then
            option_map (fun r => ((vals ++ repeat 0 i')%list, fst r, snd r))
                       (parse_fraction (tl l1) (n - 3))
          else if negb has_separator then
            parse_hh_mm_ss_ff i' has_separator vals l1 (n - 2)
          else None
      end
  end.

Definition is_tz_char (c : ascii) : bool :=
  Ascii.eqb c "Z" || Ascii.eqb c "+" || Ascii.eqb c "-".

Fixpoint tz_position (l : list ascii) : nat :=
  match l with
  | c :: l' => if is_tz_char c then O else S (tz_position l')
  | [] => O
  end.

(** [parse_isoformat_time]: the time fields and the offset (seconds and
    microseconds) of an aware value. *)
Definition parse_isoformat_time (l : list ascii)
  : option (list Z * Z * option (Z * Z)) :=
  let pos := match l with [] => 1%nat | _ => tz_position l end in
  match parse_hh_mm_ss_ff 3 true [] l (Z.of_nat pos) with
  | None => None
  | Some (vals, us, more) =>
      match skipn pos l with
      | [] => if more then None else Some (vals, us, None)
      | c :: tz =>
          if Ascii.eqb c "Z" then
            match tz with
            | [] => Some (vals, us, Some (0, 0))
            | _ => None
            end
          else
            let sign := if Ascii.eqb c "-" then -1 else 1 in
            match parse_hh_mm_ss_ff 3 true [] tz (Z.of_nat (List.length tz)) with
            | Some ([h; m; s], tzus, false) =>
                Some (vals, us, Some (sign * (h * 3600 + m * 60 + s), sign * tzus))
            | _ => None
            end
      end
  end.

(** [parse_isoformat_date] on the calendar formats *)
Definition parse_isoformat_date (l : list ascii) : option (Z * Z * Z) :=
  match parse_digits 4 0 l with
  | None => None
  | Some (y, l1) =>
      let uses_separator := Ascii.eqb (hd nul l1) "-" in
      let l2 := if uses_separator then tl l1 else l1 in
      match parse_digits 2 0 l2 with
      | None => None
      | Some (m, l3) =>
          if uses_separator && negb (Ascii.eqb (hd nul l3) "-") then None
          else
            match parse_digits 2 0 (if uses_separator then tl l3 else l3) with
            | None => None
            | Some (d, _) => Some (y, m, d)
            end
      end
  end.

(** [repr] of a [timedelta] of [s] seconds and [us] microseconds *)
Definition repr_timedelta (s us : Z) : string :=
  let total := s * 1000000 + us in
  let days := total / 86400000000 in
  let secs := (total mod 86400000000) / 1000000 in
  let micros := total mod 1000000 in
  let args :=
    ((if days =? 0 then [] else [String.append "days=" (repr_int days)]) ++
     (if secs =? 0 then [] else [String.append "seconds=" (repr_int secs)]) ++
     (if micros =? 0 then [] else [String.append "microseconds=" (repr_int micros)]))%list in
  "datetime.timedelta(" ++ (match args with [] => "0" | _ => String.concat ", " args end)
  ++ ")".

(** The checks of the [timezone] and [datetime] constructors. *)
Definition new_datetime (y m d : Z) (vals : list Z) (us : Z) (tz : option (Z * Z))
  : result datetime :=
  let h := nth 0 vals 0 in
  let mi := nth 1 vals 0 in
  let s := nth 2 vals 0 in
  let tz_us :=
    match tz with
    | None => None
    | Some (off, offus) => Some (if off =? 0 then 0 else off * 1000000 + offus)
    end in
  let tz_bad :=
    match tz_us with
    | Some o => (o <=? -86400000000) || (86400000000 <=? o)
    | None => false
    end in
  if tz_bad then
    Raise (ValueError
      ("offset must be a timedelta strictly between -timedelta(hours=24) and timedelta(hours=24), not "
       ++ (match tz with Some (off, offus) => repr_timedelta off offus | None => "" end)
       ++ "."))
  else if (y <? 1) || (9999 <? y) then
    Raise (ValueError ("year " ++ repr_int y ++ " is out of range"))
  else if (m <? 1) || (12 <? m) then Raise (ValueError "month must be in 1..12")
  else if (d <? 1) || (days_in_month y m <? d) then
    Raise (ValueError "day is out of range for month")
  else if 23 <? h then Raise (ValueError "hour must be in 0..23")
  else if 59 <? mi then Raise (ValueError "minute must be in 0..59")
  else if 59 <? s then Raise (ValueError "second must be in 0..59")
  else
    Return {| year := y; month := m; day := d; hour := h; minute := mi;
              second := s; microsecond := us; tzinfo := tz_us |}.

(** The number of bytes of the character that starts with [c]. *)
Definition utf8_width (c : ascii) : nat :=
  if code c <? 128 then 1
  else if code c / 16 =? 14 then 3
  else if code c / 16 =? 15 then 4
  else 2.

Definition fromisoformat (s : string) : result datetime :=
  let l := list_ascii_of_string s in
  let len := List.length l in
  let invalid := Raise (ValueError ("Invalid isoformat string: " ++ repr_str s)) in
  let week := Ascii.eqb (nth 4 l nul) "W"
              || (Ascii.eqb (nth 4 l nul) "-" && Ascii.eqb (nth 5 l nul) "W") in
  if (len <? 7)%nat || week then invalid
  else
    let sep := if (len =? 7)%nat then 7%nat
               else if Ascii.eqb (nth 4 l nul) "-" then 10%nat else 8%nat in
    match parse_isoformat_date (firstn sep l) with
    | None => invalid
    | Some (y, m, d) =>
        if (sep <? len)%nat then
          let rest := skipn sep l in
          match parse_isoformat_time (skipn (utf8_width (hd nul rest)) rest) with
          | None => invalid
          | Some (vals, us, tz) => new_datetime y m d vals us tz
          end
        else new_datetime y m d [0; 0; 0] 0 None
    end.

(** [datetime.strptime(s, "%Y-%m")]: four digits, a hyphen, and a month
    matched as 1[0-2], 0[1-9] or [1-9], in that order. *)
Definition match_month (l : list ascii) : option (Z * list ascii) :=
  match l with
  | a :: b :: r =>
      if Ascii.eqb a "1" && ((code b =? 48) || (code b =? 49) || (code b =? 50))
      then Some (10 + (code b - 48), r)
      else if Ascii.eqb a "0" && (49 <=? code b) && (code b <=? 57)
      then Some (code b - 48, r)
      else if (49 <=? code a) && (code a <=? 57) then Some (code a - 48, b :: r)
      else None
  | [a] => if (49 <=? code a) && (code a <=? 57) then Some (code a - 48, []) else None
  | [] => None
  end.

Definition strptime_ym (s : string) : result datetime :=
  let no_match :=
    Raise (ValueError ("time data " ++ repr_str s
                       ++ " does not match format '%Y-%m'")) in
  match parse_digits 4 0 (list_ascii_of_string s) with
  | Some (y, sep :: l) =>
      if Ascii.eqb sep "-" then
        match match_month l with
        | Some (m, []) =>
            if y <? 1 then Raise (ValueError ("year " ++ repr_int y ++ " is out of range"))
            else Return (Datetime y m 1 0 0 0 0 None)
        | Some (_, rest) =>
            Raise (ValueError ("unconverted data remains: "
                               ++ string_of_list_ascii rest))
        | None => no_match
        end
      else no_match
  | _ => no_match
  end.

(** The text of a database error (the driver's own text is longer). *)
Definition db_error_str (e : db_error) : string :=
  match e with
  | UniqueViolation t =>
      "duplicate key value violates unique constraint on " ++ t
  | ForeignKeyViolation c =>
      "insert on table transactions violates foreign key constraint on " ++ c
  | NotText c => "value for column " ++ c ++ " is not text"
  end.

End CPython.

Definition cpython : PyLib := {|
  py_float := CPython.float;
  py_fromisoformat := CPython.fromisoformat;
  py_strptime_ym := CPython.strptime_ym;
  py_str := CPython.str;
  py_repr := CPython.repr;
  db_error_str := CPython.db_error_str
|}.

(** * Vocabulary of the statements *)

(** A field of a dict that [validate_row] reports: absent, or empty. *)
Definition absent_or_empty (d : list (pyval * pyval)) (f : string) : bool :=
  match dict_get d f with
  | None => true
  | Some v => negb (truthy v)
  end.

(** A field of a dict that [validate_message] reports: absent. *)
Definition absent (d : list (pyval * pyval)) (f : string) : bool :=
  match dict_get d f with
  | None => true
  | Some _ => false
  end.

(** What the [try] block of the validators checks once [float] has
    returned: the timestamp and the status. *)
Definition check_timestamp_status (L : PyLib) (row : pyval)
  : result (option verdict) :=
  t <- py_getitem L row "timestamp" ;;
  t' <- py_replace_Z t ;;
  _ <- py_fromisoformat L t' ;;
  s <- py_getitem L row "status" ;;
  if negb (is_status_value s) then
    s' <- py_getitem L row "status" ;;
    Return (Some (Invalid ("Invalid status: " ++ py_str L s')))
  else Return None.

Definition timestamp_status_verdict (L : PyLib) (row : pyval) : verdict :=
  match check_timestamp_status L row with
  | Return (Some v) => v
  | Return None => Valid
  | Raise e => Invalid (exn_str e)
  end.

(** No transaction of the ledger has the id [i]. *)
Definition fresh (i : string) (db : database) : Prop :=
  existsb (has_id i) (transactions db) = false.

(** The users and the currency a transaction names exist. *)
Definition references_ok (db : database) (tx : Transaction) : Prop :=
  exists s r c,
    sender_id tx = PStr s /\ receiver_id tx = PStr r /\ currency tx = PStr c /\
    mem_string s (users db) = true /\ mem_string r (users db) = true /\
    mem_string c (currencies db) = true.

(** The database with one more transaction. *)
Definition with_transaction (db : database) (tx : Transaction) : database :=
  {| users := users db; currencies := currencies db;
     transactions := transactions db ++ [tx];
     rejected_records := rejected_records db |}.

(** The log of an accepted row: the suspicious warning, or nothing. *)
Definition accepted_log (row_id amount_field : pyval) (tx : Transaction)
  : list log_event :=
  if float_gt (amount tx) SUSPICIOUS_AMOUNT
  then [LogSuspicious row_id amount_field] else [].

Definition is_suspicious_event (ev : log_event) : bool :=
  match ev with
  | LogSuspicious _ _ => true
  | _ => false
  end.

(** The rejected records a batch of rows gives rise to, in order. *)
Definition rejected_of (L : PyLib) (rows : list pyval) : list RejectedRecord :=
  flat_map (fun row =>
              match validate_row L row with
              | Return (Invalid error) =>
                  [{| reason := error; payload := py_str L row; source := "csv" |}]
              | _ => []
              end) rows.

(** The rejected records among pending objects. *)
Definition pending_rejected (os : list orm_object) : list RejectedRecord :=
  flat_map (fun o => match o with
                     | ORejectedRecord rec => [rec]
                     | OTransaction _ => []
                     end) os.

(** The rejected records a session has inserted or holds pending. *)
Definition session_rejected (s : session) : list RejectedRecord :=
  rejected_records (s_db s) ++ pending_rejected (s_new s).

(** The filter of [get_payments_by_user]; the end date is inclusive or
    not. *)
Definition payment_matches (inclusive : bool) (user_id : string)
  (start_date end_date : option date) (tx : Transaction) : bool :=
  (is_sender user_id tx || is_receiver user_id tx)
  && match start_date with
     | Some d => timestamp_ge (timestamp tx) d
     | None => true
     end
  && match end_date with
     | Some d => if inclusive then timestamp_le (timestamp tx) d
                 else timestamp_lt (timestamp tx) d
     | None => true
     end.

(** The rows a query reads: those of the session given, or of [Session()]. *)
Definition rows_read (db bind : option database) : option (list Transaction) :=
  match db, bind with
  | Some db, _ => Some (transactions db)
  | None, Some session => Some (transactions session)
  | None, None => None
  end.

Definition session_given (db : option database) : bool :=
  match db with
  | Some _ => true
  | None => false
  end.

(** The date filters of [get_daily_totals]: on or after the start date,
    strictly before the end date. *)
Definition in_range (start_date end_date : option date) (tx : Transaction) : bool :=
  match start_date with
  | Some d => timestamp_ge (timestamp tx) d
  | None => true
  end &&
  match end_date with
  | Some d => timestamp_lt (timestamp tx) d
  | None => true
  end.

(** The transactions of a day in which the user has the given role. *)
Definition day_rows (role : Transaction -> bool) (start_date end_date : option date)
  (d : date) (rows : list Transaction) : list Transaction :=
  filter (fun tx => role tx && in_range start_date end_date tx
                    && date_eqb (date_of (timestamp tx)) d) rows.

(** The sum of the amounts of some rows, added in the order of the rows;
    [None] when there is no row. *)
Definition sum_amounts (rows : list Transaction) : option pyfloat :=
  match rows with
  | [] => None
  | tx :: rows' =>
      Some (fold_left (fun acc t => SFadd prec emax acc (amount t)) rows' (amount tx))
  end.

(** The total of one side of a day: the sum of the amounts of its rows,
    0.0 for a sum that is zero of either sign, and 0.0 without a row. *)
Definition side_total (rows : list Transaction) : pyfloat :=
  match sum_amounts rows with
  | Some (S754_zero _) => S754_zero false
  | Some x => x
  | None => S754_zero false
  end.

(** Lookup and update in a list keyed by day. *)
Fixpoint lookup {V} (g : list (date * V)) (d : date) : option V :=
  match g with
  | [] => None
  | (d', v) :: g' => if date_eqb d' d then Some v else lookup g' d
  end.

Fixpoint upsert {V} (d : date) (upd : option V -> V) (g : list (date * V))
  : list (date * V) :=
  match g with
  | [] => [(d, upd None)]
  | (d', v) :: g' =>
      if date_eqb d' d then (d', upd (Some v)) :: g'
      else (d', v) :: upsert d upd g'
  end.

Definition sent_of (t : list (date * day_totals)) (d : date) : option pyfloat :=
  match lookup t d with
  | Some e => sent_entry e
  | None => None
  end.

Definition received_of (t : list (date * day_totals)) (d : date) : option pyfloat :=
  match lookup t d with
  | Some e => received_entry e
  | None => None
  end.

(** The ids of the ledger are pairwise distinct. *)
Definition unique_ids (db : database) : Prop :=
  NoDup (map id (transactions db)).

(** Every transaction of the ledger names users and a currency that exist. *)
Definition references_hold (db : database) : Prop :=
  Forall (references_ok db) (transactions db).

(** [db'] is [db] with transactions and rejected records added at the end. *)
Definition extends (db db' : database) : Prop :=
  users db' = users db /\ currencies db' = currencies db /\
  (exists new, transactions db' = (transactions db ++ new)%list) /\
  (exists new, rejected_records db' = (rejected_records db ++ new)%list).

(** A timestamp whose month, day and time fields are in the ranges of a
    calendar. *)
Definition valid_timestamp (t : datetime) : Prop :=
  1 <= month t <= 12 /\ 1 <= day t /\ 0 <= hour t /\ 0 <= minute t /\
  0 <= second t /\ 0 <= microsecond t.

(** A timestamp of the month of [d]. *)
Definition in_month (d : date) (t : datetime) : Prop :=
  year t = d_year d /\ month t = d_month d.

(** The timestamp of the first instant of the day [d]. *)
Definition starts_day (d : date) (t : datetime) : Prop :=
  year t = d_year d /\ month t = d_month d /\ day t = d_day d /\
  hour t = 0 /\ minute t = 0 /\ second t = 0 /\ microsecond t = 0.

(** A date parameter of a request that is absent, empty, or text that
    [fromisoformat] parses. *)
Definition date_param_parses (L : PyLib) (p : option string) : Prop :=
  match p with
  | None => True
  | Some s => s = "" \/ exists dt, py_fromisoformat L s = Return dt
  end.

(** The outcomes that add a row to a table. *)
Definition is_accepted (o : outcome) : bool :=
  match o with Accepted => true | _ => false end.

Definition is_quarantined (o : outcome) : bool :=
  match o with Quarantined _ => true | _ => false end.

(** The JSON values that are no container: null, true, false, a number. *)
Definition is_scalar (v : pyval) : bool :=
  match v with
  | PNone | PBool _ | PInt _ | PFloat _ => true
  | _ => false
  end.

(** A transaction without its id, currency and status. *)
Definition money_of (tx : Transaction) : pyval * pyval * pyfloat * datetime :=
  (sender_id tx, receiver_id tx, amount tx, timestamp tx).

(** The transaction with the same parties, amount and timestamp and blank
    id, currency and status. *)
Definition blank_labels (m : pyval * pyval * pyfloat * datetime) : Transaction :=
  let '(s, r, a, t) := m in
  {| id := PNone; sender_id := s; receiver_id := r; amount := a;
     currency := PNone; timestamp := t; status := pending |}.

(** * Sample data *)

Module Sample.

(** The header of the feed. *)
Definition header : list string := required_fields.

Definition record (i s r a c t st : string) : pyval :=
  DictReader_row header [i; s; r; a; c; t; st].

(** [valid_tx] of tests/test_validation.py *)
Definition valid_tx : pyval :=
  record "tx100" "user1" "user2" "250.00" "USD" "2025-05-01T12:00:00Z" "completed".

(** The users and currencies of seed.py, and no transaction. *)
Definition seeded : database := {|
  users := ["user1"; "user2"; "user3"];
  currencies := ["USD"; "EUR"; "GBP"];
  transactions := [];
  rejected_records := []
|}.

(** The transaction [valid_tx] describes. *)
Definition tx100 : Transaction := {|
  id := PStr "tx100"; sender_id := PStr "user1"; receiver_id := PStr "user2";
  amount := S754_finite false 8796093022208000 (-45);
  currency := PStr "USD";
  timestamp := Datetime 2025 5 1 12 0 0 0 (Some 0);
  status := completed
|}.

Definition quoted (s : string) : string :=
  String CPython.dquote (s ++ String CPython.dquote "").

(** The JSON text of an object whose values are strings that need no
    escape, as [json.dumps] writes it. *)
Definition json_dumps (fields : list (string * string)) : string :=
  "{" ++ String.concat ", "
           (map (fun kv => quoted (fst kv) ++ ": " ++ quoted (snd kv)) fields)
  ++ "}".

(** The delivery of that text: what [json.loads] and [decode] give. *)
Definition json_message (fields : list (string * string)) : delivery :=
  {| body_loads := Return (PDict (map (fun kv => (PStr (fst kv), PStr (snd kv))) fields));
     body_decode := Return (json_dumps fields) |}.

Definition fields_of (i s r a c t st : string) : list (string * string) :=
  combine header [i; s; r; a; c; t; st].

(** A valid record whose sender is not a user. *)
Definition ghost_sender : pyval :=
  record "tx101" "ghost" "user2" "10.00" "USD" "2025-05-02T09:00:00Z" "pending".

Definition tx102 : pyval :=
  record "tx102" "user2" "user3" "5.00" "EUR" "2025-05-03T09:00:00Z" "failed".

(** The fields of a record whose amount is not a number. *)
Definition bad_amount_fields : list string :=
  ["tx1"; "user1"; "user2"; "not_a_number"; "USD"; "2025-05-01T12:00:00Z";
   "completed"].

(** A transaction of user1 at midnight of 2025-05-02. *)
Definition at_midnight : Transaction := {|
  id := PStr "tx9"; sender_id := PStr "user1"; receiver_id := PStr "user2";
  amount := float_of_Z 100; currency := PStr "USD";
  timestamp := Datetime 2025 5 2 0 0 0 0 None;
  status := completed
|}.

(** [valid_tx] as a message. *)
Definition valid_message : delivery :=
  json_message (fields_of "tx100" "user1" "user2" "250.00" "USD"
                          "2025-05-01T12:00:00Z" "completed").

(** The body [b'\xff']: not UTF-8, so [json.loads] and [decode] both
    raise. *)
Definition undecodable : delivery :=
  let e := Exn "UnicodeDecodeError"
    "'utf-8' codec can't decode byte 0xff in position 0: invalid start byte" in
  {| body_loads := Raise e; body_decode := Raise e |}.

End Sample.

(** * Properties *)

(** ** The validators *)

Section Validators.
Context (L : PyLib).

Lemma missing_in_row_find d fs :
  missing_in_row L (PDict d) fs = Return (find (absent_or_empty d) fs).
Proof.
  induction fs as [|f fs IH]; simpl; [reflexivity|].
  unfold absent_or_empty at 1.
  destruct (dict_get d f) as [v|]; simpl; [|reflexivity].
  destruct (truthy v); simpl; [exact IH|reflexivity].
Qed.

Lemma missing_in_message_find d fs :
  missing_in_message (PDict d) fs = Return (find (absent d) fs).
Proof.
  induction fs as [|f fs IH]; simpl; [reflexivity|].
  unfold absent at 1.
  destruct (dict_get d f) as [v|]; simpl; [exact IH|reflexivity].
Qed.

Lemma validate_row_dict d :
  validate_row L (PDict d) =
  Return (match find (absent_or_empty d) required_fields with
          | Some f => Invalid ("Missing field: " ++ f)
          | None => checked_values L (PDict d)
          end).
Proof.
  unfold validate_row. rewrite missing_in_row_find. cbn [bind].
  destruct (find (absent_or_empty d) required_fields); reflexivity.
Qed.

Lemma validate_message_dict d :
  validate_message L (PDict d) =
  Return (match find (absent d) required_fields with
          | Some f => Invalid ("Missing field: " ++ f)
          | None => checked_values L (PDict d)
          end).
Proof.
  unfold validate_message. rewrite missing_in_message_find. cbn [bind].
  destruct (find (absent d) required_fields); reflexivity.
Qed.

Lemma checked_values_amount d a :
  dict_get d "amount" = Some a ->
  checked_values L (PDict d) =
  match py_float L a with
  | Raise e => Invalid (exn_str e)
  | Return _ => timestamp_status_verdict L (PDict d)
  end.
Proof.
  intros Ha. unfold checked_values, check_values, timestamp_status_verdict,
    check_timestamp_status.
  cbn [py_getitem]. rewrite Ha. cbn [bind].
  destruct (py_float L a); reflexivity.
Qed.

Lemma find_absent_or_empty_none d fs :
  find (absent_or_empty d) fs = None -> find (absent d) fs = None.
Proof.
  induction fs as [|f fs IH]; simpl; [reflexivity|].
  unfold absent_or_empty at 1, absent at 1.
  destruct (dict_get d f) as [v|]; [|discriminate].
  destruct (truthy v); simpl; [exact IH|discriminate].
Qed.

(** C10, as amended.  When no required field is missing, a validator
    accepts the amount exactly when [float] converts it: a conversion error
    makes the record invalid with the error's text as reason, and when
    [float] returns, whatever the value (negative, zero, infinite or NaN),
    the verdict is the one of the timestamp and status checks alone.  This
    holds for [validate_row] and for [validate_message]. *)
Theorem amount_accepted_when_float_converts d a :
  find (absent_or_empty d) required_fields = None ->
  dict_get d "amount" = Some a ->
  match py_float L a with
  | Raise e =>
      validate_row L (PDict d) = Return (Invalid (exn_str e)) /\
      validate_message L (PDict d) = Return (Invalid (exn_str e))
  | Return _ =>
      validate_row L (PDict d) = Return (timestamp_status_verdict L (PDict d)) /\
      validate_message L (PDict d) = Return (timestamp_status_verdict L (PDict d))
  end.
Proof.
  intros Hm Ha.
  rewrite validate_row_dict, validate_message_dict, Hm.
  rewrite (find_absent_or_empty_none _ _ Hm).
  rewrite (checked_values_amount _ Ha).
  destruct (py_float L a); split; reflexivity.
Qed.

End Validators.

(** The amended C10 at [valid_tx] with the amount -5: the record is valid. *)
Lemma amount_accepted_when_float_converts_witness :
  let d := match Sample.record "tx100" "user1" "user2" "-5" "USD"
                               "2025-05-01T12:00:00Z" "completed" with
           | PDict d => d
           | _ => []
           end in
  validate_row cpython (PDict d) = Return Valid /\
  validate_message cpython (PDict d) = Return Valid.
Proof.
  intro d.
  exact (amount_accepted_when_float_converts cpython d (a := PStr "-5")
           eq_refl eq_refl).
Defined.

(** C10, as stated, fails: an amount that parses to infinity, or to NaN, is
    accepted. *)
Lemma non_finite_amount_is_valid :
  py_float cpython (PStr "inf") = Return (S754_infinity false) /\
  validate_row cpython
    (Sample.record "tx100" "user1" "user2" "inf" "USD"
                   "2025-05-01T12:00:00Z" "completed") = Return Valid /\
  py_float cpython (PStr "nan") = Return S754_nan /\
  validate_message cpython
    (Sample.record "tx100" "user1" "user2" "nan" "USD"
                   "2025-05-01T12:00:00Z" "completed") = Return Valid.
Proof. vm_compute. repeat split. Qed.

(** C2.  The two validators disagree on a record whose [transaction_id] is
    present and empty: [validate_row] reports it missing, [validate_message]
    finds the record valid. *)
Theorem validators_disagree_on_empty_field :
  let r := Sample.record "" "user1" "user2" "250.00" "USD"
                         "2025-05-01T12:00:00Z" "completed" in
  validate_row cpython r = Return (Invalid "Missing field: transaction_id") /\
  validate_message cpython r = Return Valid.
Proof. vm_compute. split; reflexivity. Qed.

(** ** The store *)

Section Ingestion.
Context (L : PyLib).

Lemma find_none_of_fresh i db :
  fresh i db -> find (has_id i) (transactions db) = None.
Proof.
  unfold fresh. induction (transactions db) as [|tx l IH]; simpl; [reflexivity|].
  destruct (has_id i tx); simpl; [discriminate|exact IH].
Qed.

Lemma find_app_new i l tx :
  existsb (has_id i) l = false -> has_id i tx = true ->
  find (has_id i) (l ++ [tx]) = Some tx.
Proof.
  induction l as [|x l IH]; simpl; intros Hl Htx.
  - now rewrite Htx.
  - destruct (has_id i x); simpl in Hl; [discriminate|]. now apply IH.
Qed.

Lemma filter_app_new i l tx :
  existsb (has_id i) l = false -> has_id i tx = true ->
  filter (has_id i) (l ++ [tx]) = [tx].
Proof.
  induction l as [|x l IH]; simpl; intros Hl Htx.
  - now rewrite Htx.
  - destruct (has_id i x); simpl in Hl; [discriminate|]. now apply IH.
Qed.

(** A transaction with a new id whose references exist is inserted. *)
Lemma insert_transaction_row_ok db tx i :
  id tx = PStr i -> fresh i db -> references_ok db tx ->
  insert_transaction_row L db tx = Return (with_transaction db tx).
Proof.
  intros Hi Hf (s & r & c & Hs & Hr & Hc & Hsu & Hru & Hcu).
  unfold insert_transaction_row. rewrite Hi, Hs, Hr, Hc. cbn [as_text].
  unfold fresh in Hf. rewrite Hf, Hsu, Hru, Hcu. reflexivity.
Qed.

(** What [new_Transaction] read, when it returns. *)
Lemma new_Transaction_inv row tx :
  new_Transaction L row = Return tx ->
  py_getitem L row "transaction_id" = Return (id tx) /\
  exists a, py_getitem L row "amount" = Return a /\
            py_float L a = Return (amount tx).
Proof.
  unfold new_Transaction. intros H.
  destruct (py_getitem L row "transaction_id") as [i|]; [|discriminate].
  destruct (py_getitem L row "sender_id") as [s|]; [|discriminate].
  destruct (py_getitem L row "receiver_id") as [r|]; [|discriminate].
  destruct (py_getitem L row "amount") as [a|]; [|discriminate].
  cbn [bind] in H.
  destruct (py_float L a) as [f|] eqn:Hf; [|discriminate].
  destruct (py_getitem L row "currency") as [c|]; [|discriminate].
  destruct (py_getitem L row "timestamp") as [t|]; [|discriminate].
  cbn [bind] in H.
  destruct (py_replace_Z t) as [t'|]; [|discriminate].
  cbn [bind] in H.
  destruct (py_fromisoformat L t') as [t''|]; [|discriminate].
  destruct (py_getitem L row "status") as [st|]; [|discriminate].
  cbn [bind] in H.
  destruct (TransactionStatus_of L st) as [st'|]; [|discriminate].
  cbn [bind] in H. injection H as <-. cbn.
  split; [reflexivity|]. exists a. split; [reflexivity|exact Hf].
Qed.

(** A valid row with a new id: the transaction is added to the session. *)
Lemma import_row_accepted row tx i a s db1 :
  validate_row L row = Return Valid ->
  new_Transaction L row = Return tx ->
  id tx = PStr i ->
  py_getitem L row "amount" = Return a ->
  insert_objects L (s_db s) (s_new s) = Return db1 ->
  find (has_id i) (transactions db1) = None ->
  import_row L row s =
  ({| s_durable := s_durable s; s_db := db1; s_new := [OTransaction tx] |},
   accepted_log (PStr i) a tx, Return Accepted).
Proof.
  intros Hv Htx Hi Ha Hins Hfind.
  destruct (new_Transaction_inv _ Htx) as (Hid & a' & Ha' & Hf).
  rewrite Ha in Ha'. injection Ha' as <-. rewrite Hi in Hid.
  unfold import_row, bindM, lift. rewrite Hv, Hid.
  unfold session_get, bindM, session_flush, select_transaction.
  rewrite Hins. cbn [as_text s_db s_durable s_new]. rewrite Hfind.
  rewrite Ha, Hf, Htx. unfold accepted_log.
  destruct (float_gt (amount tx) SUSPICIOUS_AMOUNT); cbn; rewrite ?Hid, ?Ha; reflexivity.
Qed.

(** A valid row whose id is in the ledger: nothing is added. *)
Lemma import_row_duplicate row i tx0 s db1 :
  validate_row L row = Return Valid ->
  py_getitem L row "transaction_id" = Return (PStr i) ->
  insert_objects L (s_db s) (s_new s) = Return db1 ->
  find (has_id i) (transactions db1) = Some tx0 ->
  import_row L row s =
  ({| s_durable := s_durable s; s_db := db1; s_new := [] |},
   [LogDuplicate (PStr i)], Return Duplicate).
Proof.
  intros Hv Hid Hins Hfind.
  unfold import_row, bindM, lift. rewrite Hv, Hid.
  unfold session_get, bindM, session_flush, select_transaction.
  rewrite Hins. cbn [as_text s_db s_durable s_new]. rewrite Hfind.
  reflexivity.
Qed.

(** An invalid row: a rejected record is added to the session. *)
Lemma import_row_invalid row error s :
  validate_row L row = Return (Invalid error) ->
  import_row L row s =
  ({| s_durable := s_durable s; s_db := s_db s;
      s_new := s_new s ++ [ORejectedRecord
                 {| reason := error; payload := py_str L row; source := "csv" |}] |},
   [LogInvalidRow error row], Return (Quarantined error)).
Proof.
  intros Hv. unfold import_row, bindM, lift. rewrite Hv. reflexivity.
Qed.

(** [insert_transaction] on a record with a new id. *)
Lemma insert_transaction_accepted data tx i db :
  new_Transaction L data = Return tx ->
  id tx = PStr i -> fresh i db -> references_ok db tx ->
  insert_transaction L data db =
  (with_transaction db tx, [LogInserted (PStr i)], Return Accepted).
Proof.
  intros Htx Hi Hf Hr.
  destruct (new_Transaction_inv _ Htx) as (Hid & _). rewrite Hi in Hid.
  unfold insert_transaction, with_Session, bindM, lift. rewrite Hid.
  unfold session_get, bindM, session_flush, select_transaction.
  cbn [Session s_db s_new s_durable insert_objects as_text].
  rewrite (find_none_of_fresh Hf), Htx.
  unfold session_add, session_commit, bindM, session_flush.
  cbn [s_db s_new s_durable insert_objects insert_object app bind].
  rewrite (insert_transaction_row_ok Hi Hf Hr). cbn. now rewrite Hi.
Qed.

(** [insert_transaction] on a record whose id is in the ledger. *)
Lemma insert_transaction_duplicate data i tx0 db :
  py_getitem L data "transaction_id" = Return (PStr i) ->
  find (has_id i) (transactions db) = Some tx0 ->
  insert_transaction L data db = (db, [LogDuplicate (PStr i)], Return Duplicate).
Proof.
  intros Hid Hfind.
  unfold insert_transaction, with_Session, bindM, lift. rewrite Hid.
  unfold session_get, bindM, session_flush, select_transaction.
  cbn [Session s_db s_new s_durable insert_objects as_text].
  rewrite Hfind. reflexivity.
Qed.

Lemma has_id_of_id tx i : id tx = PStr i -> has_id i tx = true.
Proof. unfold has_id. intros ->. cbn. apply String.eqb_refl. Qed.

(** C1.  A valid record with a new id whose users and currency exist,
    ingested twice (the second record need only be valid and carry the same
    id): the first ingest is accepted and the second is a duplicate, on the
    csv path within one batch and across two runs, and on the queue path;
    afterwards the ledger holds the first transaction and no other with that
    id, and nothing else changed (no quarantine, no overwrite, no error). *)
Theorem ingest_twice_is_idempotent db r r' i tx :
  new_Transaction L r = Return tx ->
  id tx = PStr i ->
  py_getitem L r' "transaction_id" = Return (PStr i) ->
  fresh i db ->
  references_ok db tx ->
  (validate_row L r = Return Valid -> validate_row L r' = Return Valid ->
   run_result (import_csv L [r; r'] db) = Return [Accepted; Duplicate] /\
   run_db (import_csv L [r; r'] db) = with_transaction db tx /\
   run_result (import_csv L [r] db) = Return [Accepted] /\
   run_db (import_csv L [r] db) = with_transaction db tx /\
   import_csv L [r'] (with_transaction db tx) =
   (with_transaction db tx, [LogDuplicate (PStr i); LogImportComplete],
    Return [Duplicate])) /\
  (validate_message L r = Return Valid -> validate_message L r' = Return Valid ->
   forall d d',
     body_loads d = Return r -> body_loads d' = Return r' ->
     callback L d db =
     (with_transaction db tx, [LogInserted (PStr i)], Return Accepted) /\
     callback L d' (with_transaction db tx) =
     (with_transaction db tx, [LogDuplicate (PStr i)], Return Duplicate)) /\
  filter (has_id i) (transactions (with_transaction db tx)) = [tx].
Proof.
  intros Htx Hi Hid' Hf Hr.
  pose proof (has_id_of_id _ Hi) as Hhas.
  assert (Hfound : find (has_id i) (transactions (with_transaction db tx)) = Some tx)
    by (apply find_app_new; assumption).
  destruct (new_Transaction_inv _ Htx) as (_ & a & Ha & _).
  assert (Hins : insert_objects L db [OTransaction tx] =
                 Return (with_transaction db tx)).
  { cbn. rewrite (insert_transaction_row_ok Hi Hf Hr). reflexivity. }
  split; [|split].
  - intros Hv Hv'.
    pose proof (@import_row_accepted r tx i a (Session db) db Hv Htx Hi Ha eq_refl
                  (find_none_of_fresh Hf)) as Hfirst.
    assert (Hbatch : import_csv L [r; r'] db =
                     (with_transaction db tx,
                      (accepted_log (PStr i) a tx
                        ++ [LogDuplicate (PStr i); LogImportComplete])%list,
                      Return [Accepted; Duplicate])).
    { unfold import_csv, with_Session, import_rows, bindM. rewrite Hfirst.
      cbn [s_durable s_db s_new Session].
      erewrite import_row_duplicate; [| exact Hv' | exact Hid' | exact Hins | exact Hfound ].
      cbn. rewrite ?app_nil_r, <- ?app_assoc. reflexivity. }
    assert (Hrun : import_csv L [r] db =
                   (with_transaction db tx,
                    (accepted_log (PStr i) a tx ++ [LogImportComplete])%list,
                    Return [Accepted])).
    { unfold import_csv, with_Session, import_rows, bindM. rewrite Hfirst.
      cbn [s_durable s_db s_new Session ret].
      unfold session_commit, bindM, session_flush.
      cbn [s_durable s_db s_new]. rewrite Hins. cbn. rewrite ?app_nil_r.
      reflexivity. }
    rewrite Hbatch, Hrun. repeat split.
    unfold import_csv, with_Session, import_rows, bindM.
    erewrite import_row_duplicate;
      [| exact Hv' | exact Hid' | reflexivity | exact Hfound ].
    reflexivity.
  - intros Hv Hv' d d' Hd Hd'. split.
    + unfold callback, try_except, bindM, lift. rewrite Hd, Hv.
      rewrite (insert_transaction_accepted _ Htx Hi Hf Hr). reflexivity.
    + unfold callback, try_except, bindM, lift. rewrite Hd', Hv'.
      rewrite (insert_transaction_duplicate _ _ Hid' Hfound). reflexivity.
  - apply filter_app_new; assumption.
Qed.

End Ingestion.

(** The theorem C1 at [valid_tx], ingested twice into the seeded database. *)
Lemma ingest_twice_is_idempotent_witness :
  run_result (import_csv cpython [Sample.valid_tx; Sample.valid_tx] Sample.seeded)
  = Return [Accepted; Duplicate] /\
  run_db (import_csv cpython [Sample.valid_tx; Sample.valid_tx] Sample.seeded)
  = with_transaction Sample.seeded Sample.tx100 /\
  callback cpython Sample.valid_message
           (with_transaction Sample.seeded Sample.tx100)
  = (with_transaction Sample.seeded Sample.tx100, [LogDuplicate (PStr "tx100")],
     Return Duplicate).
Proof.
  destruct (@ingest_twice_is_idempotent cpython Sample.seeded Sample.valid_tx
              Sample.valid_tx "tx100" Sample.tx100)
    as (Hcsv & Hqueue & _).
  - vm_compute; reflexivity.
  - reflexivity.
  - vm_compute; reflexivity.
  - reflexivity.
  - exists "user1", "user2", "USD". repeat split; reflexivity.
  - destruct Hcsv as (H1 & H2 & _); [vm_compute; reflexivity ..|].
    split; [exact H1|]. split; [exact H2|].
    refine (proj2 (Hqueue _ _ Sample.valid_message Sample.valid_message _ _));
      vm_compute; reflexivity.
Defined.

(** C3.  On the queue path a required field that is present and empty is
    not reported: the record with an empty [transaction_id] is valid for
    [validate_message], and [callback] inserts it instead of quarantining
    it. *)
Theorem queue_accepts_empty_required_field :
  validate_message cpython
    (PDict (map (fun kv => (PStr (fst kv), PStr (snd kv)))
                (Sample.fields_of "" "user1" "user2" "250.00" "USD"
                                  "2025-05-01T12:00:00Z" "completed")))
  = Return Valid /\
  callback cpython
    (Sample.json_message (Sample.fields_of "" "user1" "user2" "250.00" "USD"
                                           "2025-05-01T12:00:00Z" "completed"))
    Sample.seeded
  = (with_transaction Sample.seeded
       {| id := PStr ""; sender_id := PStr "user1"; receiver_id := PStr "user2";
          amount := amount Sample.tx100; currency := PStr "USD";
          timestamp := timestamp Sample.tx100; status := completed |},
     [LogInserted (PStr "")], Return Accepted).
Proof. vm_compute. split; reflexivity. Qed.

(** C6.  When the body cannot be decoded, [json.loads] raises, the handler
    of [callback] calls [body.decode()], which raises again: the error
    reaches the caller and nothing is quarantined. *)
Theorem callback_raises_on_undecodable_body (L : PyLib) (db : database) (e e' : exn) :
  callback L {| body_loads := Raise e; body_decode := Raise e' |} db
  = (db, [LogMalformedMessage (exn_str e)], Raise e').
Proof. reflexivity. Qed.


(** ** The suspicious-amount signal *)

Section Suspicious.
Context (L : PyLib).

Lemma save_rejected_record_run reason payload source db :
  save_rejected_record L reason payload source db =
  (insert_rejected_row db
     {| reason := reason; payload := payload; source := source |},
   [LogSavedRejected reason], Return tt).
Proof. reflexivity. Qed.

(** [insert_transaction] logs a duplicate or an insertion, nothing else, and
    leaves the database as it was unless it returns [Accepted]. *)
Lemma insert_transaction_cases data db :
  (exists e, insert_transaction L data db = (db, [], Raise e)) \/
  (exists k, insert_transaction L data db = (db, [LogDuplicate k], Return Duplicate)) \/
  (exists tx db', insert_transaction L data db =
                  (db', [LogInserted (id tx)], Return Accepted) /\
                  new_Transaction L data = Return tx /\
                  insert_transaction_row L db tx = Return db').
Proof.
  unfold insert_transaction, with_Session, bindM, lift.
  destruct (py_getitem L data "transaction_id") as [k|e] eqn:Hk;
    [|left; eexists; reflexivity].
  unfold session_get, bindM, session_flush, select_transaction.
  cbn [Session s_db s_new s_durable insert_objects].
  destruct (as_text k) as [i|]; [|left; eexists; reflexivity].
  destruct (find (has_id i) (transactions db)) as [tx0|].
  - right; left. exists k. reflexivity.
  - destruct (new_Transaction L data) as [tx|e] eqn:Htx;
      [|left; eexists; reflexivity].
    unfold session_add, session_commit, bindM, session_flush.
    cbn [s_db s_new s_durable insert_objects insert_object app bind].
    destruct (insert_transaction_row L db tx) as [db'|e] eqn:Hins.
    + right; right. exists tx, db'. cbn. repeat split; try reflexivity; assumption.
    + left. eexists. reflexivity.
Qed.

(** The queue consumer never emits the suspicious warning. *)
Lemma callback_never_flags_suspicious body db :
  existsb is_suspicious_event (run_log (callback L body db)) = false.
Proof.
  unfold callback, try_except, bindM, lift, run_log.
  destruct (body_loads body) as [data|e]; cbn [fst snd].
  2:{ destruct (body_decode body); reflexivity. }
  destruct (validate_message L data) as [[|error]|e]; cbn [fst snd].
  - destruct (insert_transaction_cases data db)
      as [(e & ->) | [(k & ->) | (tx & db' & -> & _)]]; cbn [fst snd];
      [destruct (body_decode body)|..]; reflexivity.
  - destruct (body_decode body); reflexivity.
  - destruct (body_decode body); reflexivity.
Qed.

End Suspicious.

(** C9.  A valid record with the amount 20000, on a seeded database.  The
    csv path accepts it, stores the transaction its fields describe and logs
    the suspicious warning; the queue path accepts it and stores the same
    transaction, and logs no suspicious warning. *)
Theorem suspicious_signal_only_on_csv_path :
  import_csv cpython
    [Sample.record "tx7" "user1" "user2" "20000" "USD" "2025-05-01T12:00:00Z"
                   "completed"] Sample.seeded
  = (with_transaction Sample.seeded
       {| id := PStr "tx7"; sender_id := PStr "user1"; receiver_id := PStr "user2";
          amount := float_of_Z 20000; currency := PStr "USD";
          timestamp := timestamp Sample.tx100; status := completed |},
     [LogSuspicious (PStr "tx7") (PStr "20000"); LogImportComplete],
     Return [Accepted]) /\
  callback cpython
    (Sample.json_message (Sample.fields_of "tx7" "user1" "user2" "20000" "USD"
                                           "2025-05-01T12:00:00Z" "completed"))
    Sample.seeded
  = (with_transaction Sample.seeded
       {| id := PStr "tx7"; sender_id := PStr "user1"; receiver_id := PStr "user2";
          amount := float_of_Z 20000; currency := PStr "USD";
          timestamp := timestamp Sample.tx100; status := completed |},
     [LogInserted (PStr "tx7")], Return Accepted).
Proof. vm_compute. split; reflexivity. Qed.

(** ** The batch as one transaction; the quarantine *)

Section Batch.
Context (L : PyLib).

Lemma insert_transaction_row_rejected db tx db' :
  insert_transaction_row L db tx = Return db' ->
  rejected_records db' = rejected_records db.
Proof.
  unfold insert_transaction_row, db_raise.
  destruct (as_text (id tx)), (as_text (sender_id tx)),
    (as_text (receiver_id tx)), (as_text (currency tx)); try discriminate.
  repeat match goal with
         | |- context [if ?b then _ else _] => destruct b; try discriminate
         end.
  intros [= <-]. reflexivity.
Qed.

Lemma insert_objects_rejected os : forall db db',
  insert_objects L db os = Return db' ->
  rejected_records db' = (rejected_records db ++ pending_rejected os)%list.
Proof.
  induction os as [|o os IH]; intros db db'; cbn [insert_objects].
  - intros [= <-]. cbn. now rewrite app_nil_r.
  - destruct o as [tx|rec]; cbn [insert_object bind].
    + destruct (insert_transaction_row L db tx) as [db1|] eqn:H1; [|discriminate].
      cbn [bind]. intros H. rewrite (IH _ _ H).
      now rewrite (insert_transaction_row_rejected _ _ H1).
    + intros H. rewrite (IH _ _ H). cbn. now rewrite <- app_assoc.
Qed.

Lemma rejected_of_cons row rows :
  rejected_of L (row :: rows) = (rejected_of L [row] ++ rejected_of L rows)%list.
Proof. unfold rejected_of. cbn. now rewrite app_nil_r. Qed.

(** One row: the committed database is untouched, and the session holds
    one more rejected record exactly when the row is invalid. *)
Lemma import_row_spec row s :
  s_durable (fst (fst (import_row L row s))) = s_durable s /\
  forall o, snd (import_row L row s) = Return o ->
            session_rejected (fst (fst (import_row L row s)))
            = (session_rejected s ++ rejected_of L [row])%list.
Proof.
  unfold import_row, bindM, lift, rejected_of. cbn [flat_map].
  destruct (validate_row L row) as [[|error]|e]; cbn [fst snd];
    [| split; [reflexivity|intros _ _; unfold session_rejected, pending_rejected;
               cbn; now rewrite flat_map_app, app_assoc]
     | split; [reflexivity|discriminate] ].
  destruct (py_getitem L row "transaction_id") as [k|e]; cbn [fst snd];
    [|split; [reflexivity|discriminate]].
  unfold session_get, bindM, session_flush, select_transaction.
  destruct (insert_objects L (s_db s) (s_new s)) as [db1|e] eqn:Hins; cbn [fst snd];
    [|split; [reflexivity|discriminate]].
  assert (Hrej : forall os, pending_rejected os = [] ->
                 session_rejected {| s_durable := s_durable s; s_db := db1; s_new := os |}
                 = (session_rejected s ++ [] ++ [])%list).
  { intros os Hos. unfold session_rejected. cbn [s_db s_new].
    rewrite Hos, (insert_objects_rejected _ _ Hins). now rewrite !app_nil_r. }
  destruct (as_text k) as [i|]; cbn [fst snd s_db];
    [|split; [reflexivity|discriminate]].
  destruct (find (has_id i) (transactions db1)); cbn [fst snd].
  - split; [reflexivity|]. intros _ _. now apply Hrej.
  - destruct (py_getitem L row "amount") as [a|e]; cbn [fst snd];
      [|split; [reflexivity|discriminate]].
    destruct (py_float L a) as [f|e]; cbn [fst snd];
      [|split; [reflexivity|discriminate]].
    destruct (new_Transaction L row) as [tx|e]; cbn [fst snd];
      [|split; [reflexivity|discriminate]].
    destruct (float_gt f SUSPICIOUS_AMOUNT); cbn [fst snd];
      [|split; [reflexivity|intros _ _; now apply Hrej]].
    destruct (py_getitem L row "transaction_id"); cbn;
      (split; [reflexivity|try discriminate; intros _ _; now apply Hrej]).
Qed.

Lemma import_rows_spec rows : forall s,
  s_durable (fst (fst (import_rows L rows s))) = s_durable s /\
  forall os, snd (import_rows L rows s) = Return os ->
             session_rejected (fst (fst (import_rows L rows s)))
             = (session_rejected s ++ rejected_of L rows)%list.
Proof.
  induction rows as [|row rows IH]; intros s; cbn [import_rows].
  - split; [reflexivity|]. intros _ _. cbn. now rewrite app_nil_r.
  - unfold bindM. destruct (import_row_spec row s) as (Hd & Hr).
    destruct (import_row L row s) as [[s1 l1] [o|e]]; cbn [fst snd] in *;
      [|split; [exact Hd|discriminate]].
    destruct (IH s1) as (Hd' & Hr').
    destruct (import_rows L rows s1) as [[s2 l2] [os|e]]; cbn [fst snd] in *.
    + unfold ret; cbn [fst snd]. split; [congruence|]. intros _ _.
      rewrite (Hr' _ eq_refl), (Hr _ eq_refl), (rejected_of_cons row rows).
      now rewrite app_assoc.
    + cbn [fst snd]. split; [congruence|discriminate].
Qed.

(** A row the validator accepts has an id to look up. *)
Lemma valid_row_has_id row :
  validate_row L row = Return Valid ->
  exists k, py_getitem L row "transaction_id" = Return k.
Proof.
  unfold validate_row.
  destruct (missing_in_row L row required_fields) as [[f|]|] eqn:E; cbn [bind];
    try discriminate.
  intros _. unfold required_fields in E. cbn [missing_in_row] in E.
  destruct (py_in "transaction_id" row) as [[|]|]; cbn [bind negb] in E;
    try discriminate.
  destruct (py_getitem L row "transaction_id") as [v|]; [now exists v|discriminate].
Qed.

(** A valid row whose lookup finds the store refusing the pending writes:
    the error of the flush leaves the loop. *)
Lemma import_row_flush_fails row s e :
  validate_row L row = Return Valid ->
  insert_objects L (s_db s) (s_new s) = Raise e ->
  import_row L row s = (s, [], Raise e).
Proof.
  intros Hv Hins. destruct (valid_row_has_id _ Hv) as (k & Hk).
  unfold import_row, bindM, lift. rewrite Hv, Hk.
  unfold session_get, bindM, session_flush. rewrite Hins. reflexivity.
Qed.

(** The loop over a batch in two parts. *)
Lemma import_rows_app pre : forall post s s1 log1 os1,
  import_rows L pre s = (s1, log1, Return os1) ->
  import_rows L (pre ++ post) s
  = let '(s2, log2, r) := import_rows L post s1 in
    (s2, (log1 ++ log2)%list,
     match r with
     | Return os2 => Return (os1 ++ os2)%list
     | Raise e => Raise e
     end).
Proof.
  induction pre as [|row pre IH]; intros post s s1 log1 os1; cbn [import_rows app].
  - intros [= <- <- <-]. destruct (import_rows L post s) as [[s2 log2] [os2|e]];
      reflexivity.
  - unfold bindM.
    destruct (import_row L row s) as [[s0 l0] [o|e]]; [|discriminate].
    destruct (import_rows L pre s0) as [[s0' l0'] [os0|e]] eqn:Hpre;
      cbn [fst snd ret]; [|discriminate].
    unfold ret. intros [= <- <- <-]. rewrite (IH post _ _ _ _ Hpre).
    destruct (import_rows L post s0') as [[s2 log2] [os2|e]]; cbn;
      rewrite ?app_nil_r, <- ?app_assoc; reflexivity.
Qed.

(** C7, as amended.  A write that the storage layer refuses ends
    [import_csv] with the error of the write for its caller, and nothing of
    the run is committed.  The writes of a run are the flush that precedes
    the lookup of each valid row and the commit after the last row: when
    the flush before a valid row fails, after any rows processed without an
    error, and when the commit fails, [import_csv] raises that error, with
    the log written so far, and the database, ledger and quarantine, is
    what it was before the run.  The same holds of the database whenever
    [import_csv] ends with an error, whatever the error. *)
Theorem failed_batch_commits_nothing rows db :
  (forall pre row post s log os e,
     rows = (pre ++ row :: post)%list ->
     import_rows L pre (Session db) = (s, log, Return os) ->
     validate_row L row = Return Valid ->
     insert_objects L (s_db s) (s_new s) = Raise e ->
     import_csv L rows db = (db, log, Raise e)) /\
  (forall s log os e,
     import_rows L rows (Session db) = (s, log, Return os) ->
     insert_objects L (s_db s) (s_new s) = Raise e ->
     import_csv L rows db = (db, log, Raise e)) /\
  (forall e,
     run_result (import_csv L rows db) = Raise e ->
     run_db (import_csv L rows db) = db).
Proof.
  split; [|split].
  - intros pre row post s log os e -> Hpre Hv Hins.
    destruct (import_rows_spec pre (Session db)) as (Hd & _).
    rewrite Hpre in Hd. cbn [fst snd s_durable Session] in Hd.
    unfold import_csv, with_Session, bindM.
    rewrite (import_rows_app _ (row :: post) _ Hpre). cbn [import_rows].
    unfold bindM at 1. rewrite (import_row_flush_fails _ _ Hv Hins).
    cbn. rewrite Hd, app_nil_r. reflexivity.
  - intros s log os e Hrows Hins.
    destruct (import_rows_spec rows (Session db)) as (Hd & _).
    rewrite Hrows in Hd. cbn [fst snd s_durable Session] in Hd.
    unfold import_csv, with_Session, bindM. rewrite Hrows.
    unfold session_commit, bindM, session_flush. rewrite Hins.
    cbn. rewrite Hd, app_nil_r. reflexivity.
  - intros e. unfold import_csv, with_Session, bindM, run_result, run_db.
    destruct (import_rows_spec rows (Session db)) as (Hd & _).
    destruct (import_rows L rows (Session db)) as [[s1 l1] [os|e1]];
      cbn [fst snd] in *; [|intros _; exact Hd].
    unfold session_commit, bindM, session_flush.
    destruct (insert_objects L (s_db s1) (s_new s1)); cbn; [discriminate|].
    intros _. exact Hd.
Qed.

(** The quarantine after a batch that completes. *)
Lemma import_csv_rejected rows db db' log os :
  import_csv L rows db = (db', log, Return os) ->
  rejected_records db' = (rejected_records db ++ rejected_of L rows)%list.
Proof.
  unfold import_csv, with_Session, bindM.
  destruct (import_rows_spec rows (Session db)) as (_ & Hr).
  destruct (import_rows L rows (Session db)) as [[s1 l1] [os1|e1]];
    cbn [fst snd] in *; [|discriminate].
  specialize (Hr _ eq_refl).
  unfold session_commit, bindM, session_flush.
  destruct (insert_objects L (s_db s1) (s_new s1)) as [db2|] eqn:Hins; cbn;
    [|discriminate].
  intros [= <- _ _]. rewrite (insert_objects_rejected _ _ Hins).
  unfold session_rejected in Hr. cbn in Hr. now rewrite app_nil_r in Hr.
Qed.

(** A message that ends in quarantine. *)
Lemma callback_quarantined body db db' log reason :
  callback L body db = (db', log, Return (Quarantined reason)) ->
  exists text,
    body_decode body = Return text /\
    db' = insert_rejected_row db
            {| reason := reason; payload := text; source := "queue" |}.
Proof.
  unfold callback, try_except, bindM, lift.
  destruct (body_loads body) as [data|e]; cbn [fst snd].
  2:{ destruct (body_decode body) as [text|]; cbn; [|discriminate].
      intros [= <- _ <-]. now exists text. }
  destruct (validate_message L data) as [[|error]|e]; cbn [fst snd].
  - destruct (insert_transaction_cases L data db)
      as [(e & ->) | [(k & ->) | (tx & db1 & -> & _)]]; cbn [fst snd];
      [|discriminate..].
    destruct (body_decode body) as [text|]; cbn; [|discriminate].
    intros [= <- _ <-]. now exists text.
  - destruct (body_decode body) as [text|]; cbn; [|discriminate].
    intros [= <- _ <-]. now exists text.
  - destruct (body_decode body) as [text|]; cbn; [|discriminate].
    intros [= <- _ <-]. now exists text.
Qed.

(** C8, as amended.  The rejected records a completed batch adds are, row
    by row, the invalid rows with the validator's reason, [str(row)] (the
    rendering of the parsed row, not the text of the file) as payload and
    "csv" as source; a message that is quarantined adds one record whose
    payload is the decoded body and whose source is "queue". *)
Theorem rejected_payload_and_source :
  (forall rows db db' log os,
     import_csv L rows db = (db', log, Return os) ->
     rejected_records db' = (rejected_records db ++ rejected_of L rows)%list) /\
  (forall body db db' log reason,
     callback L body db = (db', log, Return (Quarantined reason)) ->
     exists text,
       body_decode body = Return text /\
       rejected_records db' =
       (rejected_records db
          ++ [{| reason := reason; payload := text; source := "queue" |}])%list).
Proof.
  split.
  - exact import_csv_rejected.
  - intros body db db' log reason H.
    destruct (callback_quarantined _ _ H) as (text & Hd & ->).
    exists text. split; [exact Hd|reflexivity].
Qed.

End Batch.

(** The theorem C7 at a batch whose second record names a sender that is
    no user: the first two records are processed, the lookup of the third
    flushes the second, and the store refuses it. *)
Lemma failed_batch_commits_nothing_witness :
  import_csv cpython [Sample.valid_tx; Sample.ghost_sender; Sample.tx102]
             Sample.seeded
  = (Sample.seeded, [],
     Raise (IntegrityError
              "insert on table transactions violates foreign key constraint on sender_id")).
Proof.
  refine (proj1 (@failed_batch_commits_nothing cpython
                   [Sample.valid_tx; Sample.ghost_sender; Sample.tx102]
                   Sample.seeded)
                [Sample.valid_tx; Sample.ghost_sender] Sample.tx102 []
                (fst (fst (import_rows cpython [Sample.valid_tx; Sample.ghost_sender]
                                       (Session Sample.seeded))))
                [] [Accepted; Accepted] _ eq_refl _ _ _).
  - vm_compute. reflexivity.
  - vm_compute. reflexivity.
  - vm_compute. reflexivity.
Defined.

(** C7, as stated, fails.  The first two records of the batch are processed
    and accepted; the write of the second fails while the third is looked
    up; the error reaches the caller, and the first record, processed
    before, is not in the ledger. *)
Lemma failed_batch_loses_processed_records :
  snd (import_rows cpython [Sample.valid_tx; Sample.ghost_sender]
                   (Session Sample.seeded))
  = Return [Accepted; Accepted] /\
  import_csv cpython [Sample.valid_tx; Sample.ghost_sender; Sample.tx102]
             Sample.seeded
  = (Sample.seeded, [],
     Raise (IntegrityError
              "insert on table transactions violates foreign key constraint on sender_id"))
  /\
  transactions
    (run_db (import_csv cpython [Sample.valid_tx; Sample.ghost_sender; Sample.tx102]
                        Sample.seeded)) = [].
Proof. vm_compute. repeat split. Qed.

(** The theorem C8 at the record whose amount is [not_a_number], on both
    paths. *)
Lemma rejected_payload_and_source_witness :
  rejected_records
    (run_db (import_csv cpython
               [DictReader_row Sample.header Sample.bad_amount_fields] Sample.seeded))
  = (rejected_records Sample.seeded
      ++ rejected_of cpython
           [DictReader_row Sample.header Sample.bad_amount_fields])%list /\
  exists text,
    body_decode (Sample.json_message
                   (combine Sample.header Sample.bad_amount_fields)) = Return text /\
    rejected_records
      (run_db (callback cpython
                 (Sample.json_message (combine Sample.header Sample.bad_amount_fields))
                 Sample.seeded))
    = (rejected_records Sample.seeded
        ++ [{| reason := "could not convert string to float: 'not_a_number'";
               payload := text; source := "queue" |}])%list.
Proof.
  destruct (rejected_payload_and_source cpython) as (Hcsv & Hqueue).
  split.
  - refine (Hcsv [DictReader_row Sample.header Sample.bad_amount_fields]
                 Sample.seeded _
                 [LogInvalidRow "could not convert string to float: 'not_a_number'"
                    (DictReader_row Sample.header Sample.bad_amount_fields);
                  LogImportComplete]
                 [Quarantined "could not convert string to float: 'not_a_number'"] _).
    vm_compute; reflexivity.
  - destruct (Hqueue (Sample.json_message
                        (combine Sample.header Sample.bad_amount_fields))
                     Sample.seeded
                     (run_db (callback cpython
                        (Sample.json_message
                           (combine Sample.header Sample.bad_amount_fields))
                        Sample.seeded))
                     [LogInvalidMessage
                        "could not convert string to float: 'not_a_number'";
                      LogSavedRejected
                        "could not convert string to float: 'not_a_number'"]
                     "could not convert string to float: 'not_a_number'")
      as (text & Hd & Hr); [vm_compute; reflexivity|].
    exists text. split; [exact Hd|exact Hr].
Defined.

(** C8, as stated, fails on the csv path: the payload of the record whose
    amount is [not_a_number] is the rendering of the parsed row, and is not
    the line of the file. *)
Lemma csv_payload_is_not_the_line :
  csv_line Sample.bad_amount_fields
  = "tx1,user1,user2,not_a_number,USD,2025-05-01T12:00:00Z,completed" /\
  rejected_records
    (run_db (import_csv cpython
               [DictReader_row Sample.header Sample.bad_amount_fields] Sample.seeded))
  = [{| reason := "could not convert string to float: 'not_a_number'";
        payload := "{'transaction_id': 'tx1', 'sender_id': 'user1', 'receiver_id': 'user2', 'amount': 'not_a_number', 'currency': 'USD', 'timestamp': '2025-05-01T12:00:00Z', 'status': 'completed'}";
        source := "csv" |}] /\
  (py_str cpython (DictReader_row Sample.header Sample.bad_amount_fields)
   =? csv_line Sample.bad_amount_fields)%string = false.
Proof. vm_compute. repeat split. Qed.


(** ** Sorting *)

Section Sorting.
Context {A : Type} (leb : A -> A -> bool).
Hypothesis leb_total : forall a b, leb a b = false -> leb b a = true.
Hypothesis leb_trans : forall a b c, leb a b = true -> leb b c = true -> leb a c = true.

Lemma insert_by_perm x l : Permutation (insert_by leb x l) (x :: l).
Proof.
  induction l as [|y l IH]; cbn; [reflexivity|].
  destruct (leb x y); [reflexivity|].
  rewrite IH. apply perm_swap.
Qed.

Lemma sort_by_perm l : Permutation (sort_by leb l) l.
Proof.
  induction l as [|x l IH]; cbn; [reflexivity|].
  rewrite insert_by_perm. now constructor.
Qed.

Lemma insert_by_sorted x l :
  StronglySorted (fun a b => leb a b = true) l ->
  StronglySorted (fun a b => leb a b = true) (insert_by leb x l).
Proof.
  induction 1 as [|y l Hs IH Hall]; cbn.
  - repeat constructor.
  - destruct (leb x y) eqn:Hxy.
    + constructor; [now constructor|].
      constructor; [exact Hxy|].
      eapply Forall_impl; [|exact Hall]. intros z Hz. now apply leb_trans with y.
    + constructor; [exact IH|].
      apply (Permutation_Forall (Permutation_sym (insert_by_perm x l))).
      constructor; [now apply leb_total|exact Hall].
Qed.

Lemma sort_by_sorted l : StronglySorted (fun a b => leb a b = true) (sort_by leb l).
Proof.
  induction l as [|x l IH]; cbn; [constructor|]. now apply insert_by_sorted.
Qed.

End Sorting.

Lemma lex_leb_total a : forall b, lex_leb a b = false -> lex_leb b a = true.
Proof.
  induction a as [|x a IH]; intros [|y b]; cbn; try easy.
  intros H. apply orb_false_iff in H as (Hlt & H).
  apply andb_false_iff in H. apply Z.ltb_ge in Hlt.
  destruct (Z.ltb_spec y x); [reflexivity|]. cbn.
  assert (x = y) as -> by lia. rewrite Z.eqb_refl in *. cbn.
  destruct H as [H|H]; [discriminate|]. now apply IH.
Qed.

Lemma lex_leb_trans a : forall b c,
  lex_leb a b = true -> lex_leb b c = true -> lex_leb a c = true.
Proof.
  induction a as [|x a IH]; intros [|y b] [|z c]; cbn; try easy.
  intros H1 H2.
  apply orb_true_iff in H1. apply orb_true_iff in H2.
  destruct (Z.ltb_spec x z); [reflexivity|]. cbn.
  destruct H1 as [H1|H1], H2 as [H2|H2];
    rewrite ?Z.ltb_lt, ?andb_true_iff, ?Z.eqb_eq in H1, H2; try lia.
  destruct H1 as (-> & H1), H2 as (-> & H2). rewrite Z.eqb_refl. cbn.
  now apply IH with b.
Qed.

Lemma filter_filter {A} (f g : A -> bool) l :
  filter f (filter g l) = filter (fun x => g x && f x) l.
Proof.
  induction l as [|x l IH]; cbn; [reflexivity|].
  destruct (g x); cbn; [destruct (f x)|]; now rewrite IH.
Qed.

Lemma filter_if_filter {A} bound (test : date -> A -> bool) l :
  filter_if bound test l
  = filter (fun x => match bound with Some d => test d x | None => true end) l.
Proof.
  destruct bound; cbn; [reflexivity|].
  induction l as [|x l IH]; cbn; [reflexivity|]. now rewrite <- IH.
Qed.

(** ** Payments by user *)

(** The query of [get_payments_by_user], in one filter, on the rows it
    reads. *)
Lemma get_payments_by_user_eq (user_id : string) (start_date end_date : option date)
  (db bind : option database) (rows : list Transaction) :
  rows_read db bind = Some rows ->
  get_payments_by_user user_id start_date end_date db bind
  = Return (map payment_dict
              (order_by_timestamp
                 (filter (payment_matches (session_given db) user_id
                                          start_date end_date) rows))).
Proof.
  assert (Hq : forall (inclusive : bool) rows,
    filter_if end_date
      (fun d tx => if inclusive then timestamp_le (timestamp tx) d
                   else timestamp_lt (timestamp tx) d)
      (filter_if start_date (fun d tx => timestamp_ge (timestamp tx) d)
         (filter (fun tx => is_sender user_id tx || is_receiver user_id tx) rows))
    = filter (payment_matches inclusive user_id start_date end_date) rows).
  { intros inclusive rows'. rewrite !filter_if_filter, !filter_filter.
    apply filter_ext. intros tx. unfold payment_matches.
    rewrite andb_assoc. destruct end_date; reflexivity. }
  destruct db as [db|]; [|destruct bind as [session|]];
    cbn [get_payments_by_user session_given rows_read]; intros [= <-].
  - pose proof (Hq true (transactions db)) as H. cbn beta iota in H. now rewrite H.
  - pose proof (Hq false (transactions session)) as H. cbn beta iota in H.
    now rewrite H.
Qed.

Lemma order_by_timestamp_sorted l :
  StronglySorted (fun a b => timestamp_leb (timestamp a) (timestamp b) = true)
                 (order_by_timestamp l).
Proof.
  apply sort_by_sorted.
  - intros a b. apply lex_leb_total.
  - intros a b c. apply lex_leb_trans.
Qed.


(** C4.  Called without a session, as its signature allows, the function
    does not return what the claim says.  In the module as it is, its
    [Session()] has no engine and the call raises.  With the name [Session]
    bound to a database, as the tests do, the end date is excluded: a
    transaction of the user at midnight of the end date satisfies
    [timestamp <= end] and is not returned.  With the session passed the
    same call returns it. *)
Theorem payments_without_session_miss_the_end_date :
  payment_matches true "user1" None (Some (Date 2025 5 2)) Sample.at_midnight = true /\
  get_payments_by_user "user1" None (Some (Date 2025 5 2))
    (Some (with_transaction Sample.seeded Sample.at_midnight)) None
  = Return [PDict [(PStr "id", PStr "tx9");
                   (PStr "sender_id", PStr "user1");
                   (PStr "receiver_id", PStr "user2");
                   (PStr "amount", PFloat (float_of_Z 100));
                   (PStr "currency", PStr "USD");
                   (PStr "timestamp", PStr "2025-05-02T00:00:00");
                   (PStr "status", PStr "completed")]] /\
  get_payments_by_user "user1" None (Some (Date 2025 5 2)) None None
  = Raise UnboundExecutionError /\
  get_payments_by_user "user1" None (Some (Date 2025 5 2)) None
    (Some (with_transaction Sample.seeded Sample.at_midnight))
  = Return [].
Proof. vm_compute. repeat split. Qed.

(** ** Daily totals *)

Lemma date_eqb_eq a b : date_eqb a b = true <-> a = b.
Proof.
  unfold date_eqb. rewrite !andb_true_iff, !Z.eqb_eq.
  destruct a, b; cbn. split; [intros [[-> ->] ->]; reflexivity|].
  intros [= -> -> ->]. auto.
Qed.

Lemma date_eqb_refl a : date_eqb a a = true.
Proof. now apply date_eqb_eq. Qed.

Lemma date_eqb_sym a b : date_eqb a b = date_eqb b a.
Proof.
  destruct (date_eqb b a) eqn:H.
  - apply date_eqb_eq in H as ->. apply date_eqb_refl.
  - destruct (date_eqb a b) eqn:H'; [|reflexivity].
    apply date_eqb_eq in H' as ->. now rewrite date_eqb_refl in H.
Qed.

Section Upsert.
Context {V : Type}.
Implicit Types (g : list (date * V)) (upd : option V -> V).

Lemma lookup_upsert d upd g d' :
  lookup (upsert d upd g) d'
  = if date_eqb d d' then Some (upd (lookup g d)) else lookup g d'.
Proof.
  induction g as [|[k v] g IH]; cbn.
  - reflexivity.
  - destruct (date_eqb k d) eqn:Hkd; cbn.
    + apply date_eqb_eq in Hkd as ->. destruct (date_eqb d d'); reflexivity.
    + rewrite IH. destruct (date_eqb d d') eqn:Hdd'; [|reflexivity].
      apply date_eqb_eq in Hdd' as <-. now rewrite Hkd.
Qed.

Lemma in_keys_upsert d upd g d' :
  In d' (map fst (upsert d upd g)) <-> d' = d \/ In d' (map fst g).
Proof.
  induction g as [|[k v] g IH]; cbn.
  - intuition auto.
  - destruct (date_eqb k d) eqn:Hkd; cbn.
    + apply date_eqb_eq in Hkd as ->. intuition auto.
    + rewrite IH. intuition auto.
Qed.

Lemma NoDup_keys_upsert d upd g :
  NoDup (map fst g) -> NoDup (map fst (upsert d upd g)).
Proof.
  induction g as [|[k v] g IH]; cbn; intros H.
  - repeat constructor. intros [].
  - inversion H as [|? ? Hk Hg]; subst.
    destruct (date_eqb k d) eqn:Hkd; cbn.
    + constructor; assumption.
    + constructor; [|now apply IH].
      rewrite in_keys_upsert. intros [->|Hin]; [|contradiction].
      now rewrite date_eqb_refl in Hkd.
Qed.

Lemma lookup_none_iff g d : lookup g d = None <-> ~ In d (map fst g).
Proof.
  induction g as [|[k v] g IH]; cbn; [intuition auto|].
  destruct (date_eqb k d) eqn:Hkd.
  - apply date_eqb_eq in Hkd as ->. split; [discriminate|]. intros H. elim H. now left.
  - rewrite IH. split.
    + intros H [->|Hin]; [now rewrite date_eqb_refl in Hkd|contradiction].
    + intros H Hin. apply H. now right.
Qed.

End Upsert.

Lemma group_add_upsert d x g :
  group_add d x g
  = upsert d (fun o => match o with
                       | Some acc => SFadd prec emax acc x
                       | None => x
                       end) g.
Proof.
  induction g as [|[k v] g IH]; cbn; [reflexivity|].
  destruct (date_eqb k d); [reflexivity|]. now rewrite IH.
Qed.

Lemma set_total_sent_upsert d x t :
  set_total_sent d x t
  = upsert d (fun o => {| sent_entry := Some x;
                          received_entry := match o with
                                            | Some e => received_entry e
                                            | None => None
                                            end |}) t.
Proof.
  induction t as [|[k v] t IH]; cbn; [reflexivity|].
  destruct (date_eqb k d); [reflexivity|]. now rewrite IH.
Qed.

Lemma set_total_received_upsert d x t :
  set_total_received d x t
  = upsert d (fun o => {| sent_entry := match o with
                                        | Some e => sent_entry e
                                        | None => None
                                        end;
                          received_entry := Some x |}) t.
Proof.
  induction t as [|[k v] t IH]; cbn; [reflexivity|].
  destruct (date_eqb k d); [reflexivity|]. now rewrite IH.
Qed.

Lemma totals_get_lookup t d : totals_get t d = lookup t d.
Proof.
  induction t as [|[k v] t IH]; cbn; [reflexivity|]. now rewrite IH.
Qed.

Section SumByDay.

Let step (g : list (date * pyfloat)) (tx : Transaction) :=
  group_add (date_of (timestamp tx)) (amount tx) g.

Let on_day (d : date) (tx : Transaction) := date_eqb (date_of (timestamp tx)) d.

Let add (o : option pyfloat) (tx : Transaction) : option pyfloat :=
  Some (match o with
        | Some acc => SFadd prec emax acc (amount tx)
        | None => amount tx
        end).

Lemma fold_group_lookup l : forall g d,
  lookup (fold_left step l g) d = fold_left add (filter (on_day d) l) (lookup g d).
Proof.
  induction l as [|tx l IH]; intros g d; cbn [fold_left filter]; [reflexivity|].
  rewrite IH. unfold step. rewrite group_add_upsert, lookup_upsert.
  change (on_day d tx) with (date_eqb (date_of (timestamp tx)) d).
  destruct (date_eqb (date_of (timestamp tx)) d) eqn:E.
  - apply date_eqb_eq in E as <-. reflexivity.
  - reflexivity.
Qed.

Lemma fold_group_keys l : forall g d,
  In d (map fst (fold_left step l g)) <->
  In d (map fst g) \/ exists tx, In tx l /\ date_of (timestamp tx) = d.
Proof.
  induction l as [|tx l IH]; intros g d; cbn [fold_left].
  - split; [now left|]. intros [H|(tx & [] & _)]. exact H.
  - rewrite IH. unfold step. rewrite group_add_upsert, in_keys_upsert.
    split.
    + intros [[->|H]|(tx' & Hin & Hd)].
      * right. exists tx. split; [now left|reflexivity].
      * now left.
      * right. exists tx'. split; [now right|exact Hd].
    + intros [H|(tx' & [<-|Hin] & Hd)].
      * left. now right.
      * left. left. now symmetry.
      * right. exists tx'. now split.
Qed.

Lemma fold_group_NoDup l : forall g,
  NoDup (map fst g) -> NoDup (map fst (fold_left step l g)).
Proof.
  induction l as [|tx l IH]; intros g H; cbn [fold_left]; [exact H|].
  apply IH. unfold step. rewrite group_add_upsert. now apply NoDup_keys_upsert.
Qed.

Lemma fold_add_some l : forall a,
  fold_left add l (Some a)
  = Some (fold_left (fun acc t => SFadd prec emax acc (amount t)) l a).
Proof.
  induction l as [|tx l IH]; intros a; cbn [fold_left]; [reflexivity|].
  apply IH.
Qed.

Lemma fold_add_none l : fold_left add l None = sum_amounts l.
Proof.
  destruct l as [|tx l]; [reflexivity|]. cbn [fold_left sum_amounts].
  apply fold_add_some.
Qed.

(** The sum of a day's group is the sum of the amounts of the day's rows. *)
Lemma sum_by_day_lookup l d :
  lookup (sum_by_day l) d
  = sum_amounts (filter (fun tx => date_eqb (date_of (timestamp tx)) d) l).
Proof.
  etransitivity; [exact (fold_group_lookup l [] d)|apply fold_add_none].
Qed.

Lemma sum_by_day_keys l d :
  In d (map fst (sum_by_day l)) <-> exists tx, In tx l /\ date_of (timestamp tx) = d.
Proof.
  etransitivity; [exact (fold_group_keys l [] d)|]. cbn. intuition auto.
Qed.

Lemma sum_by_day_NoDup l : NoDup (map fst (sum_by_day l)).
Proof. apply fold_group_NoDup. constructor. Qed.

End SumByDay.

Section Totals.

Let step_sent (t : list (date * day_totals)) (row : date * pyfloat) :=
  set_total_sent (fst row) (float_or_0 (snd row)) t.

Let step_received (t : list (date * day_totals)) (row : date * pyfloat) :=
  set_total_received (fst row) (float_or_0 (snd row)) t.

Lemma fold_sent_keys g : forall t d,
  In d (map fst (fold_left step_sent g t)) <-> In d (map fst t) \/ In d (map fst g).
Proof.
  induction g as [|[k x] g IH]; intros t d; cbn [fold_left map fst].
  - split; [now left|intros [H|[]]; exact H].
  - rewrite IH. unfold step_sent. rewrite set_total_sent_upsert, in_keys_upsert.
    cbn. intuition auto.
Qed.

Lemma fold_received_keys g : forall t d,
  In d (map fst (fold_left step_received g t)) <-> In d (map fst t) \/ In d (map fst g).
Proof.
  induction g as [|[k x] g IH]; intros t d; cbn [fold_left map fst].
  - split; [now left|intros [H|[]]; exact H].
  - rewrite IH. unfold step_received.
    rewrite set_total_received_upsert, in_keys_upsert. cbn. intuition auto.
Qed.

Lemma fold_sent_NoDup g : forall t,
  NoDup (map fst t) -> NoDup (map fst (fold_left step_sent g t)).
Proof.
  induction g as [|row g IH]; intros t H; cbn [fold_left]; [exact H|].
  apply IH. unfold step_sent. rewrite set_total_sent_upsert.
  now apply NoDup_keys_upsert.
Qed.

Lemma fold_received_NoDup g : forall t,
  NoDup (map fst t) -> NoDup (map fst (fold_left step_received g t)).
Proof.
  induction g as [|row g IH]; intros t H; cbn [fold_left]; [exact H|].
  apply IH. unfold step_received. rewrite set_total_received_upsert.
  now apply NoDup_keys_upsert.
Qed.

Lemma fold_sent_sent g : forall t d,
  NoDup (map fst g) ->
  sent_of (fold_left step_sent g t) d
  = match lookup g d with
    | Some x => Some (float_or_0 x)
    | None => sent_of t d
    end.
Proof.
  induction g as [|[k x] g IH]; intros t d Hnd; cbn [fold_left lookup];
    [reflexivity|].
  cbn in Hnd. inversion Hnd as [|? ? Hk Hg]; subst.
  rewrite (IH _ _ Hg). unfold step_sent. cbn [fst snd].
  unfold sent_of. rewrite set_total_sent_upsert, lookup_upsert.
  destruct (date_eqb k d) eqn:E.
  - apply date_eqb_eq in E as <-.
    apply lookup_none_iff in Hk. rewrite Hk. reflexivity.
  - destruct (lookup g d); reflexivity.
Qed.

Lemma fold_sent_received g : forall t d,
  received_of (fold_left step_sent g t) d = received_of t d.
Proof.
  induction g as [|[k x] g IH]; intros t d; cbn [fold_left]; [reflexivity|].
  rewrite IH. unfold step_sent, received_of. cbn [fst snd].
  rewrite set_total_sent_upsert, lookup_upsert.
  destruct (date_eqb k d) eqn:E; [|reflexivity].
  apply date_eqb_eq in E as <-. reflexivity.
Qed.

Lemma fold_received_received g : forall t d,
  NoDup (map fst g) ->
  received_of (fold_left step_received g t) d
  = match lookup g d with
    | Some x => Some (float_or_0 x)
    | None => received_of t d
    end.
Proof.
  induction g as [|[k x] g IH]; intros t d Hnd; cbn [fold_left lookup];
    [reflexivity|].
  cbn in Hnd. inversion Hnd as [|? ? Hk Hg]; subst.
  rewrite (IH _ _ Hg). unfold step_received. cbn [fst snd].
  unfold received_of. rewrite set_total_received_upsert, lookup_upsert.
  destruct (date_eqb k d) eqn:E.
  - apply date_eqb_eq in E as <-.
    apply lookup_none_iff in Hk. rewrite Hk. reflexivity.
  - destruct (lookup g d); reflexivity.
Qed.

Lemma fold_received_sent g : forall t d,
  sent_of (fold_left step_received g t) d = sent_of t d.
Proof.
  induction g as [|[k x] g IH]; intros t d; cbn [fold_left]; [reflexivity|].
  rewrite IH. unfold step_received, sent_of. cbn [fst snd].
  rewrite set_total_received_upsert, lookup_upsert.
  destruct (date_eqb k d) eqn:E; [|reflexivity].
  apply date_eqb_eq in E as <-. reflexivity.
Qed.

End Totals.

Section DailyTotals.
Context (user_id : string) (start_date end_date : option date)
        (rows : list Transaction).

Let sent :=
  sum_by_day (filter (fun tx => is_sender user_id tx
                                && in_range start_date end_date tx) rows).
Let received :=
  sum_by_day (filter (fun tx => is_receiver user_id tx
                                && in_range start_date end_date tx) rows).
Let totals :=
  fold_left (fun t row => set_total_received (fst row) (float_or_0 (snd row)) t)
    received
    (fold_left (fun t row => set_total_sent (fst row) (float_or_0 (snd row)) t)
       sent []).

Lemma daily_totals_of_eq :
  daily_totals_of user_id start_date end_date rows
  = map (fun d => {| dt_day := d;
                     total_sent := get_or_0 (sent_of totals d);
                     total_received := get_or_0 (received_of totals d) |})
        (sort_by date_leb (map fst totals)).
Proof.
  unfold daily_totals_of. apply map_ext. intros d.
  rewrite totals_get_lookup. reflexivity.
Qed.

Lemma totals_keys d :
  In d (map fst totals) <-> In d (map fst sent) \/ In d (map fst received).
Proof.
  unfold totals. rewrite fold_received_keys, fold_sent_keys. cbn. intuition auto.
Qed.

Lemma totals_NoDup : NoDup (map fst totals).
Proof. apply fold_received_NoDup, fold_sent_NoDup. constructor. Qed.

Lemma sent_of_totals d :
  get_or_0 (sent_of totals d)
  = side_total (day_rows (is_sender user_id) start_date end_date d rows).
Proof.
  unfold totals. rewrite fold_received_sent, fold_sent_sent by apply sum_by_day_NoDup.
  unfold sent. rewrite sum_by_day_lookup, filter_filter.
  unfold side_total, day_rows.
  destruct (sum_amounts _) as [[| | |]|]; reflexivity.
Qed.

Lemma received_of_totals d :
  get_or_0 (received_of totals d)
  = side_total (day_rows (is_receiver user_id) start_date end_date d rows).
Proof.
  unfold totals. rewrite fold_received_received by apply sum_by_day_NoDup.
  unfold received. rewrite sum_by_day_lookup, filter_filter.
  unfold side_total, day_rows.
  destruct (sum_amounts _) as [[| | |]|]; try reflexivity.
  rewrite fold_sent_received. reflexivity.
Qed.

Lemma active_day_iff d :
  In d (map fst totals) <->
  exists tx, In tx rows /\ in_range start_date end_date tx = true /\
             (is_sender user_id tx || is_receiver user_id tx) = true /\
             date_of (timestamp tx) = d.
Proof.
  rewrite totals_keys. unfold sent, received. rewrite !sum_by_day_keys.
  split.
  - intros [(tx & Hin & Hd)|(tx & Hin & Hd)];
      apply filter_In in Hin as (Hin & H); apply andb_true_iff in H as (Hu & Hr);
      exists tx; rewrite Hu, ?orb_true_r; auto.
  - intros (tx & Hin & Hr & Hu & Hd). apply orb_true_iff in Hu as [Hu|Hu];
      [left|right]; exists tx; (split; [|exact Hd]);
      apply filter_In; rewrite Hu, Hr; auto.
Qed.

(** The entries of [get_daily_totals], day by day. *)
Lemma daily_totals_of_days :
  daily_totals_of user_id start_date end_date rows
  = map (fun d =>
           {| dt_day := d;
              total_sent :=
                side_total (day_rows (is_sender user_id) start_date end_date d rows);
              total_received :=
                side_total (day_rows (is_receiver user_id) start_date end_date d rows)
           |})
        (sort_by date_leb (map fst totals)).
Proof.
  rewrite daily_totals_of_eq. apply map_ext. intros d.
  now rewrite sent_of_totals, received_of_totals.
Qed.

End DailyTotals.

(** C5.  On the rows of the session it is given (or of the module's
    [Session()] when that is bound to a database), [get_daily_totals]
    returns one dict per day, with the keys "day", "total_sent" and
    "total_received", sorted ascending by day and without a repeated day.
    The days are exactly the dates of the timestamps of the transactions in
    range in which the user is sender or receiver, so a day without
    activity has no entry.  [total_sent] is the sum of the amounts of the
    day's transactions in range that the user sent and [total_received] of
    those the user received, each 0.0 when there is none on that side. *)
Theorem daily_totals_postcondition (user_id : string)
  (start_date end_date : option date) (db bind : option database)
  (rows : list Transaction) :
  rows_read db bind = Some rows ->
  exists days : list date,
    get_daily_totals user_id start_date end_date db bind
    = Return
        (map (fun d =>
                PDict [(PStr "day", PStr (date_isoformat d));
                       (PStr "total_sent",
                        PFloat (side_total (day_rows (is_sender user_id)
                                              start_date end_date d rows)));
                       (PStr "total_received",
                        PFloat (side_total (day_rows (is_receiver user_id)
                                              start_date end_date d rows)))])
             days) /\
    StronglySorted (fun a b => date_leb a b = true) days /\
    NoDup days /\
    (forall d,
       In d days <->
       exists tx,
         In tx rows /\
         in_range start_date end_date tx = true /\
         (is_sender user_id tx || is_receiver user_id tx) = true /\
         date_of (timestamp tx) = d) /\
    (forall d,
       day_rows (is_sender user_id) start_date end_date d rows = [] ->
       side_total (day_rows (is_sender user_id) start_date end_date d rows)
       = S754_zero false) /\
    (forall d,
       day_rows (is_receiver user_id) start_date end_date d rows = [] ->
       side_total (day_rows (is_receiver user_id) start_date end_date d rows)
       = S754_zero false).
Proof.
  intros Hrows.
  assert (Hget : get_daily_totals user_id start_date end_date db bind
                 = Return (map daily_total_dict
                             (daily_totals_of user_id start_date end_date rows))).
  { destruct db as [db|]; [|destruct bind as [session|]];
      cbn in Hrows; injection Hrows as <- || discriminate Hrows; reflexivity. }
  rewrite Hget, daily_totals_of_days, map_map.
  eexists. split; [reflexivity|].
  split; [|split; [|split; [|split]]].
  - apply sort_by_sorted.
    + intros a b. apply lex_leb_total.
    + intros a b c. apply lex_leb_trans.
  - eapply Permutation_NoDup; [symmetry; apply sort_by_perm|apply totals_NoDup].
  - intros d. rewrite <- active_day_iff. split; apply Permutation_in.
    + apply sort_by_perm.
    + symmetry. apply sort_by_perm.
  - intros d ->. reflexivity.
  - intros d ->. reflexivity.
Qed.

(** The totals of user1 on the ledger of the tests, with the session
    passed. *)
Lemma daily_totals_postcondition_witness :
  exists days : list date,
    get_daily_totals "user1" None None
      (Some {| users := ["user1"; "user2"]; currencies := ["USD"];
               transactions := [Sample.at_midnight]; rejected_records := [] |})
      None
    = Return
        (map (fun d =>
                PDict [(PStr "day", PStr (date_isoformat d));
                       (PStr "total_sent",
                        PFloat (side_total (day_rows (is_sender "user1")
                                              None None d [Sample.at_midnight])));
                       (PStr "total_received",
                        PFloat (side_total (day_rows (is_receiver "user1")
                                              None None d [Sample.at_midnight])))])
             days) /\
    NoDup days.
Proof.
  destruct (@daily_totals_postcondition "user1" None None
              (Some {| users := ["user1"; "user2"]; currencies := ["USD"];
                       transactions := [Sample.at_midnight];
                       rejected_records := [] |})
              None [Sample.at_midnight] eq_refl)
    as (days & H & _ & Hnd & _).
  exists days. split; assumption.
Defined.

(** ** The scenario of tests/test_reporting.py *)

Module Scenario.

Definition tx (i s r : string) (a : Z) (d h : Z) (st : TransactionStatus)
  : Transaction :=
  {| id := PStr i; sender_id := PStr s; receiver_id := PStr r;
     amount := float_of_Z a; currency := PStr "USD";
     timestamp := Datetime 2025 5 d h 0 0 0 None; status := st |}.

Definition ledger : database := {|
  users := ["user1"; "user2"];
  currencies := ["USD"];
  transactions := [tx "tx1" "user1" "user2" 100 1 12 completed;
                   tx "tx2" "user2" "user1" 200 2 13 pending;
                   tx "tx3" "user1" "user2" 300 2 14 failed];
  rejected_records := []
|}.

(** [len(get_payments_by_user(...))] *)
Definition payments_len (r : result (list pyval)) : option nat :=
  match r with
  | Return l => Some (List.length l)
  | Raise _ => None
  end.

(** [test_get_payments_by_user] and [test_get_daily_totals], which run
    without a session argument and with the name [Session] of the module
    replaced by a factory on [ledger]. *)
Example test_reporting :
  payments_len (get_payments_by_user "user1" None None None (Some ledger))
  = Some 3%nat /\
  payments_len (get_payments_by_user "user2" None None None (Some ledger))
  = Some 3%nat /\
  payments_len (get_payments_by_user "user1" (Some (Date 2025 5 2)) None None
                                     (Some ledger)) = Some 2%nat /\
  payments_len (get_payments_by_user "user1" (Some (Date 2025 5 2))
                                     (Some (Date 2025 5 3)) None (Some ledger))
  = Some 2%nat /\
  get_daily_totals "user1" None None None (Some ledger)
  = Return [ PDict [(PStr "day", PStr "2025-05-01");
                    (PStr "total_sent", PFloat (float_of_Z 100));
                    (PStr "total_received", PFloat (S754_zero false))];
             PDict [(PStr "day", PStr "2025-05-02");
                    (PStr "total_sent", PFloat (float_of_Z 300));
                    (PStr "total_received", PFloat (float_of_Z 200))] ].
Proof. vm_compute. repeat split. Qed.

End Scenario.

(** * Further properties *)

(** ** Validation *)

Section MoreValidation.
Context (L : PyLib).

(** [validate_row] names the first required field, in the order of the list,
    that the row lacks or holds empty, and [import_csv] quarantines the row
    with that reason and goes on. *)
Theorem csv_reports_first_missing_field d f (s : session) :
  find (absent_or_empty d) required_fields = Some f ->
  validate_row L (PDict d) = Return (Invalid ("Missing field: " ++ f)) /\
  import_row L (PDict d) s =
  ({| s_durable := s_durable s; s_db := s_db s;
      s_new := s_new s ++ [ORejectedRecord
                 {| reason := "Missing field: " ++ f;
                    payload := py_str L (PDict d); source := "csv" |}] |},
   [LogInvalidRow ("Missing field: " ++ f) (PDict d)],
   Return (Quarantined ("Missing field: " ++ f))).
Proof.
  intros Hf.
  assert (Hv : validate_row L (PDict d) = Return (Invalid ("Missing field: " ++ f)))
    by (now rewrite validate_row_dict, Hf).
  split; [exact Hv|]. now apply import_row_invalid.
Qed.

(** [validate_message] names the first required field the message lacks, and
    [callback] saves the body with that reason. *)
Theorem queue_reports_first_absent_field d f text body db :
  body_loads body = Return (PDict d) ->
  body_decode body = Return text ->
  find (absent d) required_fields = Some f ->
  validate_message L (PDict d) = Return (Invalid ("Missing field: " ++ f)) /\
  callback L body db =
  (insert_rejected_row db
     {| reason := "Missing field: " ++ f; payload := text; source := "queue" |},
   [LogInvalidMessage ("Missing field: " ++ f);
    LogSavedRejected ("Missing field: " ++ f)],
   Return (Quarantined ("Missing field: " ++ f))).
Proof.
  intros Hl Hd Hf.
  assert (Hv : validate_message L (PDict d)
               = Return (Invalid ("Missing field: " ++ f)))
    by (now rewrite validate_message_dict, Hf).
  split; [exact Hv|].
  unfold callback, try_except, bindM, lift. rewrite Hl, Hv, Hd. reflexivity.
Qed.

Lemma find_absent_agree d fs :
  (forall f v, In f fs -> dict_get d f = Some v -> truthy v = true) ->
  find (absent_or_empty d) fs = find (absent d) fs.
Proof.
  induction fs as [|f fs IH]; intros H; cbn; [reflexivity|].
  unfold absent_or_empty at 1, absent at 1.
  destruct (dict_get d f) as [v|] eqn:E; [|reflexivity].
  rewrite (H f v (or_introl eq_refl) E). cbn.
  apply IH. intros f' v' Hin. apply H. now right.
Qed.

(** The two validators return the same result on every record none of whose
    required fields is present and empty. *)
Theorem validators_agree_without_empty_field d :
  (forall f v, In f required_fields -> dict_get d f = Some v -> truthy v = true) ->
  validate_row L (PDict d) = validate_message L (PDict d).
Proof.
  intros H. rewrite validate_row_dict, validate_message_dict.
  now rewrite (find_absent_agree _ _ H).
Qed.

(** A record with every field, an amount and a timestamp that convert, and a
    status outside the enumeration is invalid for both validators, with the
    status in the reason. *)
Theorem invalid_status_is_reported d a t t' f dt st :
  find (absent_or_empty d) required_fields = None ->
  dict_get d "amount" = Some a -> py_float L a = Return f ->
  dict_get d "timestamp" = Some t -> py_replace_Z t = Return t' ->
  py_fromisoformat L t' = Return dt ->
  dict_get d "status" = Some st -> is_status_value st = false ->
  validate_row L (PDict d) = Return (Invalid ("Invalid status: " ++ py_str L st)) /\
  validate_message L (PDict d) = Return (Invalid ("Invalid status: " ++ py_str L st)).
Proof.
  intros Hm Ha Hf Ht Ht' Hdt Hst Hbad.
  rewrite validate_row_dict, validate_message_dict, Hm,
    (find_absent_or_empty_none _ _ Hm).
  unfold checked_values, check_values. cbn [py_getitem].
  rewrite Ha, Ht, Hst. cbn [bind]. rewrite Hf. cbn [bind]. rewrite Ht'.
  cbn [bind]. rewrite Hdt. cbn [bind]. rewrite Hbad. cbn. split; reflexivity.
Qed.

Lemma TransactionStatus_of_value st :
  is_status_value st = true -> exists s, TransactionStatus_of L st = Return s
                                         /\ st = PStr (status_value s).
Proof.
  destruct st as [| | | |s| |]; try discriminate. cbn.
  unfold TransactionStatus_of. cbn.
  destruct (s =? "pending")%string eqn:E1.
  { apply String.eqb_eq in E1 as ->. exists pending. split; reflexivity. }
  destruct (s =? "completed")%string eqn:E2.
  { apply String.eqb_eq in E2 as ->. exists completed. split; reflexivity. }
  destruct (s =? "failed")%string eqn:E3.
  { apply String.eqb_eq in E3 as ->. exists failed. split; reflexivity. }
  discriminate.
Qed.

End MoreValidation.

Section ValidRecords.
Context (L : PyLib).

Lemma missing_in_row_message r fs :
  missing_in_row L r fs = Return None -> missing_in_message r fs = Return None.
Proof.
  induction fs as [|f fs IH]; cbn; [reflexivity|].
  destruct (py_in f r) as [[|]|]; cbn; try discriminate.
  destruct (py_getitem L r f) as [v|]; cbn; try discriminate.
  destruct (truthy v); cbn; [exact IH|discriminate].
Qed.

(** A record that [validate_row] accepts, [validate_message] accepts. *)
Lemma valid_row_is_valid_message r :
  validate_row L r = Return Valid -> validate_message L r = Return Valid.
Proof.
  unfold validate_row, validate_message.
  destruct (missing_in_row L r required_fields) as [[f|]|] eqn:E; cbn [bind];
    try discriminate.
  now rewrite (missing_in_row_message _ _ E).
Qed.

(** A record a validator accepts is a dict from which the [Transaction(...)]
    expression builds a transaction without an exception; its text
    attributes are the values of the record, and its status is the member
    whose value the record has. *)
Theorem valid_record_builds_transaction r :
  validate_row L r = Return Valid \/ validate_message L r = Return Valid ->
  exists tx,
    new_Transaction L r = Return tx /\
    py_getitem L r "transaction_id" = Return (id tx) /\
    py_getitem L r "sender_id" = Return (sender_id tx) /\
    py_getitem L r "receiver_id" = Return (receiver_id tx) /\
    py_getitem L r "currency" = Return (currency tx) /\
    py_getitem L r "status" = Return (PStr (status_value (status tx))).
Proof.
  intros H. assert (Hv : validate_message L r = Return Valid)
    by (destruct H; [now apply valid_row_is_valid_message|assumption]).
  clear H. destruct r as [|b|z|x|s|l|d];
    try (unfold validate_message in Hv;
         destruct (missing_in_message _ required_fields) as [[f|]|];
         unfold checked_values, check_values in Hv; cbn in Hv; discriminate).
  rewrite validate_message_dict in Hv.
  destruct (find (absent d) required_fields) as [f|] eqn:Hm; [discriminate|].
  injection Hv as Hc.
  unfold required_fields, find, absent in Hm.
  destruct (dict_get d "transaction_id") as [vi|] eqn:Ei; [|discriminate].
  destruct (dict_get d "sender_id") as [vs|] eqn:Es; [|discriminate].
  destruct (dict_get d "receiver_id") as [vr|] eqn:Er; [|discriminate].
  destruct (dict_get d "amount") as [va|] eqn:Ea; [|discriminate].
  destruct (dict_get d "currency") as [vc|] eqn:Ec; [|discriminate].
  destruct (dict_get d "timestamp") as [vt|] eqn:Et; [|discriminate].
  destruct (dict_get d "status") as [vst|] eqn:Est; [|discriminate].
  clear Hm. unfold checked_values, check_values in Hc. cbn [py_getitem] in Hc.
  rewrite Ea, Et, Est in Hc. cbn [bind] in Hc.
  destruct (py_float L va) as [fa|] eqn:Hfa; [|discriminate]. cbn [bind] in Hc.
  destruct (py_replace_Z vt) as [t'|] eqn:Ht'; [|discriminate]. cbn [bind] in Hc.
  destruct (py_fromisoformat L t') as [dt|] eqn:Hdt; [|discriminate].
  cbn [bind] in Hc.
  destruct (is_status_value vst) eqn:Hst; [|discriminate].
  destruct (TransactionStatus_of_value L _ Hst) as (st & Hof & ->).
  unfold new_Transaction. cbn [py_getitem].
  rewrite Ei, Es, Er, Ea, Ec, Et, Est. cbn [bind].
  rewrite Hfa. cbn [bind]. rewrite Ht'. cbn [bind]. rewrite Hdt. cbn [bind].
  rewrite Hof. cbn [bind].
  eexists. split; [reflexivity|]. cbn. repeat split; reflexivity.
Qed.

End ValidRecords.

(** [valid_tx] is valid, and [tx100] is the transaction it builds. *)
Lemma valid_record_builds_transaction_witness :
  exists tx,
    new_Transaction cpython Sample.valid_tx = Return tx /\
    py_getitem cpython Sample.valid_tx "transaction_id" = Return (id tx) /\
    py_getitem cpython Sample.valid_tx "sender_id" = Return (sender_id tx) /\
    py_getitem cpython Sample.valid_tx "receiver_id" = Return (receiver_id tx) /\
    py_getitem cpython Sample.valid_tx "currency" = Return (currency tx) /\
    py_getitem cpython Sample.valid_tx "status"
    = Return (PStr (status_value (status tx))).
Proof.
  apply (valid_record_builds_transaction cpython Sample.valid_tx).
  left. vm_compute. reflexivity.
Defined.

(** Witnesses of the theorems on missing fields and on the status. *)
Lemma csv_reports_first_missing_field_witness :
  validate_row cpython
    (Sample.record "tx100" "user1" "" "250.00" "USD" "2025-05-01T12:00:00Z" "")
  = Return (Invalid "Missing field: receiver_id").
Proof.
  exact (proj1 (@csv_reports_first_missing_field cpython
    (combine (map PStr Sample.header)
             (map PStr ["tx100"; "user1"; ""; "250.00"; "USD";
                        "2025-05-01T12:00:00Z"; ""]))
    "receiver_id" (Session Sample.seeded) eq_refl)).
Defined.

(** The third sample message of queue_producer.py, which has no
    [receiver_id]. *)
Lemma queue_reports_first_absent_field_witness :
  run_result
    (callback cpython
       (Sample.json_message [("transaction_id", "tx1003"); ("sender_id", "user1");
                             ("amount", "100.0"); ("currency", "GBP");
                             ("timestamp", "2025-05-01T12:00:00Z");
                             ("status", "failed")])
       Sample.seeded)
  = Return (Quarantined "Missing field: receiver_id").
Proof.
  exact (f_equal snd
    (proj2 (@queue_reports_first_absent_field cpython _ "receiver_id" _
              (Sample.json_message [("transaction_id", "tx1003");
                                    ("sender_id", "user1");
                                    ("amount", "100.0"); ("currency", "GBP");
                                    ("timestamp", "2025-05-01T12:00:00Z");
                                    ("status", "failed")])
              Sample.seeded eq_refl eq_refl eq_refl))).
Defined.

Lemma validators_agree_without_empty_field_witness :
  validate_row cpython Sample.valid_tx = validate_message cpython Sample.valid_tx.
Proof.
  apply (@validators_agree_without_empty_field cpython
           (combine (map PStr Sample.header)
                    (map PStr ["tx100"; "user1"; "user2"; "250.00"; "USD";
                               "2025-05-01T12:00:00Z"; "completed"]))).
  intros f v Hin. cbn in Hin.
  repeat (destruct Hin as [<-|Hin]; [intros [= <-]; reflexivity|]).
  destruct Hin.
Defined.

Lemma invalid_status_is_reported_witness :
  validate_row cpython
    (Sample.record "tx100" "user1" "user2" "250.00" "USD" "2025-05-01T12:00:00Z"
                   "not_a_status")
  = Return (Invalid "Invalid status: not_a_status").
Proof.
  refine (proj1 (@invalid_status_is_reported cpython
    (combine (map PStr Sample.header)
             (map PStr ["tx100"; "user1"; "user2"; "250.00"; "USD";
                        "2025-05-01T12:00:00Z"; "not_a_status"]))
    (PStr "250.00") (PStr "2025-05-01T12:00:00Z") "2025-05-01T12:00:00+00:00"
    (amount Sample.tx100) (timestamp Sample.tx100) (PStr "not_a_status")
    eq_refl eq_refl _ eq_refl eq_refl _ eq_refl eq_refl));
  vm_compute; reflexivity.
Defined.

(** ** The effect of one message *)

Section Callback.
Context (L : PyLib).

(** What [callback] does to the database, by outcome. *)
Lemma callback_effect body db :
  match callback L body db with
  | (db', _, Return Accepted) =>
      exists data tx,
        body_loads body = Return data /\
        validate_message L data = Return Valid /\
        new_Transaction L data = Return tx /\
        insert_transaction_row L db tx = Return db'
  | (db', _, Return Duplicate) => db' = db
  | (db', _, Return (Quarantined r)) =>
      exists text,
        body_decode body = Return text /\
        db' = insert_rejected_row db
                {| reason := r; payload := text; source := "queue" |}
  | (db', _, Raise e) => db' = db /\ body_decode body = Raise e
  end.
Proof.
  unfold callback, try_except, bindM, lift.
  destruct (body_loads body) as [data|e0] eqn:Hl; cbn [fst snd].
  2:{ destruct (body_decode body) as [text|e1]; cbn;
      [now exists text|split; reflexivity]. }
  destruct (validate_message L data) as [[|error]|e0] eqn:Hv; cbn [fst snd].
  - destruct (insert_transaction_cases L data db)
      as [(e & ->) | [(k & ->) | (tx & db1 & -> & Htx & Hins)]]; cbn [fst snd].
    + destruct (body_decode body) as [text|e1]; cbn;
        [now exists text|split; reflexivity].
    + reflexivity.
    + exists data, tx. repeat split; assumption.
  - destruct (body_decode body) as [text|e1]; cbn;
      [now exists text|split; reflexivity].
  - destruct (body_decode body) as [text|e1]; cbn;
      [now exists text|split; reflexivity].
Qed.

(** Whatever the message, [callback] changes the database by at most one
    row, and its outcome tells which: accepted, the transaction built from
    the parsed body is inserted; duplicate, nothing is; quarantined, one
    rejected record is appended, with the outcome's reason, the decoded
    body as payload and the source "queue"; and when an exception leaves
    [callback] the database is what it was. *)
Theorem callback_effect_by_outcome body db :
  match run_result (callback L body db) with
  | Return Accepted =>
      exists data tx,
        body_loads body = Return data /\
        new_Transaction L data = Return tx /\
        insert_transaction_row L db tx = Return (run_db (callback L body db))
  | Return Duplicate => run_db (callback L body db) = db
  | Return (Quarantined r) =>
      exists text,
        body_decode body = Return text /\
        run_db (callback L body db)
        = insert_rejected_row db {| reason := r; payload := text; source := "queue" |}
  | Raise _ => run_db (callback L body db) = db
  end.
Proof.
  pose proof (callback_effect body db) as H.
  unfold run_result, run_db.
  destruct (callback L body db) as [[db' log] [[|r|]|e]]; cbn [fst snd].
  - destruct H as (data & tx & Hl & _ & Htx & H). now exists data, tx.
  - exact H.
  - exact H.
  - exact (proj1 H).
Qed.

(** A valid message whose insertion the database refuses is not reported to
    the caller: [callback] catches the error and saves the body as a
    rejected record with the error's text as reason. *)
Theorem queue_quarantines_refused_insert body db data tx i text e :
  body_loads body = Return data ->
  body_decode body = Return text ->
  validate_message L data = Return Valid ->
  new_Transaction L data = Return tx ->
  id tx = PStr i ->
  fresh i db ->
  insert_transaction_row L db tx = Raise e ->
  callback L body db =
  (insert_rejected_row db
     {| reason := exn_str e; payload := text; source := "queue" |},
   [LogMalformedMessage (exn_str e); LogSavedRejected (exn_str e)],
   Return (Quarantined (exn_str e))).
Proof.
  intros Hl Hd Hv Htx Hi Hf Hins.
  destruct (new_Transaction_inv _ _ Htx) as (Hid & _). rewrite Hi in Hid.
  unfold callback, try_except, bindM, lift. rewrite Hl, Hv.
  unfold insert_transaction, with_Session, bindM, lift. rewrite Hid.
  unfold session_get, bindM, session_flush, select_transaction.
  cbn [Session s_db s_new s_durable insert_objects as_text].
  rewrite (find_none_of_fresh Hf), Htx.
  unfold session_add, session_commit, bindM, session_flush.
  cbn [s_db s_new s_durable insert_objects insert_object app bind].
  rewrite Hins. cbn. rewrite Hd. reflexivity.
Qed.

End Callback.

(** The valid message of a sender that is no user. *)
Lemma queue_quarantines_refused_insert_witness :
  callback cpython
    (Sample.json_message (Sample.fields_of "tx101" "ghost" "user2" "10.00" "USD"
                                           "2025-05-02T09:00:00Z" "pending"))
    Sample.seeded
  = (insert_rejected_row Sample.seeded
       {| reason := "insert on table transactions violates foreign key constraint on sender_id";
          payload := Sample.json_dumps
                       (Sample.fields_of "tx101" "ghost" "user2" "10.00" "USD"
                                         "2025-05-02T09:00:00Z" "pending");
          source := "queue" |},
     [LogMalformedMessage
        "insert on table transactions violates foreign key constraint on sender_id";
      LogSavedRejected
        "insert on table transactions violates foreign key constraint on sender_id"],
     Return (Quarantined
        "insert on table transactions violates foreign key constraint on sender_id")).
Proof.
  refine (@queue_quarantines_refused_insert cpython
    (Sample.json_message (Sample.fields_of "tx101" "ghost" "user2" "10.00" "USD"
                                           "2025-05-02T09:00:00Z" "pending"))
    Sample.seeded _
    {| id := PStr "tx101"; sender_id := PStr "ghost"; receiver_id := PStr "user2";
       amount := float_of_Z 10; currency := PStr "USD";
       timestamp := Datetime 2025 5 2 9 0 0 0 (Some 0); status := pending |}
    "tx101" _
    (IntegrityError
       "insert on table transactions violates foreign key constraint on sender_id")
    eq_refl eq_refl _ _ eq_refl eq_refl _);
  vm_compute; reflexivity.
Defined.

(** ** Invariants of the database *)

Section Invariant.
Context (L : PyLib) (P : database -> Prop).
Hypothesis P_transaction : forall db tx db',
  P db -> insert_transaction_row L db tx = Return db' -> P db'.
Hypothesis P_rejected : forall db rec, P db -> P (insert_rejected_row db rec).

Lemma insert_objects_keeps os : forall db db',
  P db -> insert_objects L db os = Return db' -> P db'.
Proof.
  induction os as [|o os IH]; intros db db' Hp; cbn [insert_objects].
  - now intros [= <-].
  - destruct o as [tx|rec]; cbn [insert_object bind].
    + destruct (insert_transaction_row L db tx) as [db1|] eqn:H1; [|discriminate].
      cbn [bind]. apply IH. now apply P_transaction with db tx.
    + apply IH. now apply P_rejected.
Qed.

Definition session_keeps (s : session) : Prop := P (s_durable s) /\ P (s_db s).

Lemma import_row_keeps row s :
  session_keeps s -> session_keeps (fst (fst (import_row L row s))).
Proof.
  intros (Hd & Hdb). unfold import_row, bindM, lift.
  destruct (validate_row L row) as [[|error]|e]; cbn [fst snd];
    [| split; assumption | split; assumption].
  destruct (py_getitem L row "transaction_id") as [k|e]; cbn [fst snd];
    [|split; assumption].
  unfold session_get, bindM, session_flush, select_transaction.
  destruct (insert_objects L (s_db s) (s_new s)) as [db1|e] eqn:Hins; cbn [fst snd];
    [|split; assumption].
  pose proof (insert_objects_keeps _ Hdb Hins) as H1.
  destruct (as_text k) as [i|]; cbn [fst snd s_db]; [|split; assumption].
  destruct (find (has_id i) (transactions db1)); cbn [fst snd]; [split; assumption|].
  destruct (py_getitem L row "amount") as [a|e]; cbn [fst snd]; [|split; assumption].
  destruct (py_float L a) as [f|e]; cbn [fst snd]; [|split; assumption].
  destruct (new_Transaction L row) as [tx|e]; cbn [fst snd]; [|split; assumption].
  destruct (float_gt f SUSPICIOUS_AMOUNT); cbn [fst snd]; [|split; assumption].
  destruct (py_getitem L row "transaction_id"); cbn; split; assumption.
Qed.

Lemma import_rows_keeps rows : forall s,
  session_keeps s -> session_keeps (fst (fst (import_rows L rows s))).
Proof.
  induction rows as [|row rows IH]; intros s Hs; cbn [import_rows]; [exact Hs|].
  unfold bindM. pose proof (import_row_keeps row Hs) as H1.
  destruct (import_row L row s) as [[s1 l1] [o|e]]; cbn [fst snd] in *; [|exact H1].
  pose proof (IH s1 H1) as H2.
  destruct (import_rows L rows s1) as [[s2 l2] [os|e]]; cbn [fst snd] in *; exact H2.
Qed.

Lemma import_csv_keeps rows db : P db -> P (run_db (import_csv L rows db)).
Proof.
  intros Hp. unfold import_csv, with_Session, bindM, run_db.
  assert (Hs : session_keeps (Session db)) by (split; exact Hp).
  pose proof (import_rows_keeps rows Hs) as H1.
  destruct (import_rows L rows (Session db)) as [[s1 l1] [os|e]];
    cbn [fst snd] in *; [|exact (proj1 H1)].
  unfold session_commit, bindM, session_flush.
  destruct (insert_objects L (s_db s1) (s_new s1)) as [db2|] eqn:Hins; cbn.
  - exact (insert_objects_keeps _ (proj2 H1) Hins).
  - exact (proj1 H1).
Qed.

Lemma callback_keeps body db : P db -> P (run_db (callback L body db)).
Proof.
  intros Hp. pose proof (callback_effect L body db) as H. unfold run_db.
  destruct (callback L body db) as [[db' log] [[|r|]|e]]; cbn [fst snd].
  - destruct H as (data & tx & _ & _ & _ & H). now apply P_transaction with db tx.
  - destruct H as (text & _ & H). rewrite H. now apply P_rejected.
  - rewrite H. exact Hp.
  - destruct H as (H & _). rewrite H. exact Hp.
Qed.

End Invariant.

Section LedgerInvariants.
Context (L : PyLib).

(** What an insertion that succeeds has checked. *)
Lemma insert_transaction_row_inv db tx db' :
  insert_transaction_row L db tx = Return db' ->
  db' = with_transaction db tx /\ references_ok db tx /\
  exists i, id tx = PStr i /\ fresh i db.
Proof.
  unfold insert_transaction_row, db_raise, references_ok, fresh.
  destruct (id tx) as [| | | |i| |]; cbn [as_text]; try discriminate;
  destruct (sender_id tx) as [| | | |s| |]; cbn [as_text]; try discriminate;
  destruct (receiver_id tx) as [| | | |r| |]; cbn [as_text]; try discriminate;
  destruct (currency tx) as [| | | |c| |]; cbn [as_text]; try discriminate.
  destruct (existsb (has_id i) (transactions db)) eqn:Hi; [discriminate|].
  destruct (mem_string s (users db)) eqn:Hs; [|discriminate].
  destruct (mem_string r (users db)) eqn:Hr; [|discriminate].
  destruct (mem_string c (currencies db)) eqn:Hc; [|discriminate].
  cbn. intros [= <-]. split; [reflexivity|]. split.
  - exists s, r, c. repeat split; assumption.
  - exists i. split; [reflexivity|exact Hi].
Qed.

Lemma fresh_not_in i l :
  existsb (has_id i) l = false -> ~ In (PStr i) (map id l).
Proof.
  induction l as [|tx l IH]; cbn; [tauto|].
  intros H. apply orb_false_iff in H as (Htx & Hl).
  intros [Heq|Hin]; [|now apply IH].
  unfold has_id in Htx. rewrite Heq in Htx. cbn in Htx.
  now rewrite String.eqb_refl in Htx.
Qed.

Lemma unique_ids_insert db tx db' :
  unique_ids db -> insert_transaction_row L db tx = Return db' -> unique_ids db'.
Proof.
  intros Hu H. destruct (insert_transaction_row_inv _ _ H) as (-> & _ & i & Hi & Hf).
  unfold unique_ids. cbn. rewrite map_app. cbn.
  apply NoDup_app_remove_l with (l := []). cbn.
  apply Permutation_NoDup with (l := id tx :: map id (transactions db)).
  - apply Permutation_cons_append.
  - constructor; [|exact Hu]. rewrite Hi. now apply fresh_not_in.
Qed.

Lemma references_ok_same db db' tx :
  users db' = users db -> currencies db' = currencies db ->
  references_ok db tx -> references_ok db' tx.
Proof. unfold references_ok. intros -> ->. exact (fun H => H). Qed.

Lemma references_hold_insert db tx db' :
  references_hold db -> insert_transaction_row L db tx = Return db' ->
  references_hold db'.
Proof.
  intros Hu H. destruct (insert_transaction_row_inv _ _ H) as (-> & Hr & _).
  unfold references_hold. cbn. apply Forall_app. split.
  - eapply Forall_impl; [|exact Hu]. intros t. now apply references_ok_same.
  - constructor; [|constructor]. revert Hr. now apply references_ok_same.
Qed.

Lemma extends_insert db0 db tx db' :
  extends db0 db -> insert_transaction_row L db tx = Return db' -> extends db0 db'.
Proof.
  intros (Hu & Hc & (new & Ht) & Hr) H.
  destruct (insert_transaction_row_inv _ _ H) as (-> & _ & _).
  repeat split; cbn; try assumption.
  exists (new ++ [tx])%list. now rewrite Ht, app_assoc.
Qed.

Lemma extends_rejected db0 db rec :
  extends db0 db -> extends db0 (insert_rejected_row db rec).
Proof.
  intros (Hu & Hc & Ht & (new & Hr)). repeat split; cbn; try assumption.
  exists (new ++ [rec])%list. now rewrite Hr, app_assoc.
Qed.

Lemma extends_refl db : extends db db.
Proof. repeat split; exists []; now rewrite app_nil_r. Qed.

(** The ids of the ledger stay pairwise distinct through a batch run and
    through a message, whatever the input. *)
Theorem ledger_ids_stay_unique db rows body :
  unique_ids db ->
  unique_ids (run_db (import_csv L rows db)) /\
  unique_ids (run_db (callback L body db)).
Proof.
  intros H. split.
  - apply import_csv_keeps with (P := unique_ids); try assumption.
    + intros d tx d'. apply unique_ids_insert.
    + intros d rec Hd. exact Hd.
  - apply callback_keeps with (P := unique_ids); try assumption.
    + intros d tx d'. apply unique_ids_insert.
    + intros d rec Hd. exact Hd.
Qed.

(** The transactions of the ledger keep naming users and a currency that
    exist, through a batch run and through a message. *)
Theorem ledger_references_stay_valid db rows body :
  references_hold db ->
  references_hold (run_db (import_csv L rows db)) /\
  references_hold (run_db (callback L body db)).
Proof.
  intros H. split.
  - apply import_csv_keeps with (P := references_hold); try assumption.
    + intros d tx d'. apply references_hold_insert.
    + intros d rec Hd. exact Hd.
  - apply callback_keeps with (P := references_hold); try assumption.
    + intros d tx d'. apply references_hold_insert.
    + intros d rec Hd. exact Hd.
Qed.

(** Ingestion only appends: after a batch run or a message, users and
    currencies are untouched, and the transactions and the rejected records
    are the old ones, in their order, followed by new ones. *)
Theorem ingestion_only_appends db rows body :
  extends db (run_db (import_csv L rows db)) /\
  extends db (run_db (callback L body db)).
Proof.
  split.
  - apply import_csv_keeps with (P := extends db).
    + intros d tx d'. apply extends_insert.
    + intros d rec. apply extends_rejected.
    + apply extends_refl.
  - apply callback_keeps with (P := extends db).
    + intros d tx d'. apply extends_insert.
    + intros d rec. apply extends_rejected.
    + apply extends_refl.
Qed.

End LedgerInvariants.

Lemma ledger_ids_stay_unique_witness :
  unique_ids (run_db (import_csv cpython [Sample.valid_tx; Sample.tx102]
                                 (with_transaction Sample.seeded Sample.tx100))) /\
  unique_ids (run_db (callback cpython Sample.valid_message
                               (with_transaction Sample.seeded Sample.tx100))).
Proof.
  apply (@ledger_ids_stay_unique cpython
           (with_transaction Sample.seeded Sample.tx100)).
  repeat constructor. intros [].
Defined.

Lemma ledger_references_stay_valid_witness :
  references_hold (run_db (import_csv cpython [Sample.valid_tx; Sample.tx102]
                                      Sample.seeded)) /\
  references_hold (run_db (callback cpython Sample.valid_message Sample.seeded)).
Proof.
  apply (@ledger_references_stay_valid cpython Sample.seeded).
  constructor.
Defined.

(** ** The batch *)

Section MoreBatch.
Context (L : PyLib).

(** An invalid row does not end the batch: it is logged and added to the
    session as a rejected record, and the rows after it are processed. *)
Theorem invalid_row_does_not_abort_batch row rows error s :
  validate_row L row = Return (Invalid error) ->
  import_rows L (row :: rows) s =
  let '(s', log, r) :=
    import_rows L rows
      {| s_durable := s_durable s; s_db := s_db s;
         s_new := s_new s ++ [ORejectedRecord
                    {| reason := error; payload := py_str L row;
                       source := "csv" |}] |} in
  (s', LogInvalidRow error row :: log,
   match r with
   | Return os => Return (Quarantined error :: os)
   | Raise e => Raise e
   end).
Proof.
  intros Hv. cbn [import_rows]. unfold bindM at 1.
  rewrite (import_row_invalid L _ s Hv).
  unfold bindM.
  destruct (import_rows L rows _) as [[s' log] [os|e]]; cbn;
    rewrite ?app_nil_r; reflexivity.
Qed.

(** A valid row with a new id whose references exist, alone in a batch: the
    transaction its fields describe is committed, whether or not the amount
    is above the threshold; the suspicious warning is logged exactly when
    the amount is greater than 10000. *)
Theorem csv_flags_amounts_above_threshold row tx i a db :
  validate_row L row = Return Valid ->
  new_Transaction L row = Return tx ->
  id tx = PStr i ->
  py_getitem L row "amount" = Return a ->
  fresh i db ->
  references_ok db tx ->
  import_csv L [row] db =
  (with_transaction db tx,
   (if float_gt (amount tx) SUSPICIOUS_AMOUNT
    then [LogSuspicious (PStr i) a; LogImportComplete]
    else [LogImportComplete]),
   Return [Accepted]).
Proof.
  intros Hv Htx Hi Ha Hf Hr.
  unfold import_csv, with_Session, import_rows, bindM.
  rewrite (@import_row_accepted L row tx i a (Session db) db Hv Htx Hi Ha eq_refl
             (find_none_of_fresh Hf)).
  cbn [s_durable s_db s_new Session ret].
  unfold session_commit, bindM, session_flush. cbn [s_durable s_db s_new].
  cbn [insert_objects insert_object bind].
  rewrite (insert_transaction_row_ok L Hi Hf Hr). unfold accepted_log.
  destruct (float_gt (amount tx) SUSPICIOUS_AMOUNT); reflexivity.
Qed.

(** A line with fewer fields than the header, none of them empty, is
    reported as missing the first column it does not reach. *)
Theorem short_line_misses_next_column fields :
  (List.length fields < List.length required_fields)%nat ->
  Forall (fun s => s <> "") fields ->
  validate_row L (DictReader_row required_fields fields)
  = Return (Invalid ("Missing field: "
                     ++ nth (List.length fields) required_fields "")).
Proof.
  intros Hlen Hne.
  repeat (destruct fields as [|[|? ?] fields];
          [vm_compute; reflexivity
          | exfalso; inversion Hne; congruence
          | apply Forall_inv_tail in Hne]).
  cbn in Hlen. lia.
Qed.

End MoreBatch.

Lemma invalid_row_does_not_abort_batch_witness :
  snd (import_rows cpython
         [DictReader_row Sample.header Sample.bad_amount_fields; Sample.valid_tx]
         (Session Sample.seeded))
  = Return [Quarantined "could not convert string to float: 'not_a_number'";
            Accepted].
Proof.
  rewrite (@invalid_row_does_not_abort_batch cpython
             (DictReader_row Sample.header Sample.bad_amount_fields)
             [Sample.valid_tx]
             "could not convert string to float: 'not_a_number'"
             (Session Sample.seeded))
    by (vm_compute; reflexivity).
  vm_compute. reflexivity.
Defined.

(** The amounts 20000 and 10000: the first is flagged, the second, which is
    not greater than the threshold, is not. *)
Lemma csv_flags_amounts_above_threshold_witness :
  run_log (import_csv cpython
             [Sample.record "tx7" "user1" "user2" "20000" "USD"
                            "2025-05-01T12:00:00Z" "completed"] Sample.seeded)
  = [LogSuspicious (PStr "tx7") (PStr "20000"); LogImportComplete] /\
  run_log (import_csv cpython
             [Sample.record "tx8" "user1" "user2" "10000" "USD"
                            "2025-05-01T12:00:00Z" "completed"] Sample.seeded)
  = [LogImportComplete].
Proof.
  split.
  - rewrite (@csv_flags_amounts_above_threshold cpython _
               {| id := PStr "tx7"; sender_id := PStr "user1";
                  receiver_id := PStr "user2"; amount := float_of_Z 20000;
                  currency := PStr "USD"; timestamp := timestamp Sample.tx100;
                  status := completed |}
               "tx7" (PStr "20000") Sample.seeded);
      try (vm_compute; reflexivity).
    exists "user1", "user2", "USD". repeat split; reflexivity.
  - rewrite (@csv_flags_amounts_above_threshold cpython _
               {| id := PStr "tx8"; sender_id := PStr "user1";
                  receiver_id := PStr "user2"; amount := float_of_Z 10000;
                  currency := PStr "USD"; timestamp := timestamp Sample.tx100;
                  status := completed |}
               "tx8" (PStr "10000") Sample.seeded);
      try (vm_compute; reflexivity).
    exists "user1", "user2", "USD". repeat split; reflexivity.
Defined.

Lemma short_line_misses_next_column_witness :
  validate_row cpython (DictReader_row required_fields ["tx100"; "user1"])
  = Return (Invalid "Missing field: receiver_id").
Proof.
  apply (@short_line_misses_next_column cpython ["tx100"; "user1"]).
  - cbn. lia.
  - repeat constructor; discriminate.
Defined.

(** ** The callers of the queries *)

Lemma lex_leb_cons x a y b :
  lex_leb (x :: a) (y :: b) = true <-> x < y \/ (x = y /\ lex_leb a b = true).
Proof.
  cbn. rewrite orb_true_iff, andb_true_iff, Z.ltb_lt, Z.eqb_eq. reflexivity.
Qed.

Lemma lex_leb_nil b : lex_leb [] b = true <-> True.
Proof. cbn. tauto. Qed.

(** The filters of a month: the timestamps from the first day of the month to
    the first day of the next, excluded, are those of the month. *)
Lemma in_month_iff y m t :
  1 <= m <= 12 -> valid_timestamp t ->
  timestamp_ge t (Date y m 1) = true /\
  timestamp_lt t (if m =? 12 then Date (y + 1) 1 1 else Date y (m + 1) 1) = true
  <-> year t = y /\ month t = m.
Proof.
  intros Hm (Hmt & Hd & Hh & Hmi & Hs & Hus).
  unfold timestamp_lt, timestamp_ge. rewrite negb_true_iff.
  rewrite <- (not_true_iff_false (lex_leb _ _)).
  unfold midnight, datetime_fields, date_fields.
  destruct (Z.eqb_spec m 12) as [->|Hne]; cbn [app d_year d_month d_day];
    rewrite !lex_leb_cons, lex_leb_nil; lia.
Qed.

Section MonthRange.
Context (L : PyLib).

Lemma new_date_inv y m d x :
  new_date L y m d = Return x ->
  x = Date y m d /\ 1 <= y <= 9999 /\ 1 <= m <= 12 /\ 1 <= d <= days_in_month y m.
Proof.
  unfold new_date.
  destruct (Z.ltb_spec y 1), (Z.ltb_spec 9999 y); cbn; try discriminate.
  destruct (Z.ltb_spec m 1), (Z.ltb_spec 12 m); cbn; try discriminate.
  destruct (Z.ltb_spec d 1), (Z.ltb_spec (days_in_month y m) d); cbn;
    try discriminate.
  intros [= <-]. repeat split; lia.
Qed.

(** What [get_month_range] returns is the first day of a month and the first
    day of the month after it. *)
Lemma get_month_range_inv today target_month first_day next_month :
  get_month_range L today target_month = Return (first_day, next_month) ->
  exists y m,
    1 <= m <= 12 /\ first_day = Date y m 1 /\
    next_month = (if m =? 12 then Date (y + 1) 1 1 else Date y (m + 1) 1).
Proof.
  unfold get_month_range.
  set (first := match target_month with
                | Some s => _
                | None => _
                end).
  destruct first as [f|] eqn:Hf; [|discriminate]. cbn [bind].
  assert (Hd : exists y m, 1 <= m <= 12 /\ f = Date y m 1).
  { unfold first in Hf.
    assert (Hr : forall d, date_replace L d None None (Some 1) = Return f ->
                           exists y m, 1 <= m <= 12 /\ f = Date y m 1).
    { intros d H. apply new_date_inv in H as (-> & _ & Hm & _).
      now exists (d_year d), (d_month d). }
    destruct target_month as [s|]; [|now apply Hr with today].
    destruct (truthy (PStr s)); [|now apply Hr with today].
    destruct (py_strptime_ym L s) as [dt|]; [|discriminate].
    now apply Hr with (date_of dt). }
  destruct Hd as (y & m & Hm & ->). cbn [d_month d_year].
  destruct (Z.eqb_spec m 12) as [->|Hne]; unfold date_replace; cbn [d_year d_month d_day].
  - destruct (new_date L (y + 1) 1 1) as [n|] eqn:Hn; [|discriminate].
    cbn [bind]. intros [= <- <-]. apply new_date_inv in Hn as (-> & _).
    exists y, 12. repeat split; lia.
  - destruct (new_date L y (m + 1) 1) as [n|] eqn:Hn; [|discriminate].
    cbn [bind]. intros [= <- <-]. apply new_date_inv in Hn as (-> & _).
    exists y, m. rewrite (proj2 (Z.eqb_neq m 12) Hne). repeat split; lia.
Qed.

(** The range [get_month_range] returns, used as start and end date of
    [get_daily_totals], selects exactly the transactions stamped in the
    month of its first day (the timestamps being calendar values). *)
Theorem month_range_selects_the_month today target_month first_day next_month tx :
  get_month_range L today target_month = Return (first_day, next_month) ->
  valid_timestamp (timestamp tx) ->
  d_day first_day = 1 /\ d_day next_month = 1 /\
  (in_range (Some first_day) (Some next_month) tx = true <->
   year (timestamp tx) = d_year first_day /\
   month (timestamp tx) = d_month first_day).
Proof.
  intros H Hv. destruct (get_month_range_inv _ _ H) as (y & m & Hm & -> & ->).
  split; [reflexivity|]. split; [destruct (m =? 12); reflexivity|].
  unfold in_range. rewrite andb_true_iff. cbn [d_year d_month].
  now apply in_month_iff.
Qed.

End MonthRange.

(** The range of July 2025, asked for as [2025-07]. *)
Lemma month_range_selects_the_month_witness :
  get_month_range cpython (Date 2025 11 5) (Some "2025-07")
  = Return (Date 2025 7 1, Date 2025 8 1) /\
  in_range (Some (Date 2025 7 1)) (Some (Date 2025 8 1))
           (Scenario.tx "a" "user1" "user2" 1 31 23 completed) = false.
Proof.
  assert (H : get_month_range cpython (Date 2025 11 5) (Some "2025-07")
              = Return (Date 2025 7 1, Date 2025 8 1)) by (vm_compute; reflexivity).
  split; [exact H|].
  destruct (@month_range_selects_the_month cpython _ _ _ _
              (Scenario.tx "a" "user1" "user2" 1 31 23 completed) H)
    as (_ & _ & Hiff).
  - vm_compute. repeat split; discriminate.
  - destruct (in_range _ _ _); [|reflexivity].
    destruct (proj1 Hiff eq_refl) as (_ & Hmonth). discriminate Hmonth.
Defined.

Lemma days_in_month_pos y m : 1 <= days_in_month y m.
Proof.
  unfold days_in_month.
  destruct (m =? 2); [destruct (is_leap y); lia|].
  destruct ((m =? 4) || (m =? 6) || (m =? 9) || (m =? 11)); lia.
Qed.

Section MonthOfToday.
Context (L : PyLib).

Lemma new_date_first y m :
  1 <= y <= 9999 -> 1 <= m <= 12 -> new_date L y m 1 = Return (Date y m 1).
Proof.
  intros Hy Hm. unfold new_date. pose proof (days_in_month_pos y m).
  destruct (Z.ltb_spec y 1), (Z.ltb_spec 9999 y); try lia.
  destruct (Z.ltb_spec m 1), (Z.ltb_spec 12 m); try lia.
  destruct (Z.ltb_spec 1 1), (Z.ltb_spec (days_in_month y m) 1); try lia.
  reflexivity.
Qed.

(** Without a target month, or with an empty one, [get_month_range] returns
    the first day of today's month and the first day of the month after it,
    the January of the next year after a December; whatever the day of
    today, also one the next month does not have. *)
Theorem month_range_of_today y m d (target_month : option string) :
  1 <= y <= 9999 -> 1 <= m <= 12 -> (m = 12 -> y < 9999) ->
  target_month = None \/ target_month = Some "" ->
  get_month_range L (Date y m d) target_month
  = Return (Date y m 1, if m =? 12 then Date (y + 1) 1 1 else Date y (m + 1) 1).
Proof.
  intros Hy Hm Hdec Ht. unfold get_month_range.
  assert (H1 : date_replace L (Date y m d) None None (Some 1) = Return (Date y m 1)).
  { unfold date_replace. cbn [d_year d_month]. now apply new_date_first. }
  assert (H0 : (match target_month with
     | Some s =>
         if truthy (PStr s) then
           dt <- py_strptime_ym L s ;;
           date_replace L (date_of dt) None None (Some 1)
         else date_replace L (Date y m d) None None (Some 1)
     | None => date_replace L (Date y m d) None None (Some 1)
     end) = Return (Date y m 1)).
  { destruct Ht as [->| ->]; exact H1. }
  rewrite H0. cbn [bind d_month d_year]. unfold date_replace. cbn [d_year d_month].
  destruct (Z.eqb_spec m 12) as [->|Hne].
  - rewrite new_date_first by lia. reflexivity.
  - rewrite new_date_first by lia. reflexivity.
Qed.

(** In December of the year 9999 there is no next month: [get_month_range]
    raises the [ValueError] of [date.replace]. *)
Theorem month_range_fails_after_last_year d :
  get_month_range L (Date 9999 12 d) None
  = Raise (ValueError ("year " ++ py_repr L (PInt 10000) ++ " is out of range")).
Proof.
  unfold get_month_range, date_replace. cbn [d_year d_month d_day].
  rewrite new_date_first by lia. reflexivity.
Qed.

End MonthOfToday.

(** On the 31st of January the range is January: the day is replaced first,
    so that February having no 31st is no error. *)
Lemma month_range_of_today_witness :
  get_month_range cpython (Date 2025 1 31) None
  = Return (Date 2025 1 1, Date 2025 2 1).
Proof.
  apply (@month_range_of_today cpython 2025 1 31 None); try lia. now left.
Defined.

(** ** The monthly reports *)

(** The days of [get_daily_totals]. *)
Lemma daily_days_iff user_id start_date end_date rows d :
  In d (map dt_day (daily_totals_of user_id start_date end_date rows)) <->
  exists tx, In tx rows /\ in_range start_date end_date tx = true /\
             (is_sender user_id tx || is_receiver user_id tx) = true /\
             date_of (timestamp tx) = d.
Proof.
  rewrite daily_totals_of_eq, map_map. cbn [dt_day]. rewrite map_id.
  rewrite <- active_day_iff. split; apply Permutation_in.
  - apply sort_by_perm.
  - symmetry. apply sort_by_perm.
Qed.

(** The filters of a month with the end included: the timestamps of the
    month, and the first instant of the next. *)
Lemma in_month_or_next_iff y m t :
  1 <= m <= 12 -> valid_timestamp t ->
  let next := if m =? 12 then Date (y + 1) 1 1 else Date y (m + 1) 1 in
  timestamp_ge t (Date y m 1) = true /\ timestamp_le t next = true
  <-> in_month (Date y m 1) t \/ starts_day next t.
Proof.
  intros Hm (Hmt & Hd & Hh & Hmi & Hs & Hus). cbv zeta.
  unfold timestamp_le, timestamp_ge, in_month, starts_day.
  unfold midnight, datetime_fields, date_fields.
  destruct (Z.eqb_spec m 12) as [->|Hne]; cbn [app d_year d_month d_day];
    rewrite !lex_leb_cons, !lex_leb_nil; lia.
Qed.

Lemma for_each_Return_in {A B} (f : A -> result B) xs : forall ys y,
  for_each f xs = Return ys -> In y ys -> exists x, In x xs /\ f x = Return y.
Proof.
  induction xs as [|x xs IH]; intros ys y; cbn [for_each].
  - intros [= <-] [].
  - destruct (f x) as [y0|] eqn:Hx; [|discriminate]. cbn [bind].
    destruct (for_each f xs) as [ys0|]; [|discriminate]. cbn [bind].
    intros [= <-] [<-|Hin].
    + exists x. split; [now left|exact Hx].
    + destruct (IH _ _ eq_refl Hin) as (x' & Hx' & Hf). exists x'.
      split; [now right|exact Hf].
Qed.

Section MonthlyReports.
Context (L : PyLib).

(** What the monthly job reports for a user.  The payments are the
    transactions of the user stamped in the month, and also those stamped
    at the first instant of the next month, since the end date of a query
    with a session is included; the daily totals have a day exactly for
    the days of the month with a transaction of the user, the end date
    being excluded there. *)
Theorem monthly_report_contents today target_month db reports
  (user_id : string) (payments daily : list pyval) :
  generate_monthly_reports L today target_month db = Return reports ->
  In (user_id, payments, daily) reports ->
  Forall (fun tx => valid_timestamp (timestamp tx)) (transactions db) ->
  exists first_day next_month txs,
    get_month_range L today target_month = Return (first_day, next_month) /\
    In user_id (users db) /\
    payments = map payment_dict txs /\
    (forall tx, In tx txs <->
       In tx (transactions db) /\
       (is_sender user_id tx || is_receiver user_id tx) = true /\
       (in_month first_day (timestamp tx) \/ starts_day next_month (timestamp tx))) /\
    daily = map daily_total_dict
              (daily_totals_of user_id (Some first_day) (Some next_month)
                               (transactions db)) /\
    (forall d,
       In d (map dt_day (daily_totals_of user_id (Some first_day) (Some next_month)
                                         (transactions db))) <->
       exists tx, In tx (transactions db) /\
                  (is_sender user_id tx || is_receiver user_id tx) = true /\
                  in_month first_day (timestamp tx) /\
                  date_of (timestamp tx) = d).
Proof.
  intros Hrun Hin Hvalid. unfold generate_monthly_reports in Hrun.
  destruct (get_month_range L today target_month) as [[first_day next_month]|] eqn:Hr;
    [|discriminate].
  cbn [bind] in Hrun.
  destruct (@for_each_Return_in _ _ _ _ _ _ Hrun Hin) as (u & Hu & Hf).
  pose proof (@get_payments_by_user_eq u (Some first_day) (Some next_month)
                (Some db) None _ eq_refl) as Hp.
  cbn [get_daily_totals bind] in Hf.
  destruct (get_payments_by_user u (Some first_day) (Some next_month) (Some db) None)
    as [p|]; [|discriminate]. cbn [bind] in Hf.
  injection Hp as ->. injection Hf as -> <- <-.
  destruct (get_month_range_inv _ _ _ Hr) as (y & m & Hm & -> & ->).
  rewrite Forall_forall in Hvalid.
  eexists _, _, _. split; [reflexivity|]. split; [exact Hu|].
  split; [reflexivity|].
  split; [|split; [reflexivity|]].
  - intros tx. cbn [session_given rows_read]. split.
    + intros H. apply (Permutation_in _ (sort_by_perm _ _)) in H.
      apply filter_In in H as (H & Hm'). split; [exact H|].
      unfold payment_matches in Hm'.
      apply andb_true_iff in Hm' as (Hm' & He).
      apply andb_true_iff in Hm' as (Hu' & Hs). split; [exact Hu'|].
      apply (in_month_or_next_iff y (Hm) (Hvalid _ H)). now split.
    + intros (H & Hu' & Hd).
      apply (Permutation_in _ (Permutation_sym (sort_by_perm _ _))).
      apply filter_In. split; [exact H|].
      apply (in_month_or_next_iff y (Hm) (Hvalid _ H)) in Hd as (Hs & He).
      unfold payment_matches. now rewrite Hu', Hs, He.
  - intros d. rewrite daily_days_iff. split.
    + intros (tx & H & Hr' & Hu' & Hd). exists tx. split; [exact H|].
      split; [exact Hu'|]. split; [|exact Hd].
      unfold in_range in Hr'. apply andb_true_iff in Hr'.
      apply (in_month_iff y Hm (Hvalid _ H)) in Hr'. exact Hr'.
    + intros (tx & H & Hu' & Hmo & Hd). exists tx. split; [exact H|].
      split; [|split; [exact Hu'|exact Hd]].
      unfold in_range. apply andb_true_iff.
      apply (in_month_iff y Hm (Hvalid _ H)). exact Hmo.
Qed.

End MonthlyReports.

(** The report of May 2025 for user1 on the ledger of the tests. *)
Lemma monthly_report_contents_witness :
  exists first_day next_month txs,
    get_month_range cpython (Date 2025 11 5) (Some "2025-05")
    = Return (first_day, next_month) /\
    In "user1" (users Scenario.ledger) /\
    map payment_dict
        (order_by_timestamp
           (filter (payment_matches true "user1" (Some (Date 2025 5 1))
                                    (Some (Date 2025 6 1)))
                   (transactions Scenario.ledger)))
    = map payment_dict txs.
Proof.
  destruct (@monthly_report_contents cpython (Date 2025 11 5) (Some "2025-05")
              Scenario.ledger
              (map (fun user_id =>
                      (user_id,
                       map payment_dict
                           (order_by_timestamp
                              (filter (payment_matches true user_id
                                         (Some (Date 2025 5 1)) (Some (Date 2025 6 1)))
                                      (transactions Scenario.ledger))),
                       map daily_total_dict
                           (daily_totals_of user_id (Some (Date 2025 5 1))
                              (Some (Date 2025 6 1)) (transactions Scenario.ledger))))
                   (users Scenario.ledger))
              "user1"
              (map payment_dict
                   (order_by_timestamp
                      (filter (payment_matches true "user1"
                                 (Some (Date 2025 5 1)) (Some (Date 2025 6 1)))
                              (transactions Scenario.ledger))))
              (map daily_total_dict
                   (daily_totals_of "user1" (Some (Date 2025 5 1))
                      (Some (Date 2025 6 1)) (transactions Scenario.ledger))))
    as (f & n & txs & H1 & H2 & H3 & _).
  - vm_compute. reflexivity.
  - left. reflexivity.
  - repeat constructor; vm_compute; discriminate.
  - exists f, n, txs. repeat split; assumption.
Defined.

(** ** The HTTP endpoints *)

Section Endpoints.
Context (L : PyLib).

Lemma truthy_nonempty s : s <> "" -> truthy (PStr s) = true.
Proof.
  intros H. cbn. apply negb_true_iff. now apply String.eqb_neq.
Qed.

Lemma parse_date_if_parses (p : option string) :
  date_param_parses L p -> exists d, parse_date_if L p = Respond d.
Proof.
  destruct p as [o|]; cbn [date_param_parses parse_date_if]; [|now exists None].
  intros [->|(dt & Hdt)]; [now exists None|].
  destruct (truthy (PStr o)); [|now exists None].
  unfold parse_date. destruct (truthy (PStr o)); [|now exists None].
  rewrite Hdt. now eexists.
Qed.

(** A non-empty date parameter that [fromisoformat] refuses with a
    [ValueError] makes both report endpoints answer 422 with the text of
    the parameter, whatever the user and the database are: a start date
    whatever the end date is, and an end date whenever the start date is
    absent, empty or parses (of two refused dates the start date is the one
    reported). *)
Theorem api_rejects_invalid_date (s : string) (e : exn) :
  s <> "" ->
  py_fromisoformat L s = Raise e ->
  is_ValueError e = true ->
  forall (user_id : string) (db : database),
    (forall end_date,
       payments_by_user L user_id (Some s) end_date db
       = HTTPException 422 ("Invalid date format: " ++ s) /\
       daily_totals L user_id (Some s) end_date db
       = HTTPException 422 ("Invalid date format: " ++ s)) /\
    (forall start_date,
       date_param_parses L start_date ->
       payments_by_user L user_id start_date (Some s) db
       = HTTPException 422 ("Invalid date format: " ++ s) /\
       daily_totals L user_id start_date (Some s) db
       = HTTPException 422 ("Invalid date format: " ++ s)).
Proof.
  intros Hs Hf He user_id db.
  assert (Hp : parse_date_if L (Some s)
               = HTTPException 422 ("Invalid date format: " ++ s)).
  { unfold parse_date_if, parse_date. now rewrite (truthy_nonempty Hs), Hf, He. }
  unfold payments_by_user, daily_totals. split.
  - intros end_date. rewrite Hp. split; reflexivity.
  - intros start_date Hok. destruct (parse_date_if_parses _ Hok) as (d & ->).
    rewrite Hp. split; reflexivity.
Qed.

(** The two endpoints read the same end date differently.  With an end date
    that parses, the payments endpoint returns the transactions of the user
    stamped up to the midnight that begins that date, this instant
    included, in timestamp order, and the daily totals endpoint has a day
    exactly where the user has a transaction stamped before it.  The time
    of day of the parameter is dropped. *)
Theorem api_end_date_filters (user_id e : string) (dt : datetime) (db : database) :
  e <> "" ->
  py_fromisoformat L e = Return dt ->
  exists txs days,
    payments_by_user L user_id None (Some e) db = Respond (map payment_dict txs) /\
    (forall tx, In tx txs <->
       In tx (transactions db) /\
       (is_sender user_id tx || is_receiver user_id tx) = true /\
       timestamp_le (timestamp tx) (date_of dt) = true) /\
    StronglySorted (fun a b => timestamp_leb (timestamp a) (timestamp b) = true) txs /\
    daily_totals L user_id None (Some e) db = Respond (map daily_total_dict days) /\
    (forall d, In d (map dt_day days) <->
       exists tx, In tx (transactions db) /\
                  (is_sender user_id tx || is_receiver user_id tx) = true /\
                  timestamp_lt (timestamp tx) (date_of dt) = true /\
                  date_of (timestamp tx) = d).
Proof.
  intros He Hf.
  assert (Hp : parse_date_if L (Some e) = Respond (Some (date_of dt))).
  { unfold parse_date_if, parse_date. now rewrite (truthy_nonempty He), Hf. }
  unfold payments_by_user, daily_totals. rewrite Hp. cbn [parse_date_if].
  rewrite (@get_payments_by_user_eq user_id None (Some (date_of dt)) (Some db) None
             _ eq_refl).
  cbn [get_daily_totals].
  eexists _, _. split; [reflexivity|].
  split; [|split; [|split; [reflexivity|]]].
  - intros tx. cbn [session_given rows_read]. split.
    + intros H. apply (Permutation_in _ (sort_by_perm _ _)) in H.
      apply filter_In in H as (H & Hm). split; [exact H|].
      unfold payment_matches in Hm. rewrite andb_true_r in Hm.
      now apply andb_true_iff in Hm.
    + intros (H & Hu & Hle).
      apply (Permutation_in _ (Permutation_sym (sort_by_perm _ _))).
      apply filter_In. split; [exact H|].
      unfold payment_matches. now rewrite Hu, Hle.
  - apply order_by_timestamp_sorted.
  - intros d. rewrite daily_days_iff. unfold in_range.
    split; intros (tx & H & H1 & H2 & H3); exists tx.
    + cbn in H1. auto.
    + cbn. auto.
Qed.

End Endpoints.

(** The thirteenth month, as end date after a start date that parses. *)
Lemma api_rejects_invalid_date_witness :
  payments_by_user cpython "user1" (Some "2025-05-01") (Some "2025-13-01")
                   Scenario.ledger
  = HTTPException 422 "Invalid date format: 2025-13-01" /\
  daily_totals cpython "user1" (Some "2025-13-01") (Some "2025-05-01")
               Scenario.ledger
  = HTTPException 422 "Invalid date format: 2025-13-01".
Proof.
  destruct (@api_rejects_invalid_date cpython "2025-13-01"
              (ValueError "month must be in 1..12")) with
    (user_id := "user1") (db := Scenario.ledger) as (Hstart & Hend).
  - discriminate.
  - vm_compute. reflexivity.
  - reflexivity.
  - split.
    + apply (Hend (Some "2025-05-01")). right.
      exists (Datetime 2025 5 1 0 0 0 0 None). vm_compute. reflexivity.
    + apply (Hstart (Some "2025-05-01")).
Defined.

(** The end date 2025-05-02 on the ledger of the tests. *)
Lemma api_end_date_filters_witness :
  exists txs,
    payments_by_user cpython "user1" None (Some "2025-05-02") Scenario.ledger
    = Respond (map payment_dict txs).
Proof.
  destruct (@api_end_date_filters cpython "user1" "2025-05-02"
              (Datetime 2025 5 2 0 0 0 0 None) Scenario.ledger)
    as (txs & days & H & _).
  - discriminate.
  - vm_compute. reflexivity.
  - exists txs. exact H.
Defined.

(** ** The entry points *)

Section EntryPoints.
Context (L : PyLib).

(** A batch that fails leaves the database as it was. *)
Lemma import_csv_raise_db rows db e :
  run_result (import_csv L rows db) = Raise e ->
  run_db (import_csv L rows db) = db.
Proof.
  unfold import_csv, with_Session, bindM, run_result, run_db.
  destruct (import_rows_spec L rows (Session db)) as (Hd & _).
  destruct (import_rows L rows (Session db)) as [[s1 l1] [os|e1]];
    cbn [fst snd] in *; [|intros _; exact Hd].
  unfold session_commit, bindM, session_flush.
  destruct (insert_objects L (s_db s1) (s_new s1)); cbn; [discriminate|].
  intros _. exact Hd.
Qed.

(** The same from a file: also when it cannot be opened, or read to its
    end. *)
Lemma import_csv_file_raise_db file db e :
  run_result (import_csv_file L file db) = Raise e ->
  run_db (import_csv_file L file db) = db.
Proof.
  destruct file as [[rows [e'|]]|e']; cbn [import_csv_file].
  - intros _. unfold with_Session, bindM, run_db.
    destruct (import_rows_spec L rows (Session db)) as (Hd & _).
    destruct (import_rows L rows (Session db)) as [[s1 l1] [os|e1]];
      cbn [fst snd] in *; exact Hd.
  - apply import_csv_raise_db.
  - reflexivity.
Qed.

(** The exit status of the importer's command.  When argparse ends the
    command itself, with its own status, nothing is opened and the database
    is untouched.  Otherwise the status is 0 exactly when the file is
    opened and read to its end and [import_csv] returns, and the database
    is then the one [import_csv] committed; in every other case, a file
    that cannot be opened, a line the reader refuses, a refused write, the
    status is 1 and the database is what it was before the run. *)
Theorem csv_main_exit_status (args : parsed_args)
  (open_file : string -> result reading) (db : database) :
  match args with
  | ArgparseExit status =>
      csv_importer_main L args open_file db = (db, [], Return status)
  | Parsed filename =>
      (run_result (csv_importer_main L args open_file db) = Return 0 /\
       exists rows os,
         open_file filename = Return (rows, None) /\
         run_result (import_csv L rows db) = Return os /\
         run_db (csv_importer_main L args open_file db)
         = run_db (import_csv L rows db)) \/
      (run_result (csv_importer_main L args open_file db) = Return 1 /\
       run_db (csv_importer_main L args open_file db) = db /\
       forall rows os,
         open_file filename = Return (rows, None) ->
         run_result (import_csv L rows db) <> Return os)
  end.
Proof.
  destruct args as [filename|status]; [|reflexivity].
  unfold csv_importer_main.
  pose proof (@import_csv_file_raise_db (open_file filename) db) as Hraise.
  unfold run_result, run_db in *.
  destruct (import_csv_file L (open_file filename) db) as [[db' log] [os|e]] eqn:Hi;
    cbn [fst snd] in *.
  - left. split; [reflexivity|].
    destruct (open_file filename) as [[rows [e'|]]|e']; cbn [import_csv_file] in Hi.
    + exfalso. revert Hi. unfold with_Session, bindM, lift.
      destruct (import_rows L rows (Session db)) as [[s1 l1] [os1|e1]];
        discriminate.
    + exists rows, os. rewrite Hi. now repeat split.
    + discriminate.
  - right. split; [reflexivity|]. split; [exact (Hraise e eq_refl)|].
    intros rows os Hopen. rewrite Hopen in Hi. cbn [import_csv_file] in Hi.
    rewrite Hi. discriminate.
Qed.

(** When the consumer has handled the messages delivered without an
    exception, each message has its outcome, the ledger has grown by one
    transaction for each message accepted and the quarantine by one record
    for each message rejected, and a duplicate has added nothing. *)
Theorem consume_accounts_for_every_message (bodies : list delivery) :
  forall (db : database) (os : list outcome),
  run_result (consume L bodies db) = Return os ->
  List.length os = List.length bodies /\
  List.length (transactions (run_db (consume L bodies db)))
  = (List.length (transactions db) + List.length (filter is_accepted os))%nat /\
  List.length (rejected_records (run_db (consume L bodies db)))
  = (List.length (rejected_records db) + List.length (filter is_quarantined os))%nat.
Proof.
  induction bodies as [|body bodies IH]; intros db os.
  - cbn. intros [= <-]. cbn. repeat split; lia.
  - cbn [consume]. unfold bindM, run_result, run_db.
    pose proof (callback_effect L body db) as Hc.
    destruct (callback L body db) as [[db1 l1] [o|e]]; cbn [fst snd];
      [|discriminate].
    specialize (IH db1). unfold run_result, run_db in IH.
    destruct (consume L bodies db1) as [[db2 l2] [os2|e]]; cbn [fst snd] in *;
      [|discriminate].
    unfold ret. cbn [fst snd]. intros [= <-].
    destruct (IH os2 eq_refl) as (Hlen & Ht & Hq).
    cbn [List.length filter]. split; [now rewrite Hlen|].
    rewrite Ht, Hq. destruct o as [|r|]; cbn [is_accepted is_quarantined List.length].
    + destruct Hc as (data & tx & _ & _ & _ & Hins).
      apply insert_transaction_row_inv in Hins as (-> & _).
      cbn [with_transaction transactions rejected_records].
      rewrite length_app. cbn. lia.
    + destruct Hc as (text' & _ & ->).
      cbn [insert_rejected_row transactions rejected_records].
      rewrite length_app. cbn. lia.
    + subst db1. lia.
Qed.

(** A message that is JSON but no object or array or string, that is null,
    a boolean or a number, is not a crash of the consumer: the [TypeError]
    of the membership test is caught and the body is saved as a rejected
    record with its text as reason. *)
Theorem scalar_message_is_quarantined (body : delivery) (data : pyval)
  (text : string) (db : database) :
  body_loads body = Return data ->
  body_decode body = Return text ->
  is_scalar data = true ->
  let reason := "argument of type '" ++ type_name data ++ "' is not iterable" in
  callback L body db =
  (insert_rejected_row db {| reason := reason; payload := text; source := "queue" |},
   [LogMalformedMessage reason; LogSavedRejected reason],
   Return (Quarantined reason)).
Proof.
  intros Hl Hd Hs reason.
  unfold callback, try_except, bindM, lift. rewrite Hl. cbn [fst snd].
  assert (Hv : validate_message L data = Raise (TypeError reason)).
  { destruct data; try discriminate Hs; reflexivity. }
  rewrite Hv. cbn. rewrite Hd. reflexivity.
Qed.

End EntryPoints.

(** The body [42]. *)
Lemma scalar_message_is_quarantined_witness :
  run_result
    (callback cpython {| body_loads := Return (PInt 42); body_decode := Return "42" |}
              Sample.seeded)
  = Return (Quarantined "argument of type 'int' is not iterable").
Proof.
  rewrite (@scalar_message_is_quarantined cpython
             {| body_loads := Return (PInt 42); body_decode := Return "42" |}
             (PInt 42) "42" Sample.seeded eq_refl eq_refl eq_refl).
  reflexivity.
Defined.

(** The valid message delivered twice, then the body [42]: one
    transaction, one rejected record. *)
Lemma consume_accounts_for_every_message_witness :
  List.length
    (transactions
       (run_db (consume cpython
                  [Sample.valid_message; Sample.valid_message;
                   {| body_loads := Return (PInt 42); body_decode := Return "42" |}]
                  Sample.seeded))) = 1%nat /\
  List.length
    (rejected_records
       (run_db (consume cpython
                  [Sample.valid_message; Sample.valid_message;
                   {| body_loads := Return (PInt 42); body_decode := Return "42" |}]
                  Sample.seeded))) = 1%nat.
Proof.
  destruct (@consume_accounts_for_every_message cpython
              [Sample.valid_message; Sample.valid_message;
               {| body_loads := Return (PInt 42); body_decode := Return "42" |}]
              Sample.seeded
              [Accepted; Duplicate;
               Quarantined "argument of type 'int' is not iterable"])
    as (_ & Ht & Hq).
  - vm_compute. reflexivity.
  - split; [exact Ht|exact Hq].
Defined.

(** ** What the daily totals read of a transaction *)

Section Labels.

Let norm (tx : Transaction) : Transaction := blank_labels (money_of tx).

Lemma filter_map_norm (p : Transaction -> bool) rows :
  (forall tx, p (norm tx) = p tx) ->
  filter p (map norm rows) = map norm (filter p rows).
Proof.
  intros Hp. induction rows as [|tx rows IH]; cbn [map filter]; [reflexivity|].
  rewrite Hp, IH. destruct (p tx); reflexivity.
Qed.

Lemma sum_by_day_norm rows : sum_by_day (map norm rows) = sum_by_day rows.
Proof.
  unfold sum_by_day. generalize (@nil (date * pyfloat)).
  induction rows as [|tx rows IH]; intros g; cbn [map fold_left]; [reflexivity|].
  apply IH.
Qed.

Lemma daily_totals_of_norm user_id start_date end_date rows :
  daily_totals_of user_id start_date end_date (map norm rows)
  = daily_totals_of user_id start_date end_date rows.
Proof.
  unfold daily_totals_of.
  rewrite !filter_map_norm by reflexivity. rewrite !sum_by_day_norm. reflexivity.
Qed.

(** [get_daily_totals] reads the sender, the receiver, the amount and the
    timestamp of a transaction and nothing else: two ledgers whose
    transactions agree on these, in order, have the same daily totals.  So
    failed and pending transactions count like completed ones, and amounts
    in different currencies are added up. *)
Theorem daily_totals_ignore_status_and_currency (user_id : string)
  (start_date end_date : option date) (db1 db2 : database)
  (bind : option database) :
  map money_of (transactions db1) = map money_of (transactions db2) ->
  get_daily_totals user_id start_date end_date (Some db1) bind
  = get_daily_totals user_id start_date end_date (Some db2) bind.
Proof.
  intros H. cbn [get_daily_totals]. do 2 f_equal.
  rewrite <- (daily_totals_of_norm _ _ _ (transactions db1)).
  rewrite <- (daily_totals_of_norm _ _ _ (transactions db2)).
  unfold norm. rewrite <- !(map_map money_of blank_labels), H. reflexivity.
Qed.

End Labels.

(** The ledger of the tests with every transaction failed and in EUR. *)
Lemma daily_totals_ignore_status_and_currency_witness :
  get_daily_totals "user1" None None (Some Scenario.ledger) None
  = get_daily_totals "user1" None None
      (Some {| users := users Scenario.ledger;
               currencies := currencies Scenario.ledger;
               transactions :=
                 map (fun tx => {| id := id tx; sender_id := sender_id tx;
                                   receiver_id := receiver_id tx;
                                   amount := amount tx; currency := PStr "EUR";
                                   timestamp := timestamp tx; status := failed |})
                     (transactions Scenario.ledger);
               rejected_records := [] |})
      None.
Proof.
  apply daily_totals_ignore_status_and_currency. reflexivity.
Defined.
